(* ===== verification/_CoqProject ===== *)
-Q . S2P
Prelude.v
Utf8.v
JsRuntime.v
StoreSpec.v
TaskModel.v
TaskController.v
ControllerRefinement.v
Server.v
TaskBackend.v
TaskManager.v
Auth.v
Firestore.v
PushChannel.v
Async.v
App.v
Render.v
AsyncApp.v
