(* ===== verification/Prelude.v ===== *)
(** * A verification development of Cantilever-Task-Management

    The repository is a personal task tracker with two back ends and one
    browser client:

    - [src/server/controller/taskController.js]: an Express controller
      ([getTasks], [addTask], [updateTask], [deleteTask]) over a Mongoose
      [Task] collection.  The caller is resolved by an authentication
      middleware ([req.user]); every task carries its owner ([user]).
    - [src/client/src/context/AuthContext.js]: the [AuthProvider], which
      keeps [currentUser], [loadingAuth] and [authError] and reacts to
      Firebase's [onAuthStateChanged] (anonymous sign-in when nobody is
      signed in).
    - [src/client/src/context/FirestoreContext.js]: the
      [FirestoreProvider], which subscribes with [onSnapshot] to the
      collection [artifacts/<appId>/users/<uid>/tasks] of the signed-in
      user, keeps the last delivered [tasks] and a [firestoreError], and
      offers [addTask], [updateTask], [deleteTask].
    - [src/client/src/App.jsx]: the [TaskManager] view-model (filter,
      sort, draft title, editing state, modal) and the [App] root that
      chooses between loading screen, [AuthScreen] and [TaskManager].
    - [src/client/src/component/modal.js]: the presentational [Modal].

    ** Files, in dependency order

    - [Prelude] (this file): the outcome of an awaited call ([Returns] or
      [Throws] with the error's [message]) and its notation in
      [task_scope], the hint databases [task_db] and [task_rw], the
      tactic [outcome_inv], and the list lemmas the components share.
    - [Utf8]: strings hold the UTF-8 encoding of JavaScript strings; the
      encoder and the decoder of code points ([TextEncoder],
      [TextDecoder]) and their round trip.
    - [JsRuntime]: the parts of the JavaScript runtime the code relies
      on: truthiness, [typeof], [||], [String.prototype.trim] (on the
      code points, with every white space and line terminator of
      ECMA-262), [Array.prototype.sort] with a comparator (a stable
      insertion sort, which any conforming engine matches on a consistent
      comparator) and [localeCompare] through a [LocaleCollation] class.
    - [StoreSpec]: the abstract task store of spec sections 3, 4.2 and 7
      ([s_list], [s_create], [guard], [s_update], [s_delete]).
    - [TaskModel]: the Mongoose side of the server: the [Task] document
      (models/Task.js is not under src/ and is modelled from the spec),
      ObjectIds as 24 hexadecimal digits with printing and casting, and
      the collection ([Db], a [gmap] by id with a counter for fresh ids)
      with [find]/[sort], [findById], [save] and [deleteOne].
    - [TaskController]: the four handlers of [taskController.js], each a
      function of a request, the time and the collection returning the
      response (status and JSON body) and the new collection, with the
      [try]/[catch] branches as values; the routes and the [protect]
      middleware (not under src/, from the spec) and [run] over a request
      sequence.
    - [ControllerRefinement]: the abstraction of the collection to the
      spec's store and the refinement theorem: on the spec's domain every
      request answers what [StoreSpec] answers; outside it, the three
      divergences.
    - [Server]: [index.js] as Express 4 routes it: mount points matched
      without case and with an optional trailing slash, [:id] decoded
      with [decodeURIComponent] (400 when it does not decode), 404 for
      other paths, [GET /]; the task routes go to [handle].
    - [TaskBackend]: the value of [FirestoreContext] (tasks, error, three
      async writes) as the class [TaskBackend], the interface between
      the view and the provider.
    - [TaskManager]: the view-model of [App.jsx]: its [useState] record,
      [filteredTasks] and [sortedTasks], the handlers and [dispatch] of
      the UI events, proved against any [TaskBackend].
    - [Auth]: Firebase Auth (library, from its documentation) and the
      [AuthProvider]: the observer, [register], [login], [logout], as the
      step relation [auth_step] over the provider, Firebase and the queue
      of pending observer calls.
    - [Firestore]: Cloud Firestore (library: [addDoc], [updateDoc],
      [deleteDoc], server timestamps, the ordered query) and the
      [FirestoreProvider]: its writes ([firestore_backend] instantiates
      [TaskBackend]), the subscription effect and the listener's
      callbacks, as events [fs_event] with the invariants [listener_ok]
      and [store_owned].
    - [App]: [App] and [AuthScreen] and the composed [AppWorld]: auth
      world, store provider, and the two screens' states; [app_event]
      runs one observer call, screen event or push event, re-running the
      provider's effect and remounting screens as React does.
    - [PushChannel]: the push-mode state machine of spec section 4.3
      ([PushSpec]: Disconnected, Subscribing, Streaming) and the
      simulation of the provider's subscription by it, with a ghost flag
      for the first delivery.
    - [Async]: the four handlers of [TaskManager] that [await] a store
      call, split at the [await]: [start] runs the guard and the call,
      [resume] the rest when the promise settles; [async_event] takes
      user events and settlements ([AResolve n]) in any order, on the
      state as it is when each arrives.
    - [AsyncApp]: [App] with the calls split: the view's handlers as in
      [Async] and the provider's writes at their [await]
      ([provider_start], [provider_settle]); [aa_event] takes the events
      of [App] and settlements, and runs a view continuation only on the
      [TaskManager] instance that awaited it ([aa_mount] counts mounts).
    - [Render]: the JSX of [TaskManager], [AuthScreen] and [App] and the
      [Modal] component ([component/modal.js]) as functions from the
      state they read to what is shown: texts, input values, the task rows
      with their buttons and the event each sends, the modal.

    ** What the theorems show

    - Runtime, as lemmas the client's theorems rest on: decoding the
      UTF-8 encoding of code points gives them back
      ([utf8_decode_encode]), and [js_trim] is ECMA-262's [TrimString]
      ([js_trim_spec]), so a title of Unicode spaces is blank to the
      view.
    - Server: [getTasks] lists only (and, online, exactly) the caller's
      tasks, newest first; updates and deletes answer 404 before 401 and
      change nothing then; no request touches another user's document;
      every request keeps the collection well formed and ids are never
      reused; an update sent again changes nothing, [updatedAt]
      included; a route's URL, its id escaped with [encodeURIComponent],
      reaches that route with the id itself ([route_url_roundtrip]);
      [addTask], [updateTask], [deleteTask] behave as written on every
      branch; ObjectIds round-trip through their printed form.  Every
      response has the JSON shape its route and status promise
      ([handle_response_typed]), and a run of [k] requests hands out at
      most [k] ids, all 96-bit ObjectIds while the counter stays below
      [2^96] ([run_ids_within_bound]).  [handle_refines] proves the
      handlers refine the spec's store on its domain; three theorems
      show where they do not: blank titles (Unicode spaces included) are
      accepted on create and update, and a malformed id answers 500
      instead of 404.
    - Client: the shown list is the filtered delivered list, sorted by
      the chosen order and stably, when timestamps are known, and
      'oldest' is the reverse of 'newest' when no two tasks share a
      millisecond; with a pending timestamp the 'newest' comparator is
      inconsistent.  On screen, at most one row is in edit mode and it
      is the edited task's, and every failed store call shows the modal
      in its error form.  The pending observer calls of Firebase Auth
      drain and loading ends.  Handlers touch the store only through
      their one call, report every failure, refuse blank titles locally
      and acknowledge successes.  In the application, a title of white
      space only, Unicode spaces included, is refused before any store
      call ([app_blank_title_refused]); a toggle stores the negation of
      the flag the row showed ([app_toggle_complete]); a delete removes
      the id from the user's collection and reports success, also for an
      id already deleted, where the spec asks for NotFound
      ([app_delete_task]).  The provider's writes stay in the user's
      collection; a delivery shows the full listened collection in the
      query's order, and only the user's tasks; a listener error ends
      updates, and the next write hides the error; the subscription
      refines the spec's push channel ([push_run_refines]); after a
      commit no timestamp is pending. In the composed application the
      providers stay coherent along every run, an add either stores the
      task or reports the error, registering leads to a fresh
      [TaskManager] for the new user and a failed login is reported on
      the [AuthScreen].  The findings: [currentUser] is never cleared,
      so after the first sign-in the [AuthScreen] is unreachable and
      logout keeps the user; a change of user shows the previous user's
      tasks until the first snapshot; unauthenticated writes and deletes
      of missing documents resolve.
    - Interleaving: a run of [App] in which every call settles before
      the next event is a run of the atomic application
      ([app_serialised_is_atomic]); the providers stay coherent along
      every interleaving ([interleaved_run_ok]); once signed in, a
      pending call is acknowledged on the shown [TaskManager] whatever
      happens first, a logout and a new user's sign-in included
      ([pending_resumes_after_app_events]); a late success
      erases a draft typed meanwhile or closes an editor opened
      meanwhile; two submissions before the first settles store the task
      twice, where spec section 5 asks for the add control to be
      serialised.

    ** Bounds, fuel and atomicity

    Every recursion is structural.  The one definition with fuel,
    [flush_observer], delivers pending observer calls; [queue_weight]
    (2 per call without a user, which may queue one more call, 1 per call
    with a user) is enough fuel, and it is at most twice the number of
    pending calls.  ObjectIds
    are below [2^96] (24 hexadecimal digits), the bound under which
    printing and casting are inverse; ids handed out by the counter are
    assumed below it where a theorem needs the round trip.  In
    [TaskManager] and [App] an [await] completes before the next event;
    [Async] and [AsyncApp] drop that assumption for the view's handlers
    and the provider's writes, whose promises settle in any order among
    other events, and show the atomic models are their case of immediate
    settlement.  A write reaches Firestore's local cache when it is
    issued; its rejection is known when it settles.  The other interleavings,
    observer calls, snapshots, server commits and user events, are
    explicit events of [auth_step], [fs_event] and [app_event].

    ** Not modelled

    The JSX layout and the CSS classes that only style (those that carry
    meaning, the modal's colours, a struck title, the selected filter, are
    modelled), dotenv, CORS, the database connection and the
    [/api/auth] routes of the server, ObjectIds given as 12-byte strings,
    and the network between client and
    Firestore beyond the events above.  The libraries (Mongoose, Firebase
    Auth, Cloud Firestore) are modelled from their documented behaviour,
    as far as the code calls them.  What remains of the sources is wiring
    with no behaviour of its own: imports, [initializeApp], [getAuth],
    [getFirestore], [createContext] and the [useAuth]/[useFirestore]
    hooks (the providers' values are passed explicitly), [cors],
    [connectDB] and [app.listen].  [express.json] is modelled by its
    result only: request bodies are given as parsed fields, because the
    model's JSON values keep numbers as integers, arrays by their kind
    and objects by their string [_id], so the parser's answer to a malformed body (400) and
    fractional numbers are left out.
    The order of tasks with equal [createdAt] is the model's own (the
    map's order): MongoDB leaves it unspecified for [sort({ createdAt:
    -1 })] and Firestore breaks such ties by document name; no theorem
    depends on it.
    Strings are Rocq strings of bytes holding UTF-8: a JavaScript string
    with a lone surrogate has no such encoding and is outside the model. *)

From stdpp Require Export base list gmap strings pretty.
From Stdlib Require Export ZArith Lia Sorted.

Declare Scope task_scope.
Delimit Scope task_scope with task.
Open Scope task_scope.

(** ** Outcome of an awaited call

    An [await] either resumes with a value or raises; the raised error
    carries its [message].  [Throws] is the rejected promise. *)
Inductive outcome (A : Type) : Type :=
| Returns (a : A)
| Throws (message : string).
Arguments Returns {A} a.
Arguments Throws {A} message.

Definition outcome_bind {A B} (c : outcome A) (k : A -> outcome B) : outcome B :=
  match c with
  | Returns a => k a
  | Throws m => Throws m
  end.

Notation "'await!' x <- c ; k" := (outcome_bind c (fun x => k))
  (at level 10, x name, c at level 100, k at level 200) : task_scope.

Create HintDb task_db.
Create Rewrite HintDb task_rw.

(** ** Shared lemmas on lists *)

Lemma outcome_bind_returns {A B} (a : A) (k : A -> outcome B) :
  outcome_bind (Returns a) k = k a.
Proof. reflexivity. Qed.

Lemma outcome_bind_throws {A B} m (k : A -> outcome B) :
  outcome_bind (Throws m) k = Throws m.
Proof. reflexivity. Qed.

#[export] Hint Rewrite @outcome_bind_returns @outcome_bind_throws : task_rw.

(** Filtering with two predicates is filtering with their conjunction. *)
Lemma filter_filter_andb {A} (p q : A -> bool) (l : list A) :
  List.filter p (List.filter q l) = List.filter (fun x => q x && p x) l.
Proof.
  induction l as [|x l IH]; simpl; [done|].
  destruct (q x); simpl; destruct (p x); simpl; rewrite ?IH; done.
Qed.

(** A filter whose predicate holds on every element is the identity. *)
Lemma filter_all_true {A} (p : A -> bool) (l : list A) :
  (forall x, In x l -> p x = true) -> List.filter p l = l.
Proof.
  induction l as [|x l IH]; intros H; simpl; [done|].
  rewrite H by (left; done). f_equal. apply IH. intros y Hy. apply H. by right.
Qed.

(** A filter whose predicate fails on every element is empty. *)
Lemma filter_all_false {A} (p : A -> bool) (l : list A) :
  (forall x, In x l -> p x = false) -> List.filter p l = [].
Proof.
  induction l as [|x l IH]; intros H; simpl; [done|].
  rewrite H by (left; done). apply IH. intros y Hy. apply H. by right.
Qed.

(** Filtering a mapped list is mapping the filtered list. *)
Lemma filter_map_swap {A B} (p : B -> bool) (f : A -> B) (l : list A) :
  List.filter p (List.map f l) = List.map f (List.filter (fun x => p (f x)) l).
Proof.
  induction l as [|x l IH]; simpl; [done|]. destruct (p (f x)); simpl; by rewrite IH.
Qed.

(** Filtering commutes with permutations. *)
Lemma Permutation_filter_bool {A} (p : A -> bool) (l l' : list A) :
  Permutation l l' -> Permutation (List.filter p l) (List.filter p l').
Proof.
  induction 1 as [|x l l' _ IH|x y l|l l' l'' _ IH1 _ IH2]; simpl.
  - done.
  - destruct (p x); [constructor|]; done.
  - destruct (p x), (p y); try constructor; done.
  - by rewrite IH1.
Qed.

(** Strong sortedness is monotone in the order. *)
Lemma StronglySorted_weaken {A} (R R' : A -> A -> Prop) (l : list A) :
  (forall x y, R x y -> R' x y) -> StronglySorted R l -> StronglySorted R' l.
Proof.
  intros HR. induction 1 as [|x l _ IH Hx]; constructor; [done|].
  eapply Forall_impl; [exact Hx|]. intros y Hy. by apply HR.
Qed.

(** ... and in the order restricted to the elements of the list. *)
Lemma StronglySorted_weaken_on {A} (P : A -> Prop) (R R' : A -> A -> Prop) (l : list A) :
  (forall x y, P x -> P y -> R x y -> R' x y) -> Forall P l ->
  StronglySorted R l -> StronglySorted R' l.
Proof.
  intros HR HP Hs. induction Hs as [|x l _ IH Hx]; constructor.
  - apply IH. by apply Forall_cons in HP as [_ ?].
  - apply Forall_cons in HP as [HPx HPl]. rewrite List.Forall_forall in Hx, HPl |- *.
    intros y Hy. apply HR; auto.
Qed.

Lemma StronglySorted_app_r {A} (R : A -> A -> Prop) (l : list A) x :
  StronglySorted R l -> Forall (fun y => R y x) l -> StronglySorted R (l ++ [x]).
Proof.
  intros Hs. induction Hs as [|y l _ IH Hy]; intros Hx; cbn.
  - repeat constructor.
  - apply Forall_cons in Hx as [Hyx Hx]. constructor; [by apply IH|].
    apply List.Forall_app. split; [done|]. by constructor.
Qed.

(** Reversing a sorted list sorts it by the converse relation. *)
Lemma StronglySorted_rev {A} (R : A -> A -> Prop) (l : list A) :
  StronglySorted R l -> StronglySorted (fun a b => R b a) (rev l).
Proof.
  intros Hs. induction Hs as [|x l _ IH Hx]; cbn; [constructor|].
  apply StronglySorted_app_r; [done|]. apply Forall_rev, Hx.
Qed.

(** Two lists sorted by a key on which they have no duplicate, and which
    are permutations of each other, are equal: sorting by distinct keys has
    one result. *)
Lemma sorted_by_key_unique {A} (k : A -> Z) (l1 l2 : list A) :
  NoDup (map k l1) -> Permutation l1 l2 ->
  StronglySorted (fun a b => (k a <= k b)%Z) l1 -> StronglySorted (fun a b => (k a <= k b)%Z) l2 ->
  l1 = l2.
Proof.
  revert l2. induction l1 as [|x l1 IH]; intros l2 Hnd Hp Hs1 Hs2.
  - symmetry. by apply Permutation_nil.
  - destruct l2 as [|y l2]; [by apply Permutation_sym, Permutation_nil_cons in Hp|].
    apply StronglySorted_inv in Hs1 as [Hs1 Hx], Hs2 as [Hs2 Hy].
    cbn in Hnd. apply NoDup_cons in Hnd as [Hnx Hnd].
    assert (Hxy : x = y).
    { destruct (Permutation_in x Hp (in_eq x l1)) as [->|Hx2]; [done|].
      destruct (Permutation_in y (Permutation_sym Hp) (in_eq y l2)) as [->|Hy1]; [done|].
      rewrite List.Forall_forall in Hx, Hy. specialize (Hx y Hy1). specialize (Hy x Hx2).
      exfalso. apply Hnx. apply list_elem_of_In, in_map_iff. exists y. split; [lia|done]. }
    subst y. f_equal. apply IH; [done|by apply Permutation_cons_inv in Hp|done|done].
Qed.

Lemma NoDup_map_filter {A B} (k : A -> B) (p : A -> bool) (l : list A) :
  NoDup (map k l) -> NoDup (map k (List.filter p l)).
Proof.
  induction l as [|x l IH]; cbn; [done|]. intros Hnd. apply NoDup_cons in Hnd as [Hx Hnd].
  destruct (p x); cbn; [|by apply IH]. constructor; [|by apply IH].
  intros Hin. apply Hx. apply list_elem_of_In in Hin. apply list_elem_of_In. apply in_map_iff in Hin as (y & <- & Hy).
  apply in_map_iff. exists y. split; [done|]. by apply filter_In in Hy as [? _].
Qed.

(** ** Shared lemmas on strings *)

Lemma string_length_app (s1 s2 : string) :
  String.length (s1 +:+ s2) = String.length s1 + String.length s2.
Proof. induction s1 as [|c s1 IH]; simpl; [done|]. by rewrite IH. Qed.

(** Appending the same suffix is injective. *)
Lemma string_app_inj_r (s1 s2 t : string) : s1 +:+ t = s2 +:+ t -> s1 = s2.
Proof.
  revert s2. induction s1 as [|c s1 IH]; intros [|c2 s2] H; simpl in H; [done| | |].
  - apply (f_equal String.length) in H. simpl in H. rewrite ?string_length_app in H. simpl in H. lia.
  - apply (f_equal String.length) in H. simpl in H. rewrite ?string_length_app in H. simpl in H. lia.
  - injection H as -> H. f_equal. by apply IH.
Qed.

(** Destructs a hypothesis [H : f ... = Returns _] or [Throws _] produced by
    an [outcome_bind] chain. *)
Ltac outcome_inv :=
  repeat match goal with
  | H : Returns _ = Returns _ |- _ => injection H as H; subst
  | H : Throws _ = Throws _ |- _ => injection H as H; subst
  | H : Returns _ = Throws _ |- _ => discriminate H
  | H : Throws _ = Returns _ |- _ => discriminate H
  end.
