(* ===== verification/Utf8.v ===== *)
(** * UTF-8: how the model's strings hold JavaScript strings

    A JavaScript string is a sequence of code points (UTF-16 in memory).
    The model keeps strings as Rocq strings of bytes, holding the UTF-8
    encoding of those code points, as the browser sends them to Firebase
    and as [TextEncoder] produces them.  [utf8_encode] encodes code points;
    [utf8_decode] decodes bytes the way [TextDecoder] does on well-formed
    input, and turns every byte that does not start a well-formed
    sequence into U+FFFD (such bytes never come from a JavaScript
    string).  The round trip [utf8_decode_encode] is what lets the
    runtime's [trim] work on code points. *)
From S2P Require Import Prelude.
From Stdlib Require Import Ascii String.

Local Open Scope Z_scope.

(** ** Code points and bytes *)

(** A Unicode scalar value: below U+110000 and not a surrogate. *)
Definition valid_cp (cp : Z) : Prop := 0 <= cp < 1114112 /\ ~ (55296 <= cp <= 57343).

#[export] Instance valid_cp_dec cp : Decision (valid_cp cp).
Proof. unfold valid_cp. apply _. Defined.

Definition byte_of (c : ascii) : Z := Z.of_N (N_of_ascii c).
Definition char_of (b : Z) : ascii := ascii_of_N (Z.to_N b).

Definition string_bytes (s : string) : list Z := map byte_of (list_ascii_of_string s).
Definition bytes_string (bs : list Z) : string := string_of_list_ascii (map char_of bs).

(** ** Encoding *)

(** A continuation byte [10xxxxxx] carrying the low six bits of [x]. *)
Definition cont (x : Z) : Z := 128 + x mod 64.

Definition encode_cp (cp : Z) : list Z :=
  if cp <? 128 then [cp]
  else if cp <? 2048 then [192 + cp / 64; cont cp]
  else if cp <? 65536 then [224 + cp / 4096; cont (cp / 64); cont cp]
  else [240 + cp / 262144; cont (cp / 4096); cont (cp / 64); cont cp].

Definition utf8_encode (cps : list Z) : string := bytes_string (flat_map encode_cp cps).

(** ** Decoding *)

Definition is_cont (b : Z) : bool := (128 <=? b) && (b <? 192).

Definition replacement : Z := 65533.

Definition dec2 (b0 b1 : Z) : Z := (b0 - 192) * 64 + (b1 - 128).
Definition dec3 (b0 b1 b2 : Z) : Z := (b0 - 224) * 4096 + (b1 - 128) * 64 + (b2 - 128).
Definition dec4 (b0 b1 b2 b3 : Z) : Z :=
  (b0 - 240) * 262144 + (b1 - 128) * 4096 + (b2 - 128) * 64 + (b3 - 128).

(** The shortest form only, no surrogates, nothing above U+10FFFF. *)
Fixpoint decode_bytes (bs : list Z) : list Z :=
  match bs with
  | [] => []
  | b0 :: rest =>
      if b0 <? 128 then b0 :: decode_bytes rest
      else if (192 <=? b0) && (b0 <? 224) then
        match rest with
        | b1 :: rest1 =>
            if is_cont b1 && (128 <=? dec2 b0 b1) then dec2 b0 b1 :: decode_bytes rest1
            else replacement :: decode_bytes rest
        | [] => [replacement]
        end
      else if (224 <=? b0) && (b0 <? 240) then
        match rest with
        | b1 :: b2 :: rest2 =>
            let v := dec3 b0 b1 b2 in
            if is_cont b1 && is_cont b2 && (2048 <=? v) && negb ((55296 <=? v) && (v <=? 57343))
            then v :: decode_bytes rest2
            else replacement :: decode_bytes rest
        | _ => replacement :: decode_bytes rest
        end
      else if (240 <=? b0) && (b0 <? 248) then
        match rest with
        | b1 :: b2 :: b3 :: rest3 =>
            let v := dec4 b0 b1 b2 b3 in
            if is_cont b1 && is_cont b2 && is_cont b3 && (65536 <=? v) && (v <? 1114112)
            then v :: decode_bytes rest3
            else replacement :: decode_bytes rest
        | _ => replacement :: decode_bytes rest
        end
      else replacement :: decode_bytes rest
  end.

Definition utf8_decode (s : string) : list Z := decode_bytes (string_bytes s).

(** ** The round trip *)

(** [lia] after turning divisions and remainders by constants into
    their defining equations. *)
Ltac zlia := Z.to_euclidean_division_equations; lia.

(** Rewrites every comparison of integers in the goal to its value. *)
Ltac zbool :=
  repeat match goal with
  | |- context [?a <? ?b] =>
      first [rewrite (proj2 (Z.ltb_lt a b)) by zlia | rewrite (proj2 (Z.ltb_ge a b)) by zlia]
  | |- context [?a <=? ?b] =>
      first [rewrite (proj2 (Z.leb_le a b)) by zlia | rewrite (proj2 (Z.leb_gt a b)) by zlia]
  end.

Lemma byte_of_char_of b : 0 <= b < 256 -> byte_of (char_of b) = b.
Proof. intros Hb. unfold byte_of, char_of. rewrite N_ascii_embedding by lia. lia. Qed.

Lemma string_bytes_bytes_string bs :
  Forall (fun b => 0 <= b < 256) bs -> string_bytes (bytes_string bs) = bs.
Proof.
  intros Hbs. unfold string_bytes, bytes_string. rewrite list_ascii_of_string_of_list_ascii, map_map.
  induction Hbs as [|b bs Hb _ IH]; [done|]. cbn [map]. by rewrite byte_of_char_of, IH.
Qed.

Lemma encode_cp_bytes cp : valid_cp cp -> Forall (fun b => 0 <= b < 256) (encode_cp cp).
Proof.
  intros Hv. unfold valid_cp in Hv. unfold encode_cp, cont.
  destruct (Z.ltb_spec cp 128); [|destruct (Z.ltb_spec cp 2048); [|destruct (Z.ltb_spec cp 65536)]];
    repeat (apply List.Forall_cons; [zlia|]); apply List.Forall_nil.
Qed.

Lemma encode_cp_nonempty cp : encode_cp cp <> [].
Proof. unfold encode_cp. by repeat case_match. Qed.

(** Decoding a valid code point's encoding gives it back, and goes on
    with what follows. *)
Lemma not_surrogate cp : valid_cp cp -> (55296 <=? cp) && (cp <=? 57343) = false.
Proof.
  intros [_ Hs]. destruct (Z.leb_spec 55296 cp), (Z.leb_spec cp 57343); try done. lia.
Qed.

Lemma decode_encode_cp cp rest :
  valid_cp cp -> decode_bytes (encode_cp cp ++ rest) = cp :: decode_bytes rest.
Proof.
  intros Hv. pose proof Hv as [Hr _]. unfold encode_cp.
  destruct (Z.ltb_spec cp 128); [cbn [app decode_bytes]; by zbool|].
  destruct (Z.ltb_spec cp 2048).
  { cbn [app decode_bytes]. unfold is_cont, cont.
    replace (dec2 _ _) with cp by (unfold dec2; zlia). by zbool. }
  destruct (Z.ltb_spec cp 65536).
  { cbn [app decode_bytes]. unfold is_cont, cont.
    replace (dec3 _ _ _) with cp by (unfold dec3; zlia). rewrite not_surrogate by done. by zbool. }
  cbn [app decode_bytes]. unfold is_cont, cont.
  replace (dec4 _ _ _ _) with cp by (unfold dec4; zlia). by zbool.
Qed.

Lemma flat_map_encode_bytes cps :
  Forall valid_cp cps -> Forall (fun b => 0 <= b < 256) (flat_map encode_cp cps).
Proof.
  induction 1 as [|cp cps Hv _ IH]; cbn [flat_map]; [constructor|].
  apply Forall_app. split; [by apply encode_cp_bytes|done].
Qed.

Lemma utf8_decode_encode cps : Forall valid_cp cps -> utf8_decode (utf8_encode cps) = cps.
Proof.
  intros Hv. unfold utf8_decode, utf8_encode.
  rewrite string_bytes_bytes_string by by apply flat_map_encode_bytes.
  induction Hv as [|cp cps Hc _ IH]; [done|]. cbn [flat_map].
  by rewrite decode_encode_cp, IH.
Qed.

Lemma utf8_encode_empty cps : utf8_encode cps = "" <-> cps = [].
Proof.
  split; [|by intros ->]. destruct cps as [|cp cps]; [done|].
  unfold utf8_encode, bytes_string. cbn [flat_map].
  pose proof (encode_cp_nonempty cp). by destruct (encode_cp cp).
Qed.

(** ** What decoding produces *)

(** Turns the boolean tests of a branch into arithmetic facts. *)
Ltac zbool_hyps :=
  repeat match goal with
  | H : (_ && _) = true |- _ => apply andb_true_iff in H as [? ?]
  | H : (_ && _) = false |- _ => apply andb_false_iff in H as [?|?]
  | H : negb _ = true |- _ => apply negb_true_iff in H
  | H : (_ <? _) = true |- _ => apply Z.ltb_lt in H
  | H : (_ <? _) = false |- _ => apply Z.ltb_ge in H
  | H : (_ <=? _) = true |- _ => apply Z.leb_le in H
  | H : (_ <=? _) = false |- _ => apply Z.leb_gt in H
  end.

Lemma string_bytes_range s : Forall (fun b => 0 <= b < 256) (string_bytes s).
Proof.
  unfold string_bytes. apply Forall_forall. intros b (c & -> & _)%list_elem_of_fmap.
  unfold byte_of. pose proof (N_ascii_bounded c). lia.
Qed.

Lemma replacement_valid : valid_cp replacement.
Proof. unfold valid_cp, replacement. lia. Qed.

(** Every code point decoded from bytes is a Unicode scalar value. *)
Lemma decode_bytes_valid bs :
  Forall (fun b => 0 <= b < 256) bs -> Forall valid_cp (decode_bytes bs).
Proof.
  intros Hbs. remember (List.length bs) as n eqn:Hn. revert bs Hbs Hn.
  induction n as [n IH] using lt_wf_ind. intros bs Hbs ->.
  destruct bs as [|b0 rest]; [constructor|]. apply Forall_cons_iff in Hbs as [Hb0 Hrest].
  assert (Hrec : forall l, Forall (fun b => 0 <= b < 256) l -> (List.length l < List.length (b0 :: rest))%nat ->
                  Forall valid_cp (decode_bytes l)) by (intros l Hl Hlt; by apply (IH (List.length l))).
  cbn [decode_bytes]. unfold is_cont, dec2, dec3, dec4 in *.
  repeat (case_match; subst); zbool_hyps;
    repeat match goal with H : Forall _ (_ :: _) |- _ => apply Forall_cons_iff in H as [? ?] end;
    repeat (apply List.Forall_cons; [first [apply replacement_valid | unfold valid_cp; lia] |]);
    try apply List.Forall_nil;
    apply Hrec; cbn [List.length] in *; try lia;
    repeat (apply List.Forall_cons; [assumption|]); first [assumption | apply List.Forall_nil].
Qed.

Lemma utf8_decode_valid s : Forall valid_cp (utf8_decode s).
Proof. apply decode_bytes_valid, string_bytes_range. Qed.

