(* ===== verification/JsRuntime.v ===== *)
(** * The JavaScript runtime as the code uses it

    JSON request values and their truthiness ([if (!title)],
    [title || task.title], [typeof completed === 'boolean']),
    [String.prototype.trim] on the code points of the string, [Array.prototype.sort]
    with a comparator, and [String.prototype.localeCompare] through the
    class [LocaleCollation] of collations.  These are not code of the repository; they are the
    semantics of the language constructs its code is written with, and
    the theorems about the code depend on them. *)
From S2P Require Import Prelude Utf8.
From Stdlib Require Import Ascii Sorted.

(** ** JSON values of a request body

    A field of [req.body] is absent ([undefined]) or a JSON value.  JSON
    numbers are modelled as integers; arrays only by their kind, and
    objects by their [_id] field when it is a string, because the code
    only tests their truthiness and Mongoose's string cast reads nothing
    else of them. *)
Inductive jsval : Type :=
| JUndefined
| JNull
| JBool (b : bool)
| JNum (n : Z)
| JStr (s : string)
| JArray
| JObject (id : option string).   (** its [_id] field, when that is a string *)

(** [ToBoolean]: [undefined], [null], [false], [0] and [""] are falsy. *)
Definition truthy (v : jsval) : bool :=
  match v with
  | JUndefined | JNull => false
  | JBool b => b
  | JNum n => negb (n =? 0)%Z
  | JStr s => negb (String.eqb s "")
  | JArray | JObject _ => true
  end.

(** [typeof v === 'boolean'] *)
Definition typeof_boolean (v : jsval) : option bool :=
  match v with
  | JBool b => Some b
  | _ => None
  end.

(** [a || b] on values: [a] when truthy, else [b]. *)
Definition js_or (a b : jsval) : jsval := if truthy a then a else b.

(** ** [String.prototype.trim]

    [TrimString] removes the code points of WhiteSpace and
    LineTerminator at both ends: TAB, LF, VT, FF, CR, SPACE, NO-BREAK
    SPACE, the other space separators (U+1680, U+2000 to U+200A, U+202F,
    U+205F, U+3000), LINE and PARAGRAPH SEPARATOR, and U+FEFF.  The
    string is decoded to its code points and the result encoded again
    ([Utf8]). *)
Definition is_js_space (cp : Z) : bool := (
  ((9 <=? cp) && (cp <=? 13)) || (cp =? 32) || (cp =? 160) || (cp =? 5760) ||
  ((8192 <=? cp) && (cp <=? 8202)) || (cp =? 8232) || (cp =? 8233) || (cp =? 8239) ||
  (cp =? 8287) || (cp =? 12288) || (cp =? 65279))%Z.

Fixpoint trim_start (l : list Z) : list Z :=
  match l with
  | [] => []
  | cp :: l' => if is_js_space cp then trim_start l' else l
  end.

Definition trim_end (l : list Z) : list Z := rev (trim_start (rev l)).

Definition js_trim (s : string) : string := utf8_encode (trim_end (trim_start (utf8_decode s))).

(** Every code point of [s] is white space. *)
Definition all_space (s : string) : bool := forallb is_js_space (utf8_decode s).

(** ** [Array.prototype.sort] with a comparator

    [SortCompare] turns a NaN result into [+0]; the comparators of the
    code compute their result already with that conversion.  For a
    consistent comparator ECMAScript requires a stable sort, and any
    stable sort gives the same result; we use insertion from the left,
    where an element goes after every element already placed that does
    not compare greater than it. *)
Section Sort.
Context {A : Type} (cmp : A -> A -> Z).

Fixpoint sort_insert (x : A) (l : list A) : list A :=
  match l with
  | [] => [x]
  | y :: l' => if (0 <? cmp y x)%Z then x :: y :: l' else y :: sort_insert x l'
  end.

Definition js_sort (l : list A) : list A :=
  fold_left (fun acc x => sort_insert x acc) l [].

(** [x] is not ordered after [y]. *)
Definition cmp_le (x y : A) : Prop := (cmp x y <= 0)%Z.

(** A comparator is consistent (ECMAScript 23.1.3.30) on the values
    satisfying [P] when its sign is antisymmetric and "not greater" is
    transitive there; [consistent_comparator] is consistency everywhere. *)
Definition consistent_on (P : A -> Prop) : Prop :=
  (forall x y, P x -> P y -> Z.sgn (cmp x y) = (- Z.sgn (cmp y x))%Z) /\
  (forall x y z, P x -> P y -> P z ->
     (cmp x y <= 0)%Z -> (cmp y z <= 0)%Z -> (cmp x z <= 0)%Z).

Definition consistent_comparator : Prop :=
  (forall x y, Z.sgn (cmp x y) = (- Z.sgn (cmp y x))%Z) /\
  (forall x y z, (cmp x y <= 0)%Z -> (cmp y z <= 0)%Z -> (cmp x z <= 0)%Z).
End Sort.

(** ** Lemmas on [trim] *)

Lemma forallb_rev {A} (f : A -> bool) l : forallb f (rev l) = forallb f l.
Proof.
  induction l as [|x l IH]; cbn; [done|]. rewrite forallb_app, IH; cbn. by rewrite andb_true_r, andb_comm.
Qed.

Lemma trim_start_nil_iff l : trim_start l = [] <-> forallb is_js_space l = true.
Proof.
  induction l as [|cp l IH]; cbn; [done|].
  destruct (is_js_space cp); cbn; [done|]. split; discriminate.
Qed.

Lemma forallb_trim_start l : forallb is_js_space (trim_start l) = forallb is_js_space l.
Proof. induction l as [|cp l IH]; cbn; [done|]. by destruct (is_js_space cp) eqn:Hc; cbn; rewrite ?Hc. Qed.

(** [s.trim() === ''] exactly when [s] consists of white space only. *)
Lemma js_trim_empty_iff s : js_trim s = "" <-> all_space s = true.
Proof.
  unfold js_trim, all_space, trim_end. rewrite utf8_encode_empty.
  rewrite <-(forallb_trim_start (utf8_decode s)).
  generalize (trim_start (utf8_decode s)) as l. intros l.
  split.
  - intros Hr. apply (f_equal (@rev Z)) in Hr. rewrite rev_involutive in Hr.
    apply trim_start_nil_iff in Hr. by rewrite forallb_rev in Hr.
  - intros Hl. rewrite (proj2 (trim_start_nil_iff (rev l))); [done|]. by rewrite forallb_rev.
Qed.

(** [trim_start] drops a prefix of white space and stops at a code point
    that is not. *)
Lemma trim_start_split l :
  exists pre, l = pre ++ trim_start l /\ forallb is_js_space pre = true /\
    (forall c, head (trim_start l) = Some c -> is_js_space c = false).
Proof.
  induction l as [|cp l (pre & Hl & Hp & Hh)]; [by exists []|]. cbn [trim_start].
  destruct (is_js_space cp) eqn:Hc.
  - exists (cp :: pre). cbn. rewrite Hc, Hp. split; [by f_equal|done].
  - exists []. split; [done|]. split; [done|]. by intros c [= <-].
Qed.

Lemma last_rev {A} (l : list A) : last (rev l) = head l.
Proof. destruct l as [|x l]; [done|]. cbn [rev head]. apply last_snoc. Qed.

Lemma trim_end_split l :
  exists suf, l = trim_end l ++ suf /\ forallb is_js_space suf = true /\
    (forall c, last (trim_end l) = Some c -> is_js_space c = false).
Proof.
  destruct (trim_start_split (rev l)) as (pre & Hl & Hp & Hh). exists (rev pre). unfold trim_end.
  split; [|split].
  - rewrite <-rev_app_distr, <-Hl. by rewrite rev_involutive.
  - by rewrite forallb_rev.
  - intros c. rewrite last_rev. apply Hh.
Qed.

(** A sublist of valid code points is valid. *)
Lemma trim_start_suffix l : exists pre, l = pre ++ trim_start l.
Proof. destruct (trim_start_split l) as (pre & ? & _). by exists pre. Qed.

Lemma trim_valid l : Forall valid_cp l -> Forall valid_cp (trim_end (trim_start l)).
Proof.
  intros Hv. destruct (trim_start_split l) as (pre & Hl & _).
  destruct (trim_end_split (trim_start l)) as (suf & Ht & _).
  rewrite Hl, Ht in Hv. by apply Forall_app in Hv as [_ [? _]%Forall_app].
Qed.

Lemma utf8_decode_js_trim s : utf8_decode (js_trim s) = trim_end (trim_start (utf8_decode s)).
Proof. unfold js_trim. apply utf8_decode_encode, trim_valid, utf8_decode_valid. Qed.

(** Trimming the end keeps a first code point that is not white space. *)
Lemma head_trim_end l c :
  head (trim_end l) = Some c -> head l = Some c.
Proof.
  destruct (trim_end_split l) as (suf & Hl & _). rewrite Hl at 2.
  destruct (trim_end l); [done|]. by intros [= ->].
Qed.

(** [js_trim] is [TrimString]: the code points of [s.trim()] are
    those of [s] without a prefix and a suffix of white space, and
    neither start nor end with white space. *)
Lemma js_trim_spec s :
  let t := utf8_decode (js_trim s) in
  exists pre suf, utf8_decode s = pre ++ t ++ suf /\
    forallb is_js_space pre = true /\ forallb is_js_space suf = true /\
    (forall c, head t = Some c -> is_js_space c = false) /\
    (forall c, last t = Some c -> is_js_space c = false).
Proof.
  cbn zeta. rewrite utf8_decode_js_trim.
  destruct (trim_start_split (utf8_decode s)) as (pre & Hl & Hp & Hh).
  destruct (trim_end_split (trim_start (utf8_decode s))) as (suf & Ht & Hs & Hlast).
  exists pre, suf. split_and!; [|done|done| |done].
  - by rewrite <-Ht.
  - intros c Hc. by apply Hh, head_trim_end.
Qed.

(** ** Lemmas on [js_sort] *)

Section SortFacts.
Context {A : Type} (cmp : A -> A -> Z).
Local Abbreviation le := (cmp_le cmp).

Lemma sort_insert_perm x l : Permutation (sort_insert cmp x l) (x :: l).
Proof.
  induction l as [|y l IH]; simpl; [done|].
  destruct (0 <? cmp y x)%Z; [done|].
  rewrite IH. constructor.
Qed.

Lemma fold_sort_insert_perm l acc :
  Permutation (fold_left (fun acc x => sort_insert cmp x acc) l acc) (l ++ acc).
Proof.
  revert acc. induction l as [|x l IH]; intros acc; simpl; [done|].
  rewrite IH, sort_insert_perm. symmetry. apply Permutation_middle.
Qed.

(** [sort] permutes its input. *)
Lemma js_sort_perm l : Permutation (js_sort cmp l) l.
Proof. unfold js_sort. by rewrite fold_sort_insert_perm, app_nil_r. Qed.

(** Inserting an element of another class leaves a class unchanged. *)
Lemma filter_sort_insert_out (p : A -> bool) x l :
  p x = false -> List.filter p (sort_insert cmp x l) = List.filter p l.
Proof.
  intros Hx. induction l as [|y l IH]; simpl; [by rewrite Hx|].
  destruct (0 <? cmp y x)%Z; simpl; rewrite ?Hx, ?IH; done.
Qed.

Section Consistent.
Context (P : A -> Prop).
Hypothesis Hcons : consistent_on cmp P.

Lemma cmp_flip x y : P x -> P y -> (0 < cmp y x)%Z -> (cmp x y < 0)%Z.
Proof.
  intros Hx Hy H. destruct Hcons as [Hsgn _]. specialize (Hsgn x y Hx Hy).
  rewrite (Z.sgn_pos (cmp y x)) in Hsgn by done.
  destruct (Z.sgn_spec (cmp x y)) as [[? ?]|[[? ?]|[? ?]]]; lia.
Qed.

Lemma cmp_zero_sym x y : P x -> P y -> cmp x y = 0%Z -> cmp y x = 0%Z.
Proof.
  intros Hx Hy H. destruct Hcons as [Hsgn _]. specialize (Hsgn y x Hy Hx).
  rewrite H in Hsgn. simpl in Hsgn. by apply Z.sgn_null_iff.
Qed.

Lemma cmp_le_trans x y z :
  P x -> P y -> P z -> (cmp x y <= 0)%Z -> (cmp y z <= 0)%Z -> (cmp x z <= 0)%Z.
Proof. destruct Hcons as [_ Htr]. apply Htr. Qed.

Lemma sort_insert_sorted x l :
  P x -> Forall P l -> StronglySorted le l -> StronglySorted le (sort_insert cmp x l).
Proof.
  intros Hx HP Hl. induction Hl as [|y l Hl IH Hy]; simpl; unfold cmp_le in *.
  - repeat constructor.
  - apply Forall_cons in HP as [HPy HPl].
    destruct (0 <? cmp y x)%Z eqn:Hyx.
    + apply Z.ltb_lt, (cmp_flip _ _ Hx HPy) in Hyx.
      constructor; [by constructor|].
      constructor; [lia|]. apply List.Forall_forall. intros w Hw.
      rewrite List.Forall_forall in Hy, HPl.
      eapply (cmp_le_trans x y w); [done|done|by apply HPl|lia|by apply Hy].
    + apply Z.ltb_ge in Hyx. constructor; [by apply IH|].
      eapply Permutation_Forall; [symmetry; apply sort_insert_perm|].
      by constructor.
Qed.

Lemma fold_sort_insert_sorted l acc :
  Forall P l -> Forall P acc -> StronglySorted le acc ->
  StronglySorted le (fold_left (fun acc x => sort_insert cmp x acc) l acc).
Proof.
  revert acc. induction l as [|x l IH]; intros acc HPl HPacc Hacc; simpl; [done|].
  apply Forall_cons in HPl as [HPx HPl]. apply IH; [done| |by apply sort_insert_sorted].
  eapply Permutation_Forall; [symmetry; apply sort_insert_perm|]. by constructor.
Qed.

(** [sort] with a comparator consistent on the elements orders them. *)
Lemma js_sort_sorted l : Forall P l -> StronglySorted le (js_sort cmp l).
Proof. intros HP. apply fold_sort_insert_sorted; [done|constructor|constructor]. Qed.

(** Inserting a member of a class appends it to the class, when the
    class lies below the inserted element. *)
Lemma filter_sort_insert_in (p : A -> bool) x l :
  P x -> Forall P l -> StronglySorted le l -> p x = true ->
  (forall w, P w -> p w = true -> (cmp w x <= 0)%Z) ->
  List.filter p (sort_insert cmp x l) = List.filter p l ++ [x].
Proof.
  intros HPx HPl Hl Hx Hcls. unfold cmp_le in *.
  induction Hl as [|y l Hl IH Hy]; simpl; [by rewrite Hx|].
  apply Forall_cons in HPl as [HPy HPl].
  destruct (0 <? cmp y x)%Z eqn:Hyx.
  - apply Z.ltb_lt in Hyx.
    assert (Hnone : forall w, In w (y :: l) -> p w = false).
    { intros w Hw. destruct (p w) eqn:Hpw; [|done]. exfalso.
      destruct Hw as [<-|Hw]; [specialize (Hcls y HPy Hpw); lia|].
      rewrite List.Forall_forall in Hy, HPl.
      pose proof (cmp_le_trans y w x HPy (HPl w Hw) HPx (Hy w Hw) (Hcls w (HPl w Hw) Hpw)).
      lia. }
    pose proof (filter_all_false p (y :: l) Hnone) as Hf. simpl in Hf |- *.
    by rewrite Hx, Hf.
  - simpl. destruct (p y); rewrite IH; done.
Qed.

(** [sort] is stable: the elements comparing equal to any [x] keep
    their relative order. *)
Lemma js_sort_stable x l :
  P x -> Forall P l ->
  List.filter (fun y => cmp x y =? 0)%Z (js_sort cmp l) =
  List.filter (fun y => cmp x y =? 0)%Z l.
Proof.
  intros HPx HPl. unfold js_sort.
  assert (Hgen : forall acc, Forall P acc -> StronglySorted le acc ->
    List.filter (fun y => cmp x y =? 0)%Z
      (fold_left (fun acc x => sort_insert cmp x acc) l acc) =
    List.filter (fun y => cmp x y =? 0)%Z acc ++
    List.filter (fun y => cmp x y =? 0)%Z l).
  { induction l as [|z l IH]; intros acc HPacc Hacc; simpl; [by rewrite app_nil_r|].
    apply Forall_cons in HPl as [HPz HPl].
    rewrite IH; [|done| |by apply sort_insert_sorted].
    2: { eapply Permutation_Forall; [symmetry; apply sort_insert_perm|]. by constructor. }
    destruct (cmp x z =? 0)%Z eqn:Hz.
    - rewrite (filter_sort_insert_in _ z acc HPz HPacc Hacc Hz), <- app_assoc; [done|].
      intros w HPw Hw%Z.eqb_eq. apply Z.eqb_eq in Hz.
      apply (cmp_zero_sym _ _ HPx HPw) in Hw.
      eapply (cmp_le_trans w x z); [done..|lia|lia].
    - by rewrite filter_sort_insert_out. }
  rewrite Hgen by constructor. done.
Qed.
End Consistent.
End SortFacts.

(** ** [String.prototype.localeCompare]

    The collation is the browser's; the code only relies on it being a
    total preorder, which is what the class records.  [localeCompare]
    returns a negative number, zero or a positive number. *)
Class LocaleCollation : Type := {
  locale_cmp : string -> string -> comparison;
  locale_cmp_antisym : forall a b, locale_cmp b a = CompOpp (locale_cmp a b);
  locale_cmp_trans : forall a b c,
    locale_cmp a b <> Gt -> locale_cmp b c <> Gt -> locale_cmp a c <> Gt
}.

Definition comparison_to_Z (c : comparison) : Z :=
  match c with Lt => -1 | Eq => 0 | Gt => 1 end.

Definition localeCompare `{LocaleCollation} (a b : string) : Z :=
  comparison_to_Z (locale_cmp a b).

(** A collation given by a sort key compared code unit by code unit. *)
Lemma string_compare_trans a b c :
  String.compare a b <> Gt -> String.compare b c <> Gt -> String.compare a c <> Gt.
Proof.
  intros Hab Hbc.
  assert (Hle : forall x y, String.compare x y <> Gt <-> strings.String.le x y).
  { intros x y. unfold strings.String.le, String.leb.
    destruct (String.compare x y); split; done. }
  apply Hle. apply Hle in Hab, Hbc. by trans b.
Qed.

Definition key_collation (key : string -> string) : LocaleCollation.
Proof.
  refine {| locale_cmp a b := String.compare (key a) (key b) |}.
  - intros a b. by rewrite <- String.compare_antisym.
  - intros a b c. apply string_compare_trans.
Defined.

(** A stand-in for the browser's collation on ASCII text: letters compare
    without regard to case first, case breaking ties. *)
Definition fold_case_char (c : ascii) : ascii :=
  let n := nat_of_ascii c in
  if (65 <=? n) && (n <=? 90) then ascii_of_nat (n + 32) else c.

Fixpoint fold_case (s : string) : string :=
  match s with
  | EmptyString => EmptyString
  | String c s' => String (fold_case_char c) (fold_case s')
  end.

#[export] Instance ascii_collation : LocaleCollation :=
  key_collation (fun s => fold_case s +:+ String Ascii.zero s).

(** A comparator consistent everywhere is consistent on any set. *)
Lemma consistent_comparator_on {A} (cmp : A -> A -> Z) (P : A -> Prop) :
  consistent_comparator cmp -> consistent_on cmp P.
Proof. intros [Hs Ht]. split; [intros; apply Hs|intros x y z _ _ _; apply Ht]. Qed.

Lemma comparison_to_Z_sgn c : Z.sgn (comparison_to_Z (CompOpp c)) = (- Z.sgn (comparison_to_Z c))%Z.
Proof. by destruct c. Qed.

Lemma comparison_to_Z_le c : (comparison_to_Z c <= 0)%Z <-> c <> Gt.
Proof. destruct c; cbn; split; done || lia. Qed.

(** Comparing by [localeCompare] on a projection is a consistent
    comparator. *)
Lemma localeCompare_consistent `{LocaleCollation} {A} (f : A -> string) :
  consistent_comparator (fun x y => localeCompare (f x) (f y)).
Proof.
  unfold localeCompare. split.
  - intros x y. rewrite (locale_cmp_antisym (f x) (f y)), comparison_to_Z_sgn. lia.
  - intros x y z. rewrite !comparison_to_Z_le. apply locale_cmp_trans.
Qed.
