(* ===== verification/StoreSpec.v ===== *)
(** * Abstract specification of the task store (spec sections 3, 4.1, 4.2, 7)

    What the spec promises of any implementation of the store, independent
    of Mongoose or Firestore: tasks with an immutable owner, titles that
    must not trim to empty, a guard that answers NotFound before
    Unauthorized, partial updates whose absent fields are unchanged, and
    permanent deletion.  Ids are chosen by the store and passed in. *)
From S2P Require Import Prelude JsRuntime.

Module StoreSpec.

Record ATask : Type := mkATask {
  a_title : string;
  a_completed : bool;
  a_owner : N;
  a_created : Z
}.

Inductive StoreError : Type :=
| ValidationError
| Unauthorized
| NotFound.

(** An update: each field is either absent or set. *)
Record Patch : Type := mkPatch {
  p_title : option string;
  p_completed : option bool
}.

(** A title is rejected when it trims to the empty string. *)
Definition blank (s : string) : bool := String.eqb (js_trim s) "".

(** [list(ownerId)], as a multiset: the order is checked separately. *)
Definition s_list (o : N) (s : gmap N ATask) : list ATask :=
  List.filter (fun t => (a_owner t =? o)%N) (map snd (map_to_list s)).

Definition s_create (o : N) (t : string) (id : N) (now : Z) (s : gmap N ATask)
  : StoreError + (ATask * gmap N ATask) :=
  if blank t then inl ValidationError
  else let a := mkATask t false o now in inr (a, <[id := a]> s).

(** The ownership guard: NotFound is checked before the owner. *)
Definition guard (id o : N) (s : gmap N ATask) : StoreError + ATask :=
  match s !! id with
  | None => inl NotFound
  | Some a => if (a_owner a =? o)%N then inr a else inl Unauthorized
  end.

Definition apply_patch (p : Patch) (a : ATask) : ATask :=
  mkATask (default (a_title a) (p_title p)) (default (a_completed a) (p_completed p))
          (a_owner a) (a_created a).

Definition s_update (id o : N) (p : Patch) (s : gmap N ATask)
  : StoreError + (ATask * gmap N ATask) :=
  match guard id o s with
  | inl e => inl e
  | inr a =>
      match p_title p with
      | Some t => if blank t then inl ValidationError
                  else inr (apply_patch p a, <[id := apply_patch p a]> s)
      | None => inr (apply_patch p a, <[id := apply_patch p a]> s)
      end
  end.

Definition s_delete (id o : N) (s : gmap N ATask) : StoreError + gmap N ATask :=
  match guard id o s with
  | inl e => inl e
  | inr _ => inr (delete id s)
  end.

(** The HTTP status the REST surface gives each error (spec section 6). *)
Definition error_status (e : StoreError) : Z :=
  match e with
  | ValidationError => 400
  | Unauthorized => 401
  | NotFound => 404
  end.

End StoreSpec.
