(* ===== verification/TaskModel.v ===== *)
(** * The Mongoose side of the server

    The [Task] model file ([server/models/Task.js]) and the middleware are
    not under src/; the document shape is taken from the spec (section 6)
    and from the fields the controller reads and writes ([title],
    [completed], [user], [createdAt]).  ObjectIds are 96-bit numbers
    printed as 24 lower-case hexadecimal digits; a request path parameter
    is cast to an ObjectId, and a string that is not 24 hexadecimal digits
    makes [findById] throw a [CastError].

    The collection is a [gmap] from ObjectId to document together with
    the next fresh ObjectId and a flag saying whether the database is
    reachable (every operation throws when it is not). *)
From S2P Require Import Prelude JsRuntime.
From Stdlib Require Import Ascii.

(** ** ObjectId strings *)

Definition oid_digits : nat := 24.
Definition oid_bound : N := 2 ^ 96.

Definition hex_digit (d : N) : ascii :=
  ascii_of_N (if (d <? 10)%N then 48 + d else 87 + d)%N.

(** The [k] low hexadecimal digits of [n], most significant first. *)
Fixpoint hex_fixed (k : nat) (n : N) : string :=
  match k with
  | O => EmptyString
  | S k' => hex_fixed k' (n / 16)%N +:+ String (hex_digit (n mod 16)%N) EmptyString
  end.

Definition hex_value (c : ascii) : option N :=
  let n := N_of_ascii c in
  if (48 <=? n)%N && (n <=? 57)%N then Some (n - 48)%N
  else if (97 <=? n)%N && (n <=? 102)%N then Some (n - 87)%N
  else if (65 <=? n)%N && (n <=? 70)%N then Some (n - 55)%N
  else None.

Fixpoint parse_hex (acc : N) (s : string) : option N :=
  match s with
  | EmptyString => Some acc
  | String c s' =>
      match hex_value c with
      | Some d => parse_hex (acc * 16 + d)%N s'
      | None => None
      end
  end.

(** [ObjectId.toString()] *)
Definition oid_to_string (n : N) : string := hex_fixed oid_digits n.

(** Mongoose's cast of a string to an ObjectId. *)
Definition cast_object_id (s : string) : option N :=
  if String.length s =? oid_digits then parse_hex 0 s else None.

(** ** The [Task] document *)

Record Task : Type := mkTask {
  task_id : N;
  title : string;
  completed : bool;
  user : N;
  createdAt : Z;
  updatedAt : Z
}.

(** Mongoose's cast of a value assigned to the [String] path [title]
    ([castString]): an object whose [_id] is a non-empty string gives
    that [_id]; strings stay, numbers and booleans are printed; [null],
    [undefined], arrays and other objects leave no string, which fails
    validation at [save]. *)
Definition cast_title (v : jsval) : option string :=
  match v with
  | JObject (Some i) => if String.eqb i "" then None else Some i
  | JStr s => Some s
  | JNum n => Some (pretty n)
  | JBool b => Some (if b then "true" else "false")
  | _ => None
  end.

(** ** The collection *)

Record Db : Type := mkDb {
  docs : gmap N Task;
  next_oid : N;
  db_online : bool
}.

Definition with_docs (db : Db) (m : gmap N Task) : Db :=
  mkDb m (next_oid db) (db_online db).

(** [Task.find({ user }).sort({ createdAt: -1 })]: the documents of [u],
    newest first. *)
Definition by_created_desc (a b : Task) : Z := (createdAt b - createdAt a)%Z.

Definition owned_by (u : N) (t : Task) : bool := (user t =? u)%N.

(** The documents of the collection, in the map's order. *)
Definition stored (m : gmap N Task) : list Task := map snd (map_to_list m).

Definition find_by_user (u : string) (db : Db) : outcome (list Task) :=
  if db_online db then
    match cast_object_id u with
    | Some n =>
        Returns (js_sort by_created_desc
                   (List.filter (owned_by n) (stored (docs db))))
    | None => Throws "CastError"
    end
  else Throws "MongoNetworkError".

(** [Task.findById(id)]: the id is cast first. *)
Definition find_by_id (id : string) (db : Db) : outcome (option Task) :=
  if db_online db then
    match cast_object_id id with
    | Some n => Returns (docs db !! n)
    | None => Throws "CastError"
    end
  else Throws "MongoNetworkError".

(** [new Task({ title, user }).save()]: a fresh ObjectId, [completed]
    defaulting to [false], both timestamps at [now]; the [user] string is
    cast to an ObjectId and the [required] validator rejects an empty
    title. *)
Definition save_new (t : jsval) (us : string) (now : Z) (db : Db) : outcome (Task * Db) :=
  if db_online db then
    match cast_title t, cast_object_id us with
    | Some s, Some u =>
        if String.eqb s "" then Throws "ValidationError"
        else
          let doc := mkTask (next_oid db) s false u now now in
          Returns (doc, mkDb (<[next_oid db := doc]> (docs db)) (N.succ (next_oid db)) true)
    | _, _ => Throws "ValidationError"
    end
  else Throws "MongoNetworkError".

(** [task.save()] on a loaded document whose [title] path was assigned
    [t] and [completed] path [c]: cast and validation of the title; the
    timestamps plugin sets [updatedAt := now] only when an assignment
    changed a path (assigning the value a path holds does not modify
    it). *)
(** [updatedAt] after [task.title = s; task.completed = c; save()]. *)
Definition bump_updated (task : Task) (s : string) (c : bool) (now : Z) : Z :=
  if String.eqb s (title task) && Bool.eqb c (completed task) then updatedAt task else now.

Definition save_existing (task : Task) (t : jsval) (c : bool) (now : Z) (db : Db)
  : outcome (Task * Db) :=
  if db_online db then
    match cast_title t with
    | Some s =>
        if String.eqb s "" then Throws "ValidationError"
        else
          let doc := mkTask (task_id task) s c (user task) (createdAt task)
                       (bump_updated task s c now) in
          Returns (doc, with_docs db (<[task_id task := doc]> (docs db)))
    | None => Throws "ValidationError"
    end
  else Throws "MongoNetworkError".

(** [Task.deleteOne({ _id: id })]: the id is cast, the matching document
    (if any) removed. *)
Definition delete_one (id : string) (db : Db) : outcome Db :=
  if db_online db then
    match cast_object_id id with
    | Some n => Returns (with_docs db (delete n (docs db)))
    | None => Throws "CastError"
    end
  else Throws "MongoNetworkError".

(** ** Well-formedness of the collection

    Every document is stored under its own id, every stored id was handed
    out before ([n < next_oid]), every owner is an ObjectId and every
    title passed the [required] validator. *)
Definition doc_wf (next : N) (n : N) (t : Task) : Prop :=
  task_id t = n /\ (n < next)%N /\ (user t < oid_bound)%N /\ title t <> "".

Definition db_wf (db : Db) : Prop := map_Forall (doc_wf (next_oid db)) (docs db).

#[export] Instance db_wf_dec db : Decision (db_wf db).
Proof. unfold db_wf, doc_wf. apply _. Defined.

(** ** ObjectId printing and casting are inverse *)

Lemma hex_value_digit d : (d < 16)%N -> hex_value (hex_digit d) = Some d.
Proof.
  intros Hd.
  assert (Hcases : (d = 0 \/ d = 1 \/ d = 2 \/ d = 3 \/ d = 4 \/ d = 5 \/ d = 6 \/
    d = 7 \/ d = 8 \/ d = 9 \/ d = 10 \/ d = 11 \/ d = 12 \/ d = 13 \/ d = 14 \/ d = 15)%N)
    by lia.
  repeat destruct Hcases as [->|Hcases]; subst; reflexivity.
Qed.

Lemma parse_hex_app acc s1 s2 :
  parse_hex acc (s1 +:+ s2) =
  match parse_hex acc s1 with Some a => parse_hex a s2 | None => None end.
Proof.
  revert acc. induction s1 as [|c s1 IH]; intros acc; simpl; [done|].
  destruct (hex_value c); [apply IH|done].
Qed.

Lemma length_hex_fixed k n : String.length (hex_fixed k n) = k.
Proof.
  revert n. induction k as [|k IH]; intros n; simpl; [done|].
  rewrite string_length_app, IH. simpl. lia.
Qed.

Lemma parse_hex_fixed k n acc :
  parse_hex acc (hex_fixed k n) = Some (acc * 16 ^ N.of_nat k + n mod 16 ^ N.of_nat k)%N.
Proof.
  revert n acc. induction k as [|k IH]; intros n acc; simpl.
  - by rewrite N.mul_1_r, N.mod_1_r, N.add_0_r.
  - rewrite parse_hex_app, IH. simpl.
    rewrite hex_value_digit by (apply N.mod_lt; lia).
    f_equal. rewrite Nat2N.inj_succ, N.pow_succ_r', N.Div0.mod_mul_r.
    nia.
Qed.

(** Printing an ObjectId and casting the result back gives the ObjectId. *)
Lemma cast_oid_roundtrip n :
  (n < oid_bound)%N -> cast_object_id (oid_to_string n) = Some n.
Proof.
  intros Hn. unfold cast_object_id, oid_to_string.
  rewrite length_hex_fixed, Nat.eqb_refl, parse_hex_fixed.
  f_equal. rewrite N.mod_small; [lia|]. exact Hn.
Qed.

(** Casting a printed ObjectId gives it back, so the controller's
    comparison of [toString()] forms compares ObjectIds. *)
Lemma cast_object_id_to_string n :
  (n < oid_bound)%N -> cast_object_id (oid_to_string n) = Some n.
Proof. apply cast_oid_roundtrip. Qed.

(** Printing is injective on ObjectIds, so comparing the [toString()] of
    two ObjectIds compares the ids. *)
Lemma oid_to_string_eqb a b :
  (a < oid_bound)%N -> (b < oid_bound)%N ->
  String.eqb (oid_to_string a) (oid_to_string b) = (a =? b)%N.
Proof.
  intros Ha Hb. destruct (N.eqb_spec a b) as [->|Hne]; [apply String.eqb_refl|].
  apply String.eqb_neq. intros Heq. apply Hne.
  apply (f_equal cast_object_id) in Heq.
  rewrite !cast_oid_roundtrip in Heq by done. congruence.
Qed.

Lemma hex_value_lt c d : hex_value c = Some d -> (d < 16)%N.
Proof.
  unfold hex_value. set (n := N_of_ascii c).
  destruct (N.leb_spec 48 n), (N.leb_spec n 57), (N.leb_spec 97 n), (N.leb_spec n 102),
    (N.leb_spec 65 n), (N.leb_spec n 70); simpl; intros Hd; simplify_eq; lia.
Qed.

Lemma parse_hex_lt acc s r :
  parse_hex acc s = Some r -> (r < (acc + 1) * 16 ^ N.of_nat (String.length s))%N.
Proof.
  revert acc. induction s as [|c s IH]; intros acc; simpl.
  - intros [= ->]. lia.
  - destruct (hex_value c) as [d|] eqn:Hd; [|done]. intros Hr.
    apply hex_value_lt in Hd. apply IH in Hr.
    rewrite Nat2N.inj_succ, N.pow_succ_r'. nia.
Qed.

(** A cast ObjectId fits in 96 bits. *)
Lemma cast_object_id_bound s n : cast_object_id s = Some n -> (n < oid_bound)%N.
Proof.
  unfold cast_object_id. destruct (Nat.eqb_spec (String.length s) oid_digits) as [Hl|]; [|done].
  intros Hp%parse_hex_lt. rewrite Hl in Hp. exact Hp.
Qed.

