(* ===== verification/TaskController.v ===== *)
(** * The REST task controller ([src/server/controller/taskController.js])

    Each handler is a function of the request, the server time [now] and
    the collection, returning the response (status and JSON body) and the
    new collection.  A rejected [await] inside the [try] block is the
    [catch] branch: status 500, collection unchanged.  [req.user] is set
    by the authentication middleware, which is not under src/; its model
    ([protect]) and the route table ([handle]) follow the spec's REST
    table (section 6). *)
From S2P Require Import Prelude JsRuntime TaskModel.

(** ** Requests and responses *)

Inductive body : Type :=
| BTasks (l : list Task)
| BTask (t : Task)
| BMessage (m : string).

Record Response : Type := mkResponse {
  status : Z;
  resp_body : body
}.

Record Request : Type := mkRequest {
  req_user : N;            (** [req.user._id] *)
  req_params_id : string;  (** [req.params.id] *)
  req_title : jsval;       (** [req.body.title] *)
  req_completed : jsval    (** [req.body.completed] *)
}.

(** [req.user.id], the string form of the caller's ObjectId. *)
Definition req_user_id (req : Request) : string := oid_to_string (req_user req).

Definition message (code : Z) (m : string) : Response := mkResponse code (BMessage m).

(** ** The handlers *)

(** [getTasks] *)
Definition getTasks (req : Request) (db : Db) : Response * Db :=
  match find_by_user (req_user_id req) db with
  | Returns tasks => (mkResponse 200 (BTasks tasks), db)
  | Throws _ => (message 500 "Server error fetching tasks", db)
  end.

(** [addTask] *)
Definition addTask (req : Request) (now : Z) (db : Db) : Response * Db :=
  let t := req_title req in
  if negb (truthy t) then (message 400 "Please add a title", db)
  else
    match save_new t (req_user_id req) now db with
    | Returns (createdTask, db') => (mkResponse 201 (BTask createdTask), db')
    | Throws _ => (message 500 "Server error adding task", db)
    end.

(** [updateTask]: 404 when no document has the id, 401 when it belongs to
    someone else, otherwise [title || task.title] and the boolean
    [completed] (if it is one) are assigned and the document saved. *)
Definition updateTask (req : Request) (now : Z) (db : Db) : Response * Db :=
  match find_by_id (req_params_id req) db with
  | Throws _ => (message 500 "Server error updating task", db)
  | Returns None => (message 404 "Task not found", db)
  | Returns (Some task) =>
      if negb (String.eqb (oid_to_string (user task)) (req_user_id req)) then
        (message 401 "Not authorized to update this task", db)
      else
        let t := js_or (req_title req) (JStr (title task)) in
        let c := match typeof_boolean (req_completed req) with
                 | Some b => b
                 | None => completed task
                 end in
        match save_existing task t c now db with
        | Returns (updatedTask, db') => (mkResponse 200 (BTask updatedTask), db')
        | Throws _ => (message 500 "Server error updating task", db)
        end
  end.

(** [deleteTask] *)
Definition deleteTask (req : Request) (db : Db) : Response * Db :=
  match find_by_id (req_params_id req) db with
  | Throws _ => (message 500 "Server error deleting task", db)
  | Returns None => (message 404 "Task not found", db)
  | Returns (Some task) =>
      if negb (String.eqb (oid_to_string (user task)) (req_user_id req)) then
        (message 401 "Not authorized to delete this task", db)
      else
        match delete_one (req_params_id req) db with
        | Returns db' => (message 200 "Task removed", db')
        | Throws _ => (message 500 "Server error deleting task", db)
        end
  end.

(** ** Routes and the authentication middleware (modelled from the spec) *)

Inductive Route : Type :=
| GetTasks
| PostTask
| PutTask (id : string)
| DeleteTask (id : string).

Record HttpRequest : Type := mkHttpRequest {
  route : Route;
  caller : option N;       (** the user the bearer token resolves to *)
  body_title : jsval;
  body_completed : jsval
}.

(** [protect]: without a resolved caller the request is refused with 401. *)
Definition protect (hr : HttpRequest) (db : Db) (k : N -> Response * Db) : Response * Db :=
  match caller hr with
  | Some u => k u
  | None => (message 401 "Not authorized, no token", db)
  end.

Definition route_id (r : Route) : string :=
  match r with
  | PutTask id | DeleteTask id => id
  | _ => ""
  end.

(** The router of [/api/tasks]. *)
Definition handle (hr : HttpRequest) (now : Z) (db : Db) : Response * Db :=
  protect hr db (fun u =>
    let req := mkRequest u (route_id (route hr)) (body_title hr) (body_completed hr) in
    match route hr with
    | GetTasks => getTasks req db
    | PostTask => addTask req now db
    | PutTask _ => updateTask req now db
    | DeleteTask _ => deleteTask req db
    end).

(** A sequence of requests, each with its arrival time. *)
Fixpoint run (trace : list (HttpRequest * Z)) (db : Db) : list Response * Db :=
  match trace with
  | [] => ([], db)
  | (hr, now) :: rest =>
      let (r, db1) := handle hr now db in
      let (rs, db2) := run rest db1 in
      (r :: rs, db2)
  end.

(** ** Helper lemmas *)

Lemma in_stored (m : gmap N Task) t : In t (stored m) <-> exists n, m !! n = Some t.
Proof.
  unfold stored. rewrite in_map_iff. split.
  - intros [[n t'] [<- Hin]]. exists n. apply elem_of_map_to_list. by apply list_elem_of_In.
  - intros [n Hn]. exists (n, t). split; [done|].
    apply list_elem_of_In, elem_of_map_to_list, Hn.
Qed.

Lemma by_created_desc_consistent : consistent_comparator by_created_desc.
Proof.
  unfold by_created_desc. split.
  - intros a b. rewrite <- Z.sgn_opp. f_equal. lia.
  - intros a b c. lia.
Qed.

Lemma req_user_id_cast req :
  (req_user req < oid_bound)%N -> cast_object_id (req_user_id req) = Some (req_user req).
Proof. apply cast_oid_roundtrip. Qed.

(** The string comparison of the ownership check is the comparison of
    the ObjectIds. *)
Lemma owner_check_eqb req task :
  (req_user req < oid_bound)%N -> (user task < oid_bound)%N ->
  String.eqb (oid_to_string (user task)) (req_user_id req) = (user task =? req_user req)%N.
Proof. intros. by apply oid_to_string_eqb. Qed.

Lemma find_by_user_online req db :
  (req_user req < oid_bound)%N -> db_online db = true ->
  find_by_user (req_user_id req) db =
  Returns (js_sort by_created_desc (List.filter (owned_by (req_user req)) (stored (docs db)))).
Proof. intros Hu Hon. unfold find_by_user. by rewrite Hon, req_user_id_cast. Qed.

Lemma find_by_user_only_owned req db l t :
  (req_user req < oid_bound)%N -> find_by_user (req_user_id req) db = Returns l ->
  In t l -> user t = req_user req /\ exists n, docs db !! n = Some t.
Proof.
  intros Hu. unfold find_by_user. rewrite req_user_id_cast by done.
  destruct (db_online db); [|done]. intros [= <-] Hin.
  apply (Permutation_in _ (js_sort_perm _ _)) in Hin.
  apply filter_In in Hin as [Hin Hown%N.eqb_eq]. by rewrite <- in_stored.
Qed.

(** ** Listing *)

(** C1: the list returned by [getTasks] holds only documents of the caller
    that are stored in the collection: no task of another user is ever
    listed, whatever the state of the database. *)
Theorem getTasks_isolation req db r db' l t :
  (req_user req < oid_bound)%N ->
  getTasks req db = (r, db') -> resp_body r = BTasks l -> In t l ->
  user t = req_user req /\ exists n, docs db !! n = Some t.
Proof.
  intros Hu. unfold getTasks.
  destruct (find_by_user (req_user_id req) db) as [l'|m] eqn:Hf; intros [= <- <-]; [|done].
  simpl. intros [= ->]. by apply find_by_user_only_owned.
Qed.

(** With the database reachable, [getTasks] answers 200 with the caller's documents, newest first. *)
Lemma getTasks_online_spec req db :
  (req_user req < oid_bound)%N -> db_online db = true ->
  exists l, getTasks req db = (mkResponse 200 (BTasks l), db) /\
    Permutation l (List.filter (owned_by (req_user req)) (stored (docs db))) /\
    StronglySorted (fun a b => (createdAt b <= createdAt a)%Z) l.
Proof.
  intros Hu Hon. unfold getTasks. rewrite find_by_user_online by done.
  eexists. split; [done|]. split; [apply js_sort_perm|].
  eapply StronglySorted_weaken.
  2: { apply (js_sort_sorted _ (fun _ => True)); [|by apply List.Forall_forall].
       apply consistent_comparator_on, by_created_desc_consistent. }
  unfold cmp_le, by_created_desc. intros; lia.
Qed.

(** With the database reachable, [getTasks] answers 200 with exactly the
    caller's documents (as a multiset), newest first, and changes nothing. *)
Lemma getTasks_lists_own_newest_first req db :
  (req_user req < oid_bound)%N -> db_online db = true ->
  exists l, getTasks req db = (mkResponse 200 (BTasks l), db) /\
    Permutation l (List.filter (owned_by (req_user req)) (stored (docs db))) /\
    StronglySorted (fun a b => (createdAt b <= createdAt a)%Z) l.
Proof. apply getTasks_online_spec. Qed.

(** ** The ownership guard *)

Lemma find_by_id_cast id db n :
  db_online db = true -> cast_object_id id = Some n -> find_by_id id db = Returns (docs db !! n).
Proof. intros Hon Hc. unfold find_by_id. by rewrite Hon, Hc. Qed.

Lemma delete_one_cast id db n :
  db_online db = true -> cast_object_id id = Some n ->
  delete_one id db = Returns (with_docs db (delete n (docs db))).
Proof. intros Hon Hc. unfold delete_one. by rewrite Hon, Hc. Qed.

(** An update or delete of an id that names no document answers 404 and changes nothing. *)
Lemma guard_missing_spec req now db n :
  db_online db = true -> cast_object_id (req_params_id req) = Some n -> docs db !! n = None ->
  updateTask req now db = (message 404 "Task not found", db) /\
  deleteTask req db = (message 404 "Task not found", db).
Proof.
  intros Hon Hc Hn. unfold updateTask, deleteTask.
  by rewrite (find_by_id_cast _ _ _ Hon Hc), Hn.
Qed.

(** C2: an id that names no document is answered 404 by [updateTask] and
    [deleteTask], whoever asks, and nothing changes: existence is checked
    before ownership. *)
Theorem guard_not_found req now db n :
  db_online db = true -> cast_object_id (req_params_id req) = Some n -> docs db !! n = None ->
  updateTask req now db = (message 404 "Task not found", db) /\
  deleteTask req db = (message 404 "Task not found", db).
Proof. apply guard_missing_spec. Qed.

(** An update or delete of another user's document answers 401 and changes nothing. *)
Lemma guard_foreign_spec req now db n task :
  db_online db = true -> db_wf db -> (req_user req < oid_bound)%N ->
  cast_object_id (req_params_id req) = Some n -> docs db !! n = Some task ->
  user task <> req_user req ->
  updateTask req now db = (message 401 "Not authorized to update this task", db) /\
  deleteTask req db = (message 401 "Not authorized to delete this task", db).
Proof.
  intros Hon Hwf Hu Hc Hn Hne. destruct (Hwf n task Hn) as (_ & _ & Hbound & _).
  unfold updateTask, deleteTask. rewrite (find_by_id_cast _ _ _ Hon Hc), Hn.
  rewrite owner_check_eqb by done. apply N.eqb_neq in Hne. by rewrite Hne.
Qed.

(** C3: a document of another user is answered 401 by [updateTask] and
    [deleteTask], and nothing changes. *)
Theorem guard_unauthorized req now db n task :
  db_online db = true -> db_wf db -> (req_user req < oid_bound)%N ->
  cast_object_id (req_params_id req) = Some n -> docs db !! n = Some task ->
  user task <> req_user req ->
  updateTask req now db = (message 401 "Not authorized to update this task", db) /\
  deleteTask req db = (message 401 "Not authorized to delete this task", db).
Proof. apply guard_foreign_spec. Qed.

(** ** Creation *)

(** A falsy title is refused with 400 and the collection is unchanged. *)
Lemma addTask_falsy_spec req now db :
  truthy (req_title req) = false ->
  addTask req now db = (message 400 "Please add a title", db).
Proof. intros Hf. unfold addTask. by rewrite Hf. Qed.

(** A truthy title whose cast is not empty creates the caller's task under a fresh id. *)
Lemma addTask_truthy_spec req now db s :
  db_online db = true -> db_wf db -> (req_user req < oid_bound)%N ->
  req_title req = JStr s -> s <> "" ->
  let t := mkTask (next_oid db) s false (req_user req) now now in
  docs db !! next_oid db = None /\
  addTask req now db =
    (mkResponse 201 (BTask t),
     mkDb (<[next_oid db := t]> (docs db)) (N.succ (next_oid db)) true).
Proof.
  intros Hon Hwf Hu Ht Hs. split.
  - destruct (docs db !! next_oid db) as [t'|] eqn:Hn; [|done].
    destruct (Hwf _ _ Hn) as (_ & Hlt & _). lia.
  - unfold addTask, save_new. rewrite Ht, Hon, req_user_id_cast by done. simpl.
    apply String.eqb_neq in Hs. by rewrite Hs.
Qed.

(** A falsy title ([undefined], [null], [false], [0] or [""]) is
    refused with 400 before the database is touched. *)
Lemma addTask_rejects_falsy_title req now db :
  truthy (req_title req) = false ->
  addTask req now db = (message 400 "Please add a title", db).
Proof. apply addTask_falsy_spec. Qed.

(** C14: a non-empty string title creates a task of the caller with
    [completed = false], both timestamps [now] and a fresh id, answered
    201; the document is added under that id and [next_oid] advances. *)
Theorem addTask_creates req now db s :
  db_online db = true -> db_wf db -> (req_user req < oid_bound)%N ->
  req_title req = JStr s -> s <> "" ->
  let t := mkTask (next_oid db) s false (req_user req) now now in
  docs db !! next_oid db = None /\
  addTask req now db =
    (mkResponse 201 (BTask t),
     mkDb (<[next_oid db := t]> (docs db)) (N.succ (next_oid db)) true).
Proof. apply addTask_truthy_spec. Qed.

(** ** Deletion *)

(** The owner's delete answers 200 and removes the document; a second delete answers 404. *)
Lemma deleteTask_owner_spec req db n task :
  db_online db = true -> db_wf db -> (req_user req < oid_bound)%N ->
  cast_object_id (req_params_id req) = Some n -> docs db !! n = Some task ->
  user task = req_user req ->
  let db' := with_docs db (delete n (docs db)) in
  deleteTask req db = (message 200 "Task removed", db') /\
  docs db' !! n = None /\
  deleteTask req db' = (message 404 "Task not found", db').
Proof.
  intros Hon Hwf Hu Hc Hn Hown. destruct (Hwf n task Hn) as (_ & _ & Hbound & _).
  intros db'. split; [|split].
  - unfold deleteTask. rewrite (find_by_id_cast _ _ _ Hon Hc), Hn.
    rewrite owner_check_eqb, Hown, N.eqb_refl by done. cbn [negb].
    by rewrite (delete_one_cast _ _ _ Hon Hc).
  - apply lookup_delete_eq.
  - unfold deleteTask.
    rewrite (find_by_id_cast _ db' _ Hon Hc). 
    unfold db'. cbn [docs with_docs]. by rewrite lookup_delete_eq.
Qed.

(** The owner's [deleteTask] answers 200 and removes the document;
    the id is then unknown, so a second delete answers 404. *)
Lemma deleteTask_removes req db n task :
  db_online db = true -> db_wf db -> (req_user req < oid_bound)%N ->
  cast_object_id (req_params_id req) = Some n -> docs db !! n = Some task ->
  user task = req_user req ->
  let db' := with_docs db (delete n (docs db)) in
  deleteTask req db = (message 200 "Task removed", db') /\
  docs db' !! n = None /\
  deleteTask req db' = (message 404 "Task not found", db').
Proof. apply deleteTask_owner_spec. Qed.

(** ** Update *)

(** What a successful [updateTask] writes, independently of the time:
    the loaded document, the new title and the new [completed]. *)
Definition update_plan (req : Request) (db : Db) : option (Task * string * bool) :=
  match find_by_id (req_params_id req) db with
  | Returns (Some task) =>
      if negb (String.eqb (oid_to_string (user task)) (req_user_id req)) then None
      else if db_online db then
        match cast_title (js_or (req_title req) (JStr (title task))) with
        | Some s =>
            if String.eqb s "" then None
            else Some (task, s, match typeof_boolean (req_completed req) with
                                | Some b => b
                                | None => completed task
                                end)
        | None => None
        end
      else None
  | _ => None
  end.

Definition saved_doc (task : Task) (s : string) (c : bool) (now : Z) : Task :=
  mkTask (task_id task) s c (user task) (createdAt task) (bump_updated task s c now).

Lemma updateTask_db req now db :
  snd (updateTask req now db) =
  match update_plan req db with
  | Some (task, s, c) => with_docs db (<[task_id task := saved_doc task s c now]> (docs db))
  | None => db
  end.
Proof.
  unfold updateTask, update_plan.
  destruct (find_by_id (req_params_id req) db) as [[task|]|m]; cbn [snd]; try done.
  destruct (negb _); cbn [snd]; [done|].
  unfold save_existing. destruct (db_online db); [|done].
  destruct (cast_title _); [|done]. by destruct (String.eqb _ _).
Qed.

Lemma saved_doc_again task s c now1 now2 :
  saved_doc (saved_doc task s c now1) s c now2 = saved_doc task s c now1.
Proof.
  unfold saved_doc, bump_updated. cbn [title completed updatedAt task_id user createdAt].
  by rewrite String.eqb_refl, eqb_reflx.
Qed.

(** [updateTask] is idempotent: sending the same request again, at any
    later time, leaves the collection as the first request left it, the
    [updatedAt] timestamp included, whatever the request, on a
    well-formed collection. *)
Lemma updateTask_idempotent req now1 now2 db :
  db_wf db ->
  snd (updateTask req now2 (snd (updateTask req now1 db))) = snd (updateTask req now1 db).
Proof.
  intros Hwf. rewrite (updateTask_db req now1 db).
  destruct (update_plan req db) as [[[task s] c]|] eqn:Hp; [|by rewrite updateTask_db, Hp].
  rewrite updateTask_db.
  assert (Hp' : exists task', update_plan req
      (with_docs db (<[task_id task:=saved_doc task s c now1]> (docs db))) = Some (task', s, c)
      /\ task' = saved_doc task s c now1).
  { unfold update_plan in *.
    destruct (find_by_id (req_params_id req) db) as [[t0|]|m] eqn:Hf; try done.
    unfold find_by_id in Hf |- *. cbn [db_online with_docs docs].
    destruct (db_online db) eqn:Hon; [|done].
    destruct (cast_object_id (req_params_id req)) as [n|]; [|done]. injection Hf as Hn.
    destruct (negb _) eqn:Hown; [done|].
    destruct (cast_title _) as [s0|] eqn:Hs; [|done].
    destruct (String.eqb s0 "") eqn:Hse; [done|]. injection Hp as <- <- <-.
    rewrite lookup_insert. destruct (decide (task_id t0 = n)) as [Heq|Hne].
    - exists (saved_doc t0 s0 (match typeof_boolean (req_completed req) with
                              | Some b => b
                              | None => completed t0
                              end) now1).
      split; [|done]. cbn [saved_doc user title completed task_id]. rewrite Hown.
      assert (Hs' : cast_title (js_or (req_title req) (JStr s0)) = Some s0).
      { unfold js_or in *. destruct (truthy (req_title req)); [done|]. by injection Hs as <-. }
      rewrite Hs', Hse. by destruct (typeof_boolean (req_completed req)).
    - exfalso. by destruct (Hwf n t0 Hn). }
  destruct Hp' as (task' & -> & ->). cbn [docs with_docs].
  by rewrite saved_doc_again, insert_insert_eq.
Qed.

(** ** Effect of each handler on the collection *)

(** The id of the task a response reports as created (status 201). *)
Definition created_id (r : Response) : option N :=
  if (status r =? 201)%Z then
    match resp_body r with BTask t => Some (task_id t) | _ => None end
  else None.

Definition created_ids (rs : list Response) : list N := omap created_id rs.

Lemma created_ids_cons r rs :
  created_ids (r :: rs) =
  match created_id r with Some id => id :: created_ids rs | None => created_ids rs end.
Proof. reflexivity. Qed.

Lemma getTasks_created req db : created_id (fst (getTasks req db)) = None.
Proof. unfold getTasks. by destruct (find_by_user _ _). Qed.

Lemma updateTask_created req now db : created_id (fst (updateTask req now db)) = None.
Proof. unfold updateTask. by repeat case_match. Qed.

Lemma deleteTask_created req db : created_id (fst (deleteTask req db)) = None.
Proof. unfold deleteTask. by repeat case_match. Qed.

Lemma getTasks_db req db : snd (getTasks req db) = db.
Proof. unfold getTasks. by destruct (find_by_user _ _). Qed.

Lemma addTask_db req now db :
  (created_id (fst (addTask req now db)) = None /\ snd (addTask req now db) = db) \/
  exists s u, truthy (req_title req) = true /\ cast_object_id (req_user_id req) = Some u /\
    s <> "" /\ db_online db = true /\
    addTask req now db = (mkResponse 201 (BTask (mkTask (next_oid db) s false u now now)),
      mkDb (<[next_oid db := mkTask (next_oid db) s false u now now]> (docs db))
           (N.succ (next_oid db)) true).
Proof.
  unfold addTask. destruct (truthy (req_title req)) eqn:Ht; cbn [negb]; [|by left].
  unfold save_new. destruct (db_online db) eqn:Hon; [|by left].
  destruct (cast_title _) as [s|], (cast_object_id _) as [u|] eqn:Hu; try by left.
  destruct (String.eqb_spec s "") as [|Hs]; [by left|]. right. by exists s, u.
Qed.

Lemma deleteTask_db req db :
  snd (deleteTask req db) = db \/
  exists n task, db_online db = true /\ cast_object_id (req_params_id req) = Some n /\
    docs db !! n = Some task /\
    String.eqb (oid_to_string (user task)) (req_user_id req) = true /\
    deleteTask req db = (message 200 "Task removed", with_docs db (delete n (docs db))).
Proof.
  unfold deleteTask, find_by_id. destruct (db_online db) eqn:Hon; [|by left].
  destruct (cast_object_id _) as [n|] eqn:Hc; [|by left].
  destruct (docs db !! n) as [task|] eqn:Hn; [|by left].
  destruct (String.eqb _ _) eqn:Hown; cbn [negb]; [|by left].
  right. exists n, task. unfold delete_one. by rewrite Hon, Hc.
Qed.

Lemma update_plan_some req db task s c :
  update_plan req db = Some (task, s, c) ->
  exists n, db_online db = true /\ cast_object_id (req_params_id req) = Some n /\
    docs db !! n = Some task /\
    String.eqb (oid_to_string (user task)) (req_user_id req) = true /\ s <> "".
Proof.
  unfold update_plan, find_by_id. destruct (db_online db) eqn:Hon; [|done].
  destruct (cast_object_id _) as [n|] eqn:Hc; [|done].
  destruct (docs db !! n) as [t|] eqn:Hn; [|done].
  destruct (String.eqb _ _) eqn:Hown; cbn [negb]; [|done].
  destruct (cast_title _) as [s0|]; [|done].
  destruct (String.eqb_spec s0 "") as [|Hs]; [done|]. intros [= <- <- <-].
  by exists n.
Qed.

(** The route table dispatches to the handler of the route. *)
Lemma handle_unfold hr now db u :
  caller hr = Some u ->
  handle hr now db =
    let req := mkRequest u (route_id (route hr)) (body_title hr) (body_completed hr) in
    match route hr with
    | GetTasks => getTasks req db
    | PostTask => addTask req now db
    | PutTask _ => updateTask req now db
    | DeleteTask _ => deleteTask req db
    end.
Proof. intros Hc. unfold handle, protect. by rewrite Hc. Qed.

(** The well-formedness of a collection extended by a fresh document. *)
Lemma db_wf_insert_fresh db t :
  db_wf db -> task_id t = next_oid db -> (user t < oid_bound)%N -> title t <> "" ->
  db_wf (mkDb (<[next_oid db := t]> (docs db)) (N.succ (next_oid db)) true).
Proof.
  intros Hwf Hid Hu Ht n t'. cbn [docs next_oid]. rewrite lookup_insert.
  case_decide as Heq; [intros [= <-]; subst; repeat split; done || lia|].
  intros Hn. destruct (Hwf n t' Hn) as (? & ? & ? & ?). repeat split; done || lia.
Qed.

Lemma db_wf_overwrite db n t :
  db_wf db -> is_Some (docs db !! n) -> task_id t = n -> (user t < oid_bound)%N -> title t <> "" ->
  db_wf (with_docs db (<[n := t]> (docs db))).
Proof.
  intros Hwf [t0 Hn0] Hid Hu Ht m t'. cbn [docs with_docs next_oid]. rewrite lookup_insert.
  destruct (Hwf n t0 Hn0) as (_ & Hlt & _).
  case_decide as Heq; [intros [= <-]; subst; by repeat split|]. apply Hwf.
Qed.

Lemma db_wf_delete db n : db_wf db -> db_wf (with_docs db (delete n (docs db))).
Proof.
  intros Hwf m t. cbn [docs with_docs next_oid]. rewrite lookup_delete.
  case_decide; [done|]. apply Hwf.
Qed.

#[export] Hint Resolve db_wf_delete : task_db.

(** Every request, whatever its route, caller and body, keeps the
    collection well formed: documents sit under their own fresh ids,
    owners are ObjectIds and titles are non-empty. *)
Lemma handle_preserves_wf hr now db :
  db_wf db -> db_wf (snd (handle hr now db)).
Proof.
  intros Hwf. destruct (caller hr) as [u|] eqn:Hc; [|by unfold handle, protect; rewrite Hc].
  rewrite (handle_unfold _ _ _ _ Hc). cbv zeta. destruct (route hr); cbn [route_id].
  - by rewrite getTasks_db.
  - destruct (addTask_db (mkRequest u "" (body_title hr) (body_completed hr)) now db)
      as [[_ ->]|(s & v & _ & Hv & Hs & _ & ->)]; [done|].
    apply db_wf_insert_fresh; [done..| |done]. by eapply cast_object_id_bound.
  - rewrite updateTask_db.
    destruct (update_plan _ db) as [[[task s] c]|] eqn:Hp; [|done].
    destruct (update_plan_some _ _ _ _ _ Hp) as (n & _ & _ & Hn & _ & Hs).
    destruct (Hwf n task Hn) as (Hid & _ & Hu & _).
    rewrite Hid. apply db_wf_overwrite; [done|by eexists|done..].
  - destruct (deleteTask_db (mkRequest u id (body_title hr) (body_completed hr)) db)
      as [->|(n & task & _ & _ & _ & _ & ->)]; [done|]. cbn [snd]. auto with task_db.
Qed.

Lemma owner_check_true req task :
  (req_user req < oid_bound)%N -> (user task < oid_bound)%N ->
  String.eqb (oid_to_string (user task)) (req_user_id req) = true -> user task = req_user req.
Proof. intros Hu Ht. rewrite owner_check_eqb by done. by intros ?%N.eqb_eq. Qed.

(** C4: a request of user [u] never changes, removes or replaces a
    document of another user, and every document it creates belongs to
    [u]. *)
Theorem handle_other_owners_untouched hr now db u :
  db_wf db -> caller hr = Some u -> (u < oid_bound)%N ->
  let db' := snd (handle hr now db) in
  (forall n t, docs db !! n = Some t -> user t <> u -> docs db' !! n = Some t) /\
  (forall n t, docs db !! n = None -> docs db' !! n = Some t -> user t = u).
Proof.
  intros Hwf Hc Hu. cbv zeta. rewrite (handle_unfold _ _ _ _ Hc). cbv zeta.
  destruct (route hr) as [| |id|id]; cbn [route_id].
  - rewrite getTasks_db. split; [done|]. congruence.
  - destruct (addTask_db (mkRequest u "" (body_title hr) (body_completed hr)) now db)
      as [[_ ->]|(s & v & _ & Hv & _ & _ & ->)]; [split; [done|congruence]|].
    rewrite (req_user_id_cast (mkRequest u "" _ _)) in Hv by done. injection Hv as <-.
    cbn [snd docs]. split.
    + intros n t Hn _. destruct (Hwf n t Hn) as (_ & Hlt & _).
      rewrite lookup_insert_ne by lia. done.
    + intros n t Hn. rewrite lookup_insert. case_decide; [by intros [= <-]|congruence].
  - rewrite updateTask_db. destruct (update_plan _ db) as [[[task s] c]|] eqn:Hp;
      [|split; [done|congruence]].
    destruct (update_plan_some _ _ _ _ _ Hp) as (n & _ & _ & Hn & Hown & _).
    destruct (Hwf n task Hn) as (Hid & _ & Hb & _).
    apply owner_check_true in Hown; [|done..]. cbn [req_user] in Hown.
    cbn [docs with_docs]. rewrite Hid. split.
    + intros n' t Hn' Hne. rewrite lookup_insert_ne; [done|]. intros <-. congruence.
    + intros n' t Hn'. rewrite lookup_insert_ne; [congruence|]. intros <-. congruence.
  - destruct (deleteTask_db (mkRequest u id (body_title hr) (body_completed hr)) db)
      as [->|(n & task & _ & _ & Hn & Hown & ->)]; [split; [done|congruence]|].
    destruct (Hwf n task Hn) as (_ & _ & Hb & _).
    apply owner_check_true in Hown; [|done..]. cbn [req_user] in Hown.
    cbn [snd docs with_docs]. split.
    + intros n' t Hn' Hne. rewrite lookup_delete_ne; [done|]. intros <-. congruence.
    + intros n' t Hn'. rewrite lookup_delete_ne; [congruence|]. intros <-. congruence.
Qed.

(** ** Freshness of ids along a sequence of requests *)


Lemma handle_next_oid hr now db :
  match created_id (fst (handle hr now db)) with
  | Some id => id = next_oid db /\ next_oid (snd (handle hr now db)) = N.succ (next_oid db)
  | None => next_oid (snd (handle hr now db)) = next_oid db
  end.
Proof.
  destruct (caller hr) as [u|] eqn:Hc; [|unfold handle, protect; rewrite Hc; cbn; lia].
  rewrite (handle_unfold _ _ _ _ Hc). cbv zeta.
  destruct (route hr) as [| |id|id]; cbn [route_id].
  - rewrite getTasks_created, getTasks_db. lia.
  - destruct (addTask_db (mkRequest u "" (body_title hr) (body_completed hr)) now db)
      as [[-> ->]|(s & v & _ & _ & _ & _ & ->)]; cbn; [lia|done].
  - rewrite updateTask_created, updateTask_db.
    destruct (update_plan _ _) as [[[? ?] ?]|]; cbn; lia.
  - rewrite deleteTask_created.
    destruct (deleteTask_db (mkRequest u id (body_title hr) (body_completed hr)) db)
      as [->|(n & task & _ & _ & _ & _ & ->)]; cbn; lia.
Qed.

(** Along any sequence of requests, the ids reported as created are
    pairwise distinct and never below the [next_oid] of the start, hence
    distinct from every id stored (or deleted) before: ids are never
    reused. *)
Lemma run_created_ids_fresh trace db :
  NoDup (created_ids (fst (run trace db))) /\
  Forall (fun id => next_oid db <= id)%N (created_ids (fst (run trace db))).
Proof.
  revert db. induction trace as [|[hr now] rest IH]; intros db; cbn [run fst].
  - split; constructor.
  - pose proof (handle_next_oid hr now db) as Hn.
    destruct (handle hr now db) as [r db1]. cbn [fst snd] in Hn. specialize (IH db1).
    destruct (run rest db1) as [rs db2]. cbn [fst] in IH |- *.
    destruct IH as [Hnd Hge]. rewrite created_ids_cons.
    destruct (created_id r) as [id|]; [destruct Hn as [-> Hs]|].
    + split.
      * constructor; [|done]. intros Hin.
        apply list_elem_of_In in Hin.
        rewrite List.Forall_forall in Hge. specialize (Hge _ Hin). lia.
      * constructor; [lia|]. eapply Forall_impl; [exact Hge|]. intros x Hx. cbv beta in Hx |- *. lia.
    + split; [done|]. eapply Forall_impl; [exact Hge|]. intros x Hx. cbv beta in Hx |- *. lia.
Qed.

(** ** Bounds on the ids a run hands out *)

(** The ids created along a run are counted by the counter. *)
Lemma run_next_oid trace db :
  next_oid (snd (run trace db)) = (next_oid db + N.of_nat (length (created_ids (fst (run trace db)))))%N /\
  Forall (fun id => next_oid db <= id < next_oid (snd (run trace db)))%N (created_ids (fst (run trace db))).
Proof.
  revert db. induction trace as [|[hr now] rest IH]; intros db; cbn [run fst snd].
  - split; [cbn; lia|constructor].
  - pose proof (handle_next_oid hr now db) as Hn.
    destruct (handle hr now db) as [r db1]. cbn [fst snd] in Hn. specialize (IH db1).
    destruct (run rest db1) as [rs db2]. cbn [fst snd] in IH |- *.
    destruct IH as [Heq Hall]. rewrite created_ids_cons.
    destruct (created_id r) as [id|]; [destruct Hn as [-> Hs]|]; rewrite Heq.
    + split; [cbn [length]; lia|]. constructor; [lia|].
      eapply Forall_impl; [exact Hall|]. cbv beta. lia.
    + rewrite Hn. split; [done|]. by rewrite <- Hn, <- Heq.
Qed.

Lemma created_ids_length rs : length (created_ids rs) <= length rs.
Proof.
  induction rs as [|r rs IH]; [done|]. rewrite created_ids_cons.
  destruct (created_id r); cbn; lia.
Qed.

Lemma run_length trace db : length (fst (run trace db)) = length trace.
Proof.
  revert db. induction trace as [|[hr now] rest IH]; intros db; [done|]. cbn [run].
  destruct (handle hr now db) as [r db1]. specialize (IH db1).
  destruct (run rest db1) as [rs db2]. cbn in *. by rewrite IH.
Qed.

(** A run of [k] requests hands out at most [k] ids, each the
    counter's value at its creation: while [next_oid + k] stays within
    [2^96] every created id is a 96-bit ObjectId whose printed form casts
    back to it, so the owner comparisons of later requests are exact. *)
Lemma run_ids_within_bound trace db :
  (next_oid db + N.of_nat (length trace) <= oid_bound)%N ->
  (next_oid (snd (run trace db)) <= next_oid db + N.of_nat (length trace))%N /\
  Forall (fun id => (id < oid_bound)%N /\ cast_object_id (oid_to_string id) = Some id)
    (created_ids (fst (run trace db))).
Proof.
  intros Hb. destruct (run_next_oid trace db) as [Heq Hall].
  pose proof (created_ids_length (fst (run trace db))) as Hlen. rewrite run_length in Hlen.
  split; [lia|]. eapply Forall_impl; [exact Hall|]. cbv beta. intros id Hid.
  assert (Hid' : (id < oid_bound)%N) by lia. split; [done|]. by apply cast_oid_roundtrip.
Qed.

(** ** The shape of every response *)

(** The statuses a route answers with a [{ message }] body. *)
Definition message_statuses (r : Route) : list Z :=
  match r with
  | GetTasks => [401; 500]
  | PostTask => [400; 401; 500]
  | PutTask _ => [401; 404; 500]
  | DeleteTask _ => [200; 401; 404; 500]
  end%Z.

(** A response is well typed for its route: a list only for [GET] with
    200, a task only for [POST] with 201 or [PUT] with 200, otherwise a
    message with one of the route's message statuses. *)
Definition response_typed (r : Route) (resp : Response) : bool :=
  match resp_body resp with
  | BTasks _ => match r with GetTasks => (status resp =? 200)%Z | _ => false end
  | BTask _ =>
      match r with
      | PostTask => (status resp =? 201)%Z
      | PutTask _ => (status resp =? 200)%Z
      | _ => false
      end
  | BMessage _ => bool_decide (status resp ∈ message_statuses r)
  end.

(** C15: every response of the router is well typed for its route: the
    body is the JSON shape the client expects for the status, and the
    statuses are exactly those of the route ([PUT] never answers 400, as
    the validation of an update is skipped). *)
Theorem handle_response_typed hr now db :
  response_typed (route hr) (fst (handle hr now db)) = true.
Proof.
  destruct (caller hr) as [u|] eqn:Hc.
  - rewrite (handle_unfold _ _ _ _ Hc). cbv zeta.
    destruct (route hr); cbn [route_id];
      unfold getTasks, addTask, updateTask, deleteTask, message;
      repeat case_match; try reflexivity; by vm_compute.
  - unfold handle, protect. rewrite Hc. unfold message, response_typed. cbn.
    apply bool_decide_eq_true. destruct (route hr); cbn; set_solver.
Qed.

(** ** Concrete runs

    Two users, Alice ([7]) and Bob ([9]); Alice owns task [1]. *)
Module Demo.
Definition alice : N := 7.
Definition bob : N := 9.
Definition milk : Task := mkTask 1 "Buy milk" false alice 10 10.
Definition db0 : Db := mkDb {[1%N := milk]} 2 true.
Definition req (u : N) (id : string) (t c : jsval) : Request := mkRequest u id t c.
End Demo.
Import Demo.

Lemma getTasks_isolation_witness :
  user milk = alice /\ exists n, docs db0 !! n = Some milk.
Proof.
  apply (getTasks_isolation (req alice "" JUndefined JUndefined) db0
           (mkResponse 200 (BTasks [milk])) db0 [milk] milk).
  - vm_compute. reflexivity.
  - vm_compute. reflexivity.
  - reflexivity.
  - left. reflexivity.
Defined.

Lemma db0_wf : db_wf db0.
Proof. apply (bool_decide_unpack (db_wf db0)). vm_compute. exact I. Qed.

Lemma guard_not_found_witness :
  updateTask (req alice (oid_to_string 5) JUndefined (JBool true)) 20 db0 =
    (message 404 "Task not found", db0) /\
  deleteTask (req alice (oid_to_string 5) JUndefined (JBool true)) db0 =
    (message 404 "Task not found", db0).
Proof.
  apply (guard_not_found _ _ _ 5); vm_compute; reflexivity.
Defined.

Lemma guard_unauthorized_witness :
  updateTask (req bob (oid_to_string 1) JUndefined (JBool true)) 20 db0 =
    (message 401 "Not authorized to update this task", db0) /\
  deleteTask (req bob (oid_to_string 1) JUndefined (JBool true)) db0 =
    (message 401 "Not authorized to delete this task", db0).
Proof.
  apply (guard_unauthorized _ _ _ 1 milk).
  - reflexivity.
  - apply (bool_decide_unpack (db_wf db0)). vm_compute. exact I.
  - vm_compute. reflexivity.
  - vm_compute. reflexivity.
  - vm_compute. reflexivity.
  - vm_compute. discriminate.
Defined.

Lemma addTask_creates_witness :
  let t := mkTask (next_oid db0) "Call mom" false alice 20 20 in
  docs db0 !! next_oid db0 = None /\
  addTask (req alice "" (JStr "Call mom") JUndefined) 20 db0 =
    (mkResponse 201 (BTask t),
     mkDb (<[next_oid db0 := t]> (docs db0)) (N.succ (next_oid db0)) true).
Proof.
  apply (addTask_creates (req alice "" (JStr "Call mom") JUndefined) 20 db0 "Call mom").
  - reflexivity.
  - apply (bool_decide_unpack (db_wf db0)). vm_compute. exact I.
  - vm_compute. reflexivity.
  - reflexivity.
  - discriminate.
Defined.

Lemma handle_other_owners_untouched_witness :
  let db' := snd (handle (mkHttpRequest (DeleteTask (oid_to_string 1)) (Some bob) JUndefined JUndefined) 30 db0) in
  (forall n t, docs db0 !! n = Some t -> user t <> bob -> docs db' !! n = Some t) /\
  (forall n t, docs db0 !! n = None -> docs db' !! n = Some t -> user t = bob).
Proof.
  apply handle_other_owners_untouched.
  - apply (bool_decide_unpack (db_wf db0)). vm_compute. exact I.
  - reflexivity.
  - vm_compute. reflexivity.
Defined.

