(* ===== verification/ControllerRefinement.v ===== *)
(** * The REST controller implements the abstract task store

    The abstraction [abs] forgets the [updatedAt] timestamp of each
    document.  A call of the spec's API ([ApiCall]) is encoded as the HTTP
    request the client would send; for every call inside the spec's
    domain, [handle] answers with the status the spec's REST table gives
    and leaves a collection whose abstraction is the spec's new store
    ([handle_refines]).  The calls outside that domain are exactly where
    the controller and the spec disagree; the divergence theorems at the
    end of the file state what the controller does there. *)
From S2P Require Import Prelude Utf8 JsRuntime StoreSpec TaskModel TaskController.
Import StoreSpec.

(** ** Abstraction and encoding *)

Definition abs_task (t : Task) : ATask :=
  mkATask (title t) (completed t) (user t) (createdAt t).

Definition abs (db : Db) : gmap N ATask := abs_task <$> docs db.

Inductive ApiCall : Type :=
| CList
| CCreate (t : string)
| CUpdate (id : N) (p : Patch)
| CDelete (id : N).

Definition encode_title (o : option string) : jsval :=
  match o with Some s => JStr s | None => JUndefined end.

Definition encode_completed (o : option bool) : jsval :=
  match o with Some b => JBool b | None => JUndefined end.

(** The request a client sends for a call, as user [u]. *)
Definition encode (c : ApiCall) (u : N) : HttpRequest :=
  match c with
  | CList => mkHttpRequest GetTasks (Some u) JUndefined JUndefined
  | CCreate s => mkHttpRequest PostTask (Some u) (JStr s) JUndefined
  | CUpdate id p =>
      mkHttpRequest (PutTask (oid_to_string id)) (Some u)
                    (encode_title (p_title p)) (encode_completed (p_completed p))
  | CDelete id => mkHttpRequest (DeleteTask (oid_to_string id)) (Some u) JUndefined JUndefined
  end.

(** The calls on which the spec and the controller agree: a create title
    is empty or not blank, an update title (if any) is not blank, and ids
    are ObjectIds. *)
Definition in_domain (c : ApiCall) : Prop :=
  match c with
  | CList => True
  | CCreate s => s = "" \/ blank s = false
  | CUpdate id p => (id < oid_bound)%N /\ forall s, p_title p = Some s -> blank s = false
  | CDelete id => (id < oid_bound)%N
  end.

(** The spec's answer to a call: an error, or the success status, the
    task returned (if any) and the new store. *)
Definition spec_call (c : ApiCall) (u fresh : N) (now : Z) (m : gmap N ATask)
  : StoreError + (Z * option ATask * gmap N ATask) :=
  match c with
  | CList => inr (200%Z, None, m)
  | CCreate s =>
      match s_create u s fresh now m with
      | inl e => inl e
      | inr (a, m') => inr (201%Z, Some a, m')
      end
  | CUpdate id p =>
      match s_update id u p m with
      | inl e => inl e
      | inr (a, m') => inr (200%Z, Some a, m')
      end
  | CDelete id =>
      match s_delete id u m with
      | inl e => inl e
      | inr m' => inr (200%Z, None, m')
      end
  end.

(** The response [r] and collection [db'] implement the spec's answer. *)
Definition refines (c : ApiCall) (u fresh : N) (now : Z) (m : gmap N ATask)
    (r : Response) (db' : Db) : Prop :=
  match spec_call c u fresh now m with
  | inl e => status r = error_status e /\ abs db' = m
  | inr (code, oa, m') =>
      status r = code /\ abs db' = m' /\
      match oa with
      | Some a => exists t, resp_body r = BTask t /\ abs_task t = a
      | None => True
      end
  end /\
  (c = CList -> exists l, resp_body r = BTasks l /\ Permutation (List.map abs_task l) (s_list u m)).

(** ** Lemmas on the abstraction *)

Lemma abs_lookup db n : abs db !! n = abs_task <$> docs db !! n.
Proof. apply lookup_fmap. Qed.

Lemma abs_with_insert db n t :
  abs (with_docs db (<[n := t]> (docs db))) = <[n := abs_task t]> (abs db).
Proof. apply fmap_insert. Qed.

Lemma abs_with_delete db n : abs (with_docs db (delete n (docs db))) = delete n (abs db).
Proof. apply fmap_delete. Qed.

Lemma map_snd_prod_map {A B C} (f : B -> C) (l : list (A * B)) :
  List.map snd (List.map (prod_map id f) l) = List.map f (List.map snd l).
Proof. induction l as [|[a b] l IH]; simpl; [done|]. by rewrite IH. Qed.

Lemma s_list_abs u db :
  s_list u (abs db) = List.map abs_task (List.filter (owned_by u) (stored (docs db))).
Proof.
  unfold s_list, abs, stored. rewrite map_to_list_fmap.
  change (prod_map id abs_task <$> map_to_list (docs db))
    with (List.map (prod_map id abs_task) (map_to_list (docs db))).
  by rewrite map_snd_prod_map, filter_map_swap.
Qed.

Lemma guard_abs db n u :
  guard n u (abs db) =
  match docs db !! n with
  | None => inl NotFound
  | Some t => if (user t =? u)%N then inr (abs_task t) else inl Unauthorized
  end.
Proof. unfold guard. rewrite abs_lookup. by destruct (docs db !! n). Qed.

Lemma blank_empty : blank "" = true.
Proof. reflexivity. Qed.

Lemma not_blank_nonempty s : blank s = false -> s <> "".
Proof. intros Hb ->. by rewrite blank_empty in Hb. Qed.

(** A successful [updateTask]: the document is saved with the new title
    and [completed], answered 200. *)
Lemma updateTask_saves req now db n task s :
  db_online db = true -> cast_object_id (req_params_id req) = Some n ->
  docs db !! n = Some task ->
  String.eqb (oid_to_string (user task)) (req_user_id req) = true ->
  cast_title (js_or (req_title req) (JStr (title task))) = Some s -> s <> "" ->
  let c := match typeof_boolean (req_completed req) with Some b => b | None => completed task end in
  updateTask req now db =
    (mkResponse 200 (BTask (saved_doc task s c now)),
     with_docs db (<[task_id task := saved_doc task s c now]> (docs db))).
Proof.
  intros Hon Hc Hn Hown Hs Hne. unfold updateTask.
  rewrite (find_by_id_cast _ _ _ Hon Hc), Hn, Hown. cbn [negb].
  unfold save_existing. rewrite Hon, Hs. apply String.eqb_neq in Hne. by rewrite Hne.
Qed.

Lemma handle_encode c u now db :
  handle (encode c u) now db =
  let req := mkRequest u (route_id (route (encode c u))) (body_title (encode c u))
                       (body_completed (encode c u)) in
  match route (encode c u) with
  | GetTasks => getTasks req db
  | PostTask => addTask req now db
  | PutTask _ => updateTask req now db
  | DeleteTask _ => deleteTask req db
  end.
Proof. apply handle_unfold. by destruct c. Qed.

(** [title || task.title] on an encoded title, after the Mongoose cast. *)
Lemma cast_encoded_title o old :
  cast_title (js_or (encode_title o) (JStr old)) =
  Some (match o with Some s => if String.eqb s "" then old else s | None => old end).
Proof. unfold js_or. destruct o as [s|]; cbn; [by destruct (String.eqb s "")|done]. Qed.

(** The ownership check passes for the owner. *)
Lemma owner_check_refl u id t c task :
  (u < oid_bound)%N -> user task = u ->
  String.eqb (oid_to_string (user task)) (req_user_id (mkRequest u id t c)) = true.
Proof. intros Hu <-. apply String.eqb_refl. Qed.

(** ** Refinement, call by call *)

Section Refinement.
Context (u : N) (now : Z) (db : Db).
Hypothesis Hwf : db_wf db.
Hypothesis Hon : db_online db = true.
Hypothesis Hu : (u < oid_bound)%N.

Let R c := refines c u (next_oid db) now (abs db)
             (fst (handle (encode c u) now db)) (snd (handle (encode c u) now db)).

Lemma list_refines : R CList.
Proof.
  unfold R. rewrite handle_encode. cbv zeta. cbn [encode route route_id body_title body_completed].
  destruct (getTasks_online_spec (mkRequest u "" JUndefined JUndefined) db Hu Hon)
    as (l & -> & Hp & _).
  unfold refines. cbn [spec_call fst snd status]. split; [by repeat split|].
  intros _. exists l. split; [done|]. rewrite s_list_abs. by apply Permutation_map.
Qed.

Lemma create_refines s : s = "" \/ blank s = false -> R (CCreate s).
Proof.
  intros Hs. unfold R. rewrite handle_encode. cbv zeta.
  cbn [encode route route_id body_title body_completed].
  unfold refines, spec_call, s_create. destruct Hs as [->|Hb].
  - rewrite addTask_falsy_spec by reflexivity. rewrite blank_empty.
    split; [done|discriminate].
  - destruct (addTask_truthy_spec (mkRequest u "" (JStr s) JUndefined) now db s Hon Hwf Hu eq_refl
                (not_blank_nonempty _ Hb)) as [_ ->].
    rewrite Hb. cbn [fst snd status resp_body]. split; [|discriminate].
    split; [done|]. split; [|by eexists].
    unfold abs. cbn [docs]. by rewrite fmap_insert.
Qed.

Lemma update_refines id p :
  (id < oid_bound)%N -> (forall s, p_title p = Some s -> blank s = false) -> R (CUpdate id p).
Proof.
  intros Hid Hp. unfold R. rewrite handle_encode. cbv zeta.
  cbn [encode route route_id body_title body_completed].
  set (req := mkRequest u (oid_to_string id) (encode_title (p_title p))
                        (encode_completed (p_completed p))).
  assert (Hc : cast_object_id (req_params_id req) = Some id)
    by (apply cast_oid_roundtrip; done).
  unfold refines, spec_call, s_update. rewrite guard_abs.
  destruct (docs db !! id) as [task|] eqn:Hn.
  2: { destruct (guard_missing_spec req now db id Hon Hc Hn) as [-> _].
       split; [done|discriminate]. }
  destruct (Hwf id task Hn) as (Htid & _ & Hb & Htitle).
  destruct (N.eqb_spec (user task) u) as [Hown|Hne].
  2: { destruct (guard_foreign_spec req now db id task Hon Hwf Hu Hc Hn Hne) as [-> _].
       split; [done|discriminate]. }
  pose proof (owner_check_refl u (oid_to_string id) (encode_title (p_title p))
                (encode_completed (p_completed p)) task Hu Hown) as Hown'.
  assert (Hcast : exists s, cast_title (js_or (req_title req) (JStr (title task))) = Some s /\
            s <> "" /\ default (title task) (p_title p) = s /\
            match p_title p with Some s' => blank s' = false | None => True end).
  { cbn [req req_title]. rewrite cast_encoded_title. destruct (p_title p) as [s|] eqn:Hpt.
    - pose proof (not_blank_nonempty _ (Hp s eq_refl)) as Hne.
      exists s. apply String.eqb_neq in Hne as Hne'. rewrite Hne'. by rewrite (Hp s eq_refl).
    - by exists (title task). }
  destruct Hcast as (s & Hs & Hsne & Hdef & Hbl).
  rewrite (updateTask_saves req now db id task s Hon Hc Hn Hown' Hs Hsne).
  assert (Habs : abs_task (saved_doc task s (match typeof_boolean (req_completed req) with
                    | Some b => b | None => completed task end) now)
                 = apply_patch p (abs_task task)).
  { unfold abs_task, saved_doc, apply_patch. cbn. rewrite Hdef, Hown.
    by destruct (p_completed p). }
  assert (Hres : status (mkResponse 200 (BTask (saved_doc task s (match typeof_boolean (req_completed req) with
                    | Some b => b | None => completed task end) now))) = 200%Z /\
          abs (with_docs db (<[task_id task := saved_doc task s (match typeof_boolean (req_completed req) with
                    | Some b => b | None => completed task end) now]> (docs db))) =
          <[id := apply_patch p (abs_task task)]> (abs db)).
  { split; [done|]. by rewrite abs_with_insert, Htid, Habs. }
  cbn [fst snd].
  destruct (p_title p) as [s'|]; [rewrite Hbl|];
    (split; [|discriminate]); (split; [done|]); (split; [apply Hres|by eexists]).
Qed.

Lemma delete_refines id : (id < oid_bound)%N -> R (CDelete id).
Proof.
  intros Hid. unfold R. rewrite handle_encode. cbv zeta.
  cbn [encode route route_id body_title body_completed].
  set (req := mkRequest u (oid_to_string id) JUndefined JUndefined).
  assert (Hc : cast_object_id (req_params_id req) = Some id)
    by (apply cast_oid_roundtrip; done).
  unfold refines, spec_call, s_delete. rewrite guard_abs.
  destruct (docs db !! id) as [task|] eqn:Hn.
  2: { destruct (guard_missing_spec req now db id Hon Hc Hn) as [_ ->].
       split; [done|discriminate]. }
  destruct (N.eqb_spec (user task) u) as [Hown|Hne].
  2: { destruct (guard_foreign_spec req now db id task Hon Hwf Hu Hc Hn Hne) as [_ ->].
       split; [done|discriminate]. }
  destruct (deleteTask_owner_spec req db id task Hon Hwf Hu Hc Hn Hown) as [-> _].
  split; [|discriminate]. split; [done|]. split; [|done]. apply abs_with_delete.
Qed.

End Refinement.

(** C5: the REST controller refines the abstract store of the spec: for
    every call inside the spec's domain, made by a user on a reachable,
    well-formed collection, [handle] answers the status the spec gives
    (200/201 on success, 400/401/404 on ValidationError, Unauthorized,
    NotFound), returns the spec's task, lists the spec's tasks, and leaves
    a collection whose abstraction is the spec's new store. *)
Theorem handle_refines c u now db :
  db_wf db -> db_online db = true -> (u < oid_bound)%N -> in_domain c ->
  refines c u (next_oid db) now (abs db)
    (fst (handle (encode c u) now db)) (snd (handle (encode c u) now db)).
Proof.
  intros Hwf Hon Hu Hdom. destruct c as [|s|id p|id]; cbn [in_domain] in Hdom.
  - by apply list_refines.
  - by apply create_refines.
  - destruct Hdom. by apply update_refines.
  - by apply delete_refines.
Qed.

(** ** Where the controller leaves the spec *)

(** C16: a title made only of white space (but not empty) passes the
    [if (!title)] test: [addTask] creates the task and answers 201, where
    the spec requires a ValidationError. *)
Theorem create_blank_title_accepted u s now db :
  db_online db = true -> (u < oid_bound)%N -> s <> "" -> blank s = true ->
  status (fst (handle (encode (CCreate s) u) now db)) = 201%Z /\
  spec_call (CCreate s) u (next_oid db) now (abs db) = inl ValidationError.
Proof.
  intros Hon Hu Hne Hb. unfold spec_call, s_create. rewrite Hb. split; [|done].
  rewrite handle_encode. cbv zeta. cbn [encode route route_id body_title body_completed].
  unfold addTask, save_new. cbn [req_title truthy].
  apply String.eqb_neq in Hne as Hne'. rewrite Hne', Hon.
  rewrite req_user_id_cast by done. cbn [cast_title]. by rewrite Hne'.
Qed.

(** C17: an update whose title is blank is not rejected: the owner gets
    200, an empty title leaves the stored title unchanged ([title ||
    task.title]) and a white-space title is stored, where the spec
    requires a ValidationError. *)
Theorem update_blank_title_not_rejected u id p now db task s :
  db_online db = true -> db_wf db -> (u < oid_bound)%N -> (id < oid_bound)%N ->
  docs db !! id = Some task -> user task = u -> p_title p = Some s -> blank s = true ->
  status (fst (handle (encode (CUpdate id p) u) now db)) = 200%Z /\
  (exists t, resp_body (fst (handle (encode (CUpdate id p) u) now db)) = BTask t /\
             title t = (if String.eqb s "" then title task else s)) /\
  spec_call (CUpdate id p) u (next_oid db) now (abs db) = inl ValidationError.
Proof.
  intros Hon Hwf Hu Hid Hn Hown Hpt Hb.
  destruct (Hwf id task Hn) as (Htid & _ & Htb & Htitle).
  split; [|split]; cycle 2.
  { unfold spec_call, s_update. rewrite guard_abs, Hn, Hown, N.eqb_refl, Hpt. by rewrite Hb. }
  all: rewrite handle_encode; cbv zeta; cbn [encode route route_id body_title body_completed].
  all: set (req := mkRequest u (oid_to_string id) (encode_title (p_title p))
                             (encode_completed (p_completed p))).
  all: assert (Hc : cast_object_id (req_params_id req) = Some id)
         by (apply cast_oid_roundtrip; done).
  all: pose proof (owner_check_refl u (oid_to_string id) (encode_title (p_title p))
                     (encode_completed (p_completed p)) task Hu Hown) as Hown'.
  all: assert (Hs : cast_title (js_or (req_title req) (JStr (title task))) =
                    Some (if String.eqb s "" then title task else s))
         by (cbn [req req_title]; by rewrite cast_encoded_title, Hpt).
  all: assert (Hne : (if String.eqb s "" then title task else s) <> "")
         by (destruct (String.eqb_spec s ""); [done|done]).
  all: rewrite (updateTask_saves req now db id task _ Hon Hc Hn Hown' Hs Hne).
  - done.
  - by eexists.
Qed.

(** C18: an id that is not 24 hexadecimal digits makes [findById] throw a
    CastError, which the [catch] turns into 500, where the spec answers a
    target that resolves to no record with 404. *)
Theorem malformed_id_server_error u id t c now db :
  db_online db = true -> cast_object_id id = None ->
  handle (mkHttpRequest (PutTask id) (Some u) t c) now db =
    (message 500 "Server error updating task", db) /\
  handle (mkHttpRequest (DeleteTask id) (Some u) t c) now db =
    (message 500 "Server error deleting task", db).
Proof.
  intros Hon Hc. unfold handle, protect. cbn [caller route route_id].
  unfold updateTask, deleteTask, find_by_id. cbn [req_params_id]. by rewrite Hon, Hc.
Qed.

(** ** Concrete instances *)

Import Demo.

Lemma handle_refines_witness :
  refines (CUpdate 1 (mkPatch None (Some true))) alice (next_oid db0) 20 (abs db0)
    (fst (handle (encode (CUpdate 1 (mkPatch None (Some true))) alice) 20 db0))
    (snd (handle (encode (CUpdate 1 (mkPatch None (Some true))) alice) 20 db0)).
Proof.
  apply handle_refines.
  - apply (bool_decide_unpack (db_wf db0)). vm_compute. exact I.
  - reflexivity.
  - vm_compute. reflexivity.
  - split; [vm_compute; reflexivity|discriminate].
Defined.

(** A NO-BREAK SPACE and an IDEOGRAPHIC SPACE: white space to [trim],
    a truthy string to [if (!title)]. *)
Lemma create_blank_title_accepted_witness :
  status (fst (handle (encode (CCreate (utf8_encode [160; 12288]%Z)) alice) 20 db0)) = 201%Z /\
  spec_call (CCreate (utf8_encode [160; 12288]%Z)) alice (next_oid db0) 20 (abs db0) = inl ValidationError.
Proof.
  apply create_blank_title_accepted.
  - reflexivity.
  - vm_compute. reflexivity.
  - vm_compute. discriminate.
  - vm_compute. reflexivity.
Defined.

Lemma update_blank_title_not_rejected_witness :
  status (fst (handle (encode (CUpdate 1 (mkPatch (Some "") None)) alice) 20 db0)) = 200%Z /\
  (exists t, resp_body (fst (handle (encode (CUpdate 1 (mkPatch (Some "") None)) alice) 20 db0))
               = BTask t /\ title t = (if String.eqb "" "" then title milk else "")) /\
  spec_call (CUpdate 1 (mkPatch (Some "") None)) alice (next_oid db0) 20 (abs db0)
    = inl ValidationError.
Proof.
  apply (update_blank_title_not_rejected alice 1 _ 20 db0 milk "").
  - reflexivity.
  - apply (bool_decide_unpack (db_wf db0)). vm_compute. exact I.
  - vm_compute. reflexivity.
  - vm_compute. reflexivity.
  - reflexivity.
  - reflexivity.
  - reflexivity.
  - reflexivity.
Defined.

Lemma malformed_id_server_error_witness :
  handle (mkHttpRequest (PutTask "42") (Some alice) JUndefined (JBool true)) 20 db0 =
    (message 500 "Server error updating task", db0) /\
  handle (mkHttpRequest (DeleteTask "42") (Some alice) JUndefined (JBool true)) 20 db0 =
    (message 500 "Server error deleting task", db0).
Proof. apply malformed_id_server_error; reflexivity. Defined.
