(* ===== verification/Server.v ===== *)
(** * The Express application ([src/server/index.js])

    [index.js] mounts the authentication routes on [/api/auth] and the
    task router on [/api/tasks], and answers [GET /] with a text.  The
    task router ([routes/tasks.js], not under src/, from the REST table of
    spec section 6) has [/] with GET and POST and [/:id] with PUT and
    DELETE, each behind [protect]: that part is [handle]
    ([TaskController]).

    Routing follows Express 4: paths are matched without regard to case
    and with an optional trailing slash, a mount point matches when the
    path continues with [/] or ends, [:id] is one non-empty segment, and
    its value is decoded with [decodeURIComponent]; a value that does not
    decode makes Express answer 400 before the route's handlers run, and
    a request no route takes is answered 404 ("Cannot GET /path").  The
    query string is not part of the path.  The authentication routes
    ([routes/auth.js], not under src/ and outside the spec) are not
    modelled; they do not touch the tasks collection. *)
From S2P Require Import Prelude Utf8 JsRuntime TaskModel TaskController.
From Stdlib Require Import Ascii String.

(** ** [encodeURIComponent] and [decodeURIComponent] on UTF-8 strings *)

(** The characters [encodeURIComponent] leaves alone. *)
Definition is_unreserved (c : ascii) : bool :=
  let n := N_of_ascii c in
  ((48 <=? n) && (n <=? 57) || (65 <=? n) && (n <=? 90) || (97 <=? n) && (n <=? 122))%N ||
  existsb (Ascii.eqb c) (list_ascii_of_string "-_.!~*'()").

Definition hex_upper (d : N) : ascii := ascii_of_N (if (d <? 10)%N then 48 + d else 55 + d)%N.

(** Every other byte of the UTF-8 encoding becomes [%XY]. *)
Fixpoint encode_uri_component (s : string) : string :=
  match s with
  | EmptyString => EmptyString
  | String c s' =>
      if is_unreserved c then String c (encode_uri_component s')
      else String "%" (String (hex_upper (N_of_ascii c / 16)) (String (hex_upper (N_of_ascii c mod 16))
             (encode_uri_component s')))
  end.

(** [%XY] becomes the byte [XY]; a [%] not followed by two hexadecimal
    digits is an error. *)
Fixpoint decode_percent (s : string) : option string :=
  match s with
  | EmptyString => Some EmptyString
  | String c rest =>
      if Ascii.eqb c "%" then
        match rest with
        | String h1 (String h2 rest') =>
            match hex_value h1, hex_value h2, decode_percent rest' with
            | Some v1, Some v2, Some t => Some (String (ascii_of_N (16 * v1 + v2)) t)
            | _, _, _ => None
            end
        | _ => None
        end
      else option_map (String c) (decode_percent rest)
  end.

(** The bytes are the UTF-8 encoding of code points. *)
Definition utf8_valid (s : string) : bool := String.eqb (utf8_encode (utf8_decode s)) s.

(** [decodeURIComponent]: a [URIError] when an escape is malformed or the
    bytes are not UTF-8. *)
Definition decode_uri_component (s : string) : option string :=
  match decode_percent s with
  | Some t => if utf8_valid t then Some t else None
  | None => None
  end.

(** ** Paths *)

Inductive Method : Type := MGet | MHead | MPost | MPut | MDelete | MOther (name : string).

Definition method_name (m : Method) : string :=
  match m with
  | MGet => "GET" | MHead => "HEAD" | MPost => "POST" | MPut => "PUT" | MDelete => "DELETE"
  | MOther n => n
  end.

(** The path of a URL: everything before [?]. *)
Fixpoint url_path (u : string) : string :=
  match u with
  | EmptyString => EmptyString
  | String c u' => if Ascii.eqb c "?" then EmptyString else String c (url_path u')
  end.

Definition lower (c : ascii) : ascii :=
  let n := N_of_ascii c in if ((65 <=? n) && (n <=? 90))%N then ascii_of_N (n + 32) else c.

(** The rest of [s] after the prefix [p], compared without case. *)
Fixpoint strip_prefix_ci (p s : string) : option string :=
  match p, s with
  | EmptyString, _ => Some s
  | String a p', String b s' => if Ascii.eqb (lower a) (lower b) then strip_prefix_ci p' s' else None
  | String _ _, EmptyString => None
  end.

(** A mount point matches when the path ends there or goes on with [/]. *)
Definition mount (p s : string) : option string :=
  match strip_prefix_ci p s with
  | Some EmptyString => Some EmptyString
  | Some (String c r) => if Ascii.eqb c "/" then Some (String c r) else None
  | None => None
  end.

(** The segment up to the first [/], and what follows from it. *)
Fixpoint split_slash (s : string) : string * string :=
  match s with
  | EmptyString => (EmptyString, EmptyString)
  | String c s' =>
      if Ascii.eqb c "/" then (EmptyString, s)
      else let (seg, tail) := split_slash s' in (String c seg, tail)
  end.

Inductive TaskPath : Type := TRoot | TId (seg : string) | TNoPath.

(** The paths of the task router, below its mount point: [/] and [/:id],
    each with an optional trailing slash. *)
Definition task_path (rest : string) : TaskPath :=
  match rest with
  | EmptyString => TRoot
  | String c r =>
      if Ascii.eqb c "/" then
        match r with
        | EmptyString => TRoot
        | _ =>
            let (seg, tail) := split_slash r in
            if String.eqb seg "" then TNoPath
            else if String.eqb tail "" || String.eqb tail "/" then TId seg else TNoPath
        end
      else TNoPath
  end.

Inductive RouteMatch : Type :=
| RTasks (r : Route)        (** a route of the task router *)
| RRoot                     (** [app.get('/')] *)
| RAuth                     (** under [/api/auth] *)
| RBadParam (seg : string)  (** [:id] does not decode *)
| RNone.

(** [app.use('/api/auth', ...)], [app.use('/api/tasks', ...)],
    [app.get('/', ...)]; [HEAD] is answered by the GET routes. *)
Definition route_of_request (m : Method) (url : string) : RouteMatch :=
  let p := url_path url in
  match mount "/api/auth" p with
  | Some _ => RAuth
  | None =>
      match mount "/api/tasks" p with
      | Some rest =>
          match task_path rest, m with
          | TRoot, (MGet | MHead) => RTasks GetTasks
          | TRoot, MPost => RTasks PostTask
          | TRoot, _ => RNone
          | TId seg, _ =>
              match decode_uri_component seg, m with
              | None, _ => RBadParam seg
              | Some id, MPut => RTasks (PutTask id)
              | Some id, MDelete => RTasks (DeleteTask id)
              | Some _, _ => RNone
              end
          | TNoPath, _ => RNone
          end
      | None =>
          match m with
          | MGet | MHead => if String.eqb p "/" then RRoot else RNone
          | _ => RNone
          end
      end
  end.

(** ** The application *)

Record RawRequest : Type := mkRawRequest {
  rq_method : Method;
  rq_url : string;
  rq_caller : option N;        (** what the bearer token resolves to *)
  rq_title : jsval;
  rq_completed : jsval
}.

Inductive Reply : Type :=
| ApiReply (r : Response)                 (** a response of the task router *)
| TextReply (code : Z) (text : string)    (** [res.send] or Express's own answer *)
| AuthReply.                              (** the authentication routes, not modelled *)

Definition server (rq : RawRequest) (now : Z) (db : Db) : Reply * Db :=
  match route_of_request (rq_method rq) (rq_url rq) with
  | RTasks r =>
      let '(resp, db') := handle (mkHttpRequest r (rq_caller rq) (rq_title rq) (rq_completed rq)) now db in
      (ApiReply resp, db')
  | RRoot => (TextReply 200 "Task Management API is running...", db)
  | RAuth => (AuthReply, db)
  | RBadParam seg => (TextReply 400 ("Failed to decode param '" +:+ seg +:+ "'"), db)
  | RNone => (TextReply 404 ("Cannot " +:+ method_name (rq_method rq) +:+ " " +:+ url_path (rq_url rq)), db)
  end.

(** ** URLs of the routes *)

Definition method_of (r : Route) : Method :=
  match r with GetTasks => MGet | PostTask => MPost | PutTask _ => MPut | DeleteTask _ => MDelete end.

(** The URL a client builds for a route, with [encodeURIComponent(id)]. *)
Definition url_of (r : Route) : string :=
  match r with
  | GetTasks | PostTask => "/api/tasks"
  | PutTask id | DeleteTask id => "/api/tasks/" +:+ encode_uri_component id
  end.

(** An id a URL can carry: not empty, and a string (UTF-8). *)
Definition route_id_ok (r : Route) : bool :=
  match r with
  | PutTask id | DeleteTask id => negb (String.eqb id "") && utf8_valid id
  | _ => true
  end.

(** ** Lemmas on the escapes *)

Lemma hex_upper_digits d :
  (d < 16)%N -> hex_value (hex_upper d) = Some d /\ Ascii.eqb (hex_upper d) "/" = false /\
                Ascii.eqb (hex_upper d) "?" = false.
Proof.
  intros Hd. assert (Hc : (d = 0 \/ d = 1 \/ d = 2 \/ d = 3 \/ d = 4 \/ d = 5 \/ d = 6 \/ d = 7 \/
    d = 8 \/ d = 9 \/ d = 10 \/ d = 11 \/ d = 12 \/ d = 13 \/ d = 14 \/ d = 15)%N) by lia.
  repeat (destruct Hc as [->|Hc]; [vm_compute; auto|]). subst. vm_compute. auto.
Qed.

Lemma unreserved_chars c :
  is_unreserved c = true ->
  Ascii.eqb c "%" = false /\ Ascii.eqb c "/" = false /\ Ascii.eqb c "?" = false.
Proof.
  intros Hu. split_and!; apply Ascii.eqb_neq; intros ->; vm_compute in Hu; discriminate.
Qed.

Lemma byte_digits c : (N_of_ascii c / 16 < 16)%N /\ (N_of_ascii c mod 16 < 16)%N.
Proof.
  pose proof (N_ascii_bounded c). split; [apply N.Div0.div_lt_upper_bound; lia|apply N.mod_lt; lia].
Qed.

(** [decodeURIComponent] undoes [encodeURIComponent] on the escapes. *)
Lemma decode_encode_percent s : decode_percent (encode_uri_component s) = Some s.
Proof.
  induction s as [|c s IH]; [done|]. cbn [encode_uri_component].
  destruct (is_unreserved c) eqn:Hu.
  - cbn [decode_percent]. rewrite (proj1 (unreserved_chars c Hu)), IH. done.
  - destruct (byte_digits c) as [H1 H2].
    cbn [decode_percent]. rewrite (proj1 (hex_upper_digits _ H1)), (proj1 (hex_upper_digits _ H2)), IH.
    cbn. do 2 f_equal. rewrite <-(ascii_N_embedding c) at 3. f_equal.
    pose proof (N.Div0.div_mod (N_of_ascii c) 16). lia.
Qed.

(** An escaped string has no [/] and no [?]. *)
Lemma split_slash_encode s : split_slash (encode_uri_component s) = (encode_uri_component s, "").
Proof.
  induction s as [|c s IH]; [done|]. cbn [encode_uri_component].
  destruct (is_unreserved c) eqn:Hu.
  - cbn [split_slash]. by rewrite (proj1 (proj2 (unreserved_chars c Hu))), IH.
  - destruct (byte_digits c) as [H1 H2]. cbn [split_slash].
    rewrite (proj1 (proj2 (hex_upper_digits _ H1))), (proj1 (proj2 (hex_upper_digits _ H2))), IH.
    done.
Qed.

Lemma url_path_encode s : url_path (encode_uri_component s) = encode_uri_component s.
Proof.
  induction s as [|c s IH]; [done|]. cbn [encode_uri_component].
  destruct (is_unreserved c) eqn:Hu.
  - cbn [url_path]. by rewrite (proj2 (proj2 (unreserved_chars c Hu))), IH.
  - destruct (byte_digits c) as [H1 H2]. cbn [url_path].
    rewrite (proj2 (proj2 (hex_upper_digits _ H1))), (proj2 (proj2 (hex_upper_digits _ H2))), IH.
    done.
Qed.

Lemma encode_nonempty s : s <> "" -> encode_uri_component s <> "".
Proof. destruct s as [|c s]; [done|]. intros _. cbn. by destruct (is_unreserved c). Qed.

Lemma url_path_tasks x : url_path ("/api/tasks/" +:+ x) = "/api/tasks/" +:+ url_path x.
Proof. reflexivity. Qed.

Lemma mount_tasks x :
  mount "/api/auth" ("/api/tasks/" +:+ x) = None /\ mount "/api/tasks" ("/api/tasks/" +:+ x) = Some (String "/" x).
Proof. split; reflexivity. Qed.

(** The id segment of a route's URL is its escaped id. *)
Lemma task_path_encoded id :
  id <> "" -> task_path (String "/" (encode_uri_component id)) = TId (encode_uri_component id).
Proof.
  intros Hid. pose proof (encode_nonempty id Hid) as He. unfold task_path. cbn [Ascii.eqb Bool.eqb].
  destruct (encode_uri_component id) as [|c e] eqn:Ee; [done|]. rewrite <-Ee, split_slash_encode, Ee.
  done.
Qed.

Lemma decode_uri_component_encode id :
  utf8_valid id = true -> decode_uri_component (encode_uri_component id) = Some id.
Proof. intros Hv. unfold decode_uri_component. by rewrite decode_encode_percent, Hv. Qed.

(** The URL a client builds for a route, with the id escaped by
    [encodeURIComponent], is routed by [index.js] and Express to that
    route of the task router, with [req.params.id] the id itself, for
    every id that is a non-empty string. *)
Lemma route_url_roundtrip r :
  route_id_ok r = true -> route_of_request (method_of r) (url_of r) = RTasks r.
Proof.
  destruct r as [| |id|id]; [done|done| |]; cbn [route_id_ok]; rewrite andb_true_iff, negb_true_iff;
    intros [Hne Hv]; apply String.eqb_neq in Hne;
    unfold route_of_request, url_of; rewrite url_path_tasks, url_path_encode;
    destruct (mount_tasks (encode_uri_component id)) as [-> ->];
    rewrite task_path_encoded by done; cbn iota beta;
    by rewrite decode_uri_component_encode.
Qed.
