(* ===== verification/TaskBackend.v ===== *)
(** * The interface between the task view and the store provider

    [FirestoreContext.js] exposes, through a React context, the value
    [{ tasks, firestoreError, addTask, updateTask, deleteTask }].  The
    view-model ([TaskManager]) is written against that value only; the
    class [TaskBackend] states it, and the Firestore provider is one
    instance ([Firestore]).  The three operations are [async]: each either
    resolves or rejects with an error whose [message] the view shows. *)
From S2P Require Import Prelude.

(** A Firestore [Timestamp]; [toDate()] keeps milliseconds. *)
Record Timestamp : Type := mkTimestamp {
  seconds : Z;
  nanoseconds : Z
}.

Definition toDate (t : Timestamp) : Z := (seconds t * 1000 + nanoseconds t / 1000000)%Z.

(** A task as delivered to the view: the document id and its data.
    [createdAt] is [null] while the server timestamp of a local write is
    pending. *)
Record TaskDoc : Type := mkTaskDoc {
  id : string;
  title : string;
  completed : bool;
  createdAt : option Timestamp;
  userId : string
}.

(** The [updates] object passed to [updateTask]: the view sends either
    [{ completed }] or [{ title }]. *)
Record Updates : Type := mkUpdates {
  upd_title : option string;
  upd_completed : option bool
}.

Class TaskBackend (S : Type) : Type := {
  tasks : S -> list TaskDoc;
  firestoreError : S -> option string;
  addTask : string -> S -> outcome unit * S;
  updateTask : string -> Updates -> S -> outcome unit * S;
  deleteTask : string -> S -> outcome unit * S
}.
