(* ===== verification/TaskManager.v ===== *)
(** * The task view-model ([TaskManager] in [src/client/src/App.jsx])

    The component's [useState] hooks form a record; every handler is a
    function of that record and of the provider's state, calling the
    provider through the [TaskBackend] interface.  An [await] is modelled
    as completing before the next user event, so each handler runs to its
    end atomically.  The derived list ([filteredTasks], [sortedTasks]) is
    a pure function of the delivered [tasks], the filter and the sort
    order; [localeCompare] is the browser's collation
    ([LocaleCollation]). *)
From S2P Require Import Prelude JsRuntime TaskBackend.

(** ** State *)

(** [filter] is set only by the three buttons ('all', 'active',
    'completed'), [sort] only by the three options of the select. *)
Inductive Filter : Type := FilterAll | FilterActive | FilterCompleted.
Inductive SortOrder : Type := SortNewest | SortOldest | SortAlphabetical.

(** [modalType]: '' initially and after [closeModal], else 'info' or
    'error'. *)
Inductive ModalType : Type := ModalNone | ModalInfo | ModalError.

#[export] Instance Filter_eq_dec : EqDecision Filter.
Proof. solve_decision. Defined.
#[export] Instance SortOrder_eq_dec : EqDecision SortOrder.
Proof. solve_decision. Defined.
#[export] Instance ModalType_eq_dec : EqDecision ModalType.
Proof. solve_decision. Defined.

Record TaskManagerState : Type := mkTaskManagerState {
  newTaskTitle : string;
  filter : Filter;
  sort : SortOrder;
  editingTaskId : option string;
  editingTaskTitle : string;
  showModal : bool;
  modalMessage : string;
  modalType : ModalType
}.

Definition initialState : TaskManagerState :=
  mkTaskManagerState "" FilterAll SortNewest None "" false "" ModalNone.

(** ** The derived list *)

Definition passes (f : Filter) (task : TaskDoc) : bool :=
  match f with
  | FilterCompleted => completed task
  | FilterActive => negb (completed task)
  | FilterAll => true
  end.

Definition filteredTasks (ts : list TaskDoc) (f : Filter) : list TaskDoc :=
  List.filter (passes f) ts.

(** [a?.toDate() - b?.toDate()]: [undefined] makes the difference NaN,
    which [SortCompare] turns into [+0]. *)
Definition date_minus (a b : option Timestamp) : Z :=
  match a, b with
  | Some x, Some y => (toDate x - toDate y)%Z
  | _, _ => 0%Z
  end.

Definition sort_compare `{LocaleCollation} (s : SortOrder) (a b : TaskDoc) : Z :=
  match s with
  | SortNewest => date_minus (createdAt b) (createdAt a)
  | SortOldest => date_minus (createdAt a) (createdAt b)
  | SortAlphabetical => localeCompare (title a) (title b)
  end.

Definition sortedTasks `{LocaleCollation} (ts : list TaskDoc) (f : Filter) (s : SortOrder)
  : list TaskDoc :=
  js_sort (sort_compare s) (filteredTasks ts f).

(** ** Handlers *)

Definition showInfoModal (message : string) (st : TaskManagerState) : TaskManagerState :=
  mkTaskManagerState (newTaskTitle st) (filter st) (sort st) (editingTaskId st)
    (editingTaskTitle st) true message ModalInfo.

Definition showErrorModal (message : string) (st : TaskManagerState) : TaskManagerState :=
  mkTaskManagerState (newTaskTitle st) (filter st) (sort st) (editingTaskId st)
    (editingTaskTitle st) true message ModalError.

Definition closeModal (st : TaskManagerState) : TaskManagerState :=
  mkTaskManagerState (newTaskTitle st) (filter st) (sort st) (editingTaskId st)
    (editingTaskTitle st) false "" ModalNone.

Definition setNewTaskTitle (v : string) (st : TaskManagerState) : TaskManagerState :=
  mkTaskManagerState v (filter st) (sort st) (editingTaskId st)
    (editingTaskTitle st) (showModal st) (modalMessage st) (modalType st).

Definition setFilter (f : Filter) (st : TaskManagerState) : TaskManagerState :=
  mkTaskManagerState (newTaskTitle st) f (sort st) (editingTaskId st)
    (editingTaskTitle st) (showModal st) (modalMessage st) (modalType st).

Definition setSort (s : SortOrder) (st : TaskManagerState) : TaskManagerState :=
  mkTaskManagerState (newTaskTitle st) (filter st) s (editingTaskId st)
    (editingTaskTitle st) (showModal st) (modalMessage st) (modalType st).

Definition setEditing (i : option string) (v : string) (st : TaskManagerState)
  : TaskManagerState :=
  mkTaskManagerState (newTaskTitle st) (filter st) (sort st) i v
    (showModal st) (modalMessage st) (modalType st).

Section Handlers.
Context {S : Type} `{TaskBackend S}.

Definition handleAddTask (st : TaskManagerState) (s : S) : TaskManagerState * S :=
  if String.eqb (js_trim (newTaskTitle st)) "" then
    (showInfoModal "Task title cannot be empty." st, s)
  else
    match addTask (newTaskTitle st) s with
    | (Returns _, s') => (showInfoModal "Task added successfully!" (setNewTaskTitle "" st), s')
    | (Throws m, s') => (showErrorModal ("Failed to add task: " +:+ m) st, s')
    end.

Definition handleToggleComplete (task : TaskDoc) (st : TaskManagerState) (s : S)
  : TaskManagerState * S :=
  match updateTask (id task) (mkUpdates None (Some (negb (completed task)))) s with
  | (Returns _, s') => (st, s')
  | (Throws m, s') => (showErrorModal ("Failed to update task status: " +:+ m) st, s')
  end.

Definition handleDeleteTask (i : string) (st : TaskManagerState) (s : S)
  : TaskManagerState * S :=
  match deleteTask i s with
  | (Returns _, s') => (showInfoModal "Task deleted successfully!" st, s')
  | (Throws m, s') => (showErrorModal ("Failed to delete task: " +:+ m) st, s')
  end.

Definition handleEditClick (task : TaskDoc) (st : TaskManagerState) : TaskManagerState :=
  setEditing (Some (id task)) (title task) st.

Definition handleSaveEdit (i : string) (st : TaskManagerState) (s : S)
  : TaskManagerState * S :=
  if String.eqb (js_trim (editingTaskTitle st)) "" then
    (showInfoModal "Task title cannot be empty." st, s)
  else
    match updateTask i (mkUpdates (Some (editingTaskTitle st)) None) s with
    | (Returns _, s') => (showInfoModal "Task updated successfully!" (setEditing None "" st), s')
    | (Throws m, s') => (showErrorModal ("Failed to update task: " +:+ m) st, s')
    end.

Definition handleCancelEdit (st : TaskManagerState) : TaskManagerState :=
  setEditing None "" st.

(** The events the rendered component reacts to. *)
Inductive UiEvent : Type :=
| TypeNewTitle (v : string)         (** the add input's [onChange] *)
| SubmitAdd                         (** the add form's [onSubmit] *)
| ClickFilter (f : Filter)          (** All / Active / Completed *)
| SelectSort (o : SortOrder)        (** the sort select's [onChange] *)
| ClickToggle (task : TaskDoc)      (** Complete / Undo *)
| ClickEdit (task : TaskDoc)        (** Edit *)
| TypeEditTitle (v : string)        (** the edit input's [onChange] *)
| ClickSave (i : string)            (** Save *)
| ClickCancel                       (** Cancel *)
| ClickDelete (i : string)          (** Delete *)
| CloseModal.                       (** the modal's OK *)

Definition dispatch (e : UiEvent) (st : TaskManagerState) (s : S) : TaskManagerState * S :=
  match e with
  | TypeNewTitle v => (setNewTaskTitle v st, s)
  | SubmitAdd => handleAddTask st s
  | ClickFilter f => (setFilter f st, s)
  | SelectSort o => (setSort o st, s)
  | ClickToggle task => handleToggleComplete task st s
  | ClickEdit task => (handleEditClick task st, s)
  | TypeEditTitle v => (setEditing (editingTaskId st) v st, s)
  | ClickSave i => handleSaveEdit i st s
  | ClickCancel => (handleCancelEdit st, s)
  | ClickDelete i => handleDeleteTask i st s
  | CloseModal => (closeModal st, s)
  end.

(** A sequence of user events. *)
Fixpoint dispatch_all (es : list UiEvent) (st : TaskManagerState) (s : S)
  : TaskManagerState * S :=
  match es with
  | [] => (st, s)
  | e :: es' => let '(st', s') := dispatch e st s in dispatch_all es' st' s'
  end.

End Handlers.

(** The store call an event makes, if any. *)
Definition backend_call {S} `{TaskBackend S} (e : UiEvent) (st : TaskManagerState) (s : S)
  : option (outcome unit * S) :=
  match e with
  | SubmitAdd =>
      if String.eqb (js_trim (newTaskTitle st)) "" then None
      else Some (addTask (newTaskTitle st) s)
  | ClickToggle task => Some (updateTask (id task) (mkUpdates None (Some (negb (completed task)))) s)
  | ClickSave i =>
      if String.eqb (js_trim (editingTaskTitle st)) "" then None
      else Some (updateTask i (mkUpdates (Some (editingTaskTitle st)) None) s)
  | ClickDelete i => Some (deleteTask i s)
  | _ => None
  end.

(** The time of creation of a delivered task, when known. *)
Definition created_ms (t : TaskDoc) : Z :=
  match createdAt t with Some x => toDate x | None => 0%Z end.

(** ** Lemmas on the derived list *)

Lemma sort_compare_consistent `{LocaleCollation} o :
  consistent_on (sort_compare o) (fun t => o = SortAlphabetical \/ is_Some (createdAt t)).
Proof.
  destruct o; [split..|].
  1,3: intros x y [|[a Ha]] [|[b Hb]]; try done; cbn [sort_compare date_minus];
    rewrite Ha, Hb; unfold date_minus; rewrite <- Z.sgn_opp; f_equal; lia.
  1,2: intros x y z [|[a Ha]] [|[b Hb]] [|[c Hc]]; try done; cbn [sort_compare date_minus];
    rewrite Ha, Hb, Hc; unfold date_minus; lia.
  - apply consistent_comparator_on, localeCompare_consistent.
Qed.

Lemma in_filteredTasks ts f t : In t (filteredTasks ts f) <-> In t ts /\ passes f t = true.
Proof. apply filter_In. Qed.

(** The list shown is a rearrangement of the delivered tasks that
    pass the filter: all of them for 'all', exactly the incomplete ones
    for 'active' and the completed ones for 'completed', each as often as
    delivered. *)
Lemma sortedTasks_shows_filtered `{LocaleCollation} ts f o :
  Permutation (sortedTasks ts f o) (filteredTasks ts f) /\
  forall t, In t (sortedTasks ts f o) <->
    In t ts /\ match f with
               | FilterAll => True
               | FilterActive => completed t = false
               | FilterCompleted => completed t = true
               end.
Proof.
  split; [apply js_sort_perm|]. intros t.
  assert (Hin : In t (sortedTasks ts f o) <-> In t (filteredTasks ts f)).
  { split; apply Permutation_in; [|symmetry]; apply js_sort_perm. }
  rewrite Hin, in_filteredTasks.
  destruct f; cbn [passes]; [|by rewrite negb_true_iff|done].
  split; intros [? ?]; by split.
Qed.

(** The shown list is sorted by the chosen order when the timestamps it
    needs are known. *)
Lemma sortedTasks_sorted `{LocaleCollation} ts f o :
  (o <> SortAlphabetical -> Forall (fun t => is_Some (createdAt t)) ts) ->
  StronglySorted (fun a b =>
    match o with
    | SortNewest => (created_ms b <= created_ms a)%Z
    | SortOldest => (created_ms a <= created_ms b)%Z
    | SortAlphabetical => locale_cmp (title a) (title b) <> Gt
    end) (sortedTasks ts f o).
Proof.
  intros Hts.
  assert (HP : Forall (fun t => o = SortAlphabetical \/ is_Some (createdAt t))
                 (filteredTasks ts f)).
  { apply List.Forall_forall. intros t Ht. apply in_filteredTasks in Ht as [Ht _].
    destruct (decide (o = SortAlphabetical)) as [|Hne]; [by left|right].
    specialize (Hts Hne). rewrite List.Forall_forall in Hts. by apply Hts. }
  pose proof (js_sort_sorted _ _ (sort_compare_consistent o) _ HP) as Hs.
  eapply StronglySorted_weaken_on; [|eapply Permutation_Forall; [|exact HP]|exact Hs].
  2: symmetry; apply js_sort_perm.
  intros a b Ha Hb. unfold cmp_le.
  destruct o; cbn [sort_compare]; unfold date_minus, created_ms.
  - destruct Ha as [|[x ->]], Hb as [|[y ->]]; [done..|lia].
  - destruct Ha as [|[x ->]], Hb as [|[y ->]]; [done..|lia].
  - unfold localeCompare. by rewrite comparison_to_Z_le.
Qed.

(** C29: when every shown task carries its server timestamp, 'newest'
    orders them by creation time descending and 'oldest' ascending;
    'alphabetical' orders by the collation of the titles. *)
Theorem sortedTasks_ordered `{LocaleCollation} ts f o :
  (o <> SortAlphabetical -> Forall (fun t => is_Some (createdAt t)) ts) ->
  StronglySorted (fun a b =>
    match o with
    | SortNewest => (created_ms b <= created_ms a)%Z
    | SortOldest => (created_ms a <= created_ms b)%Z
    | SortAlphabetical => locale_cmp (title a) (title b) <> Gt
    end) (sortedTasks ts f o).
Proof. apply sortedTasks_sorted. Qed.

(** C30: with every timestamp known and no two tasks created in the same
    millisecond, 'oldest' shows exactly the reverse of 'newest'.  (With
    equal times both orders keep the delivery order of the tied tasks, so
    the distinctness cannot be dropped.) *)
Theorem oldest_is_reverse_newest `{LocaleCollation} ts f :
  Forall (fun t => is_Some (createdAt t)) ts -> NoDup (map created_ms ts) ->
  sortedTasks ts f SortOldest = rev (sortedTasks ts f SortNewest).
Proof.
  intros Hts Hnd.
  pose proof (sortedTasks_sorted ts f SortOldest (fun _ => Hts)) as Ho.
  pose proof (sortedTasks_sorted ts f SortNewest (fun _ => Hts)) as Hn.
  assert (Hp : forall o, Permutation (sortedTasks ts f o) (filteredTasks ts f))
    by (intros o; apply js_sort_perm).
  apply (sorted_by_key_unique created_ms).
  - rewrite (Permutation_map created_ms (Hp SortOldest)). by apply NoDup_map_filter.
  - rewrite <- Permutation_rev. by rewrite !Hp.
  - exact Ho.
  - exact (StronglySorted_rev _ _ Hn).
Qed.

(** The sort is stable: tasks that compare equal under the chosen
    order (the same title for 'alphabetical', the same millisecond for
    'newest' and 'oldest') appear in the order the provider delivered
    them. *)
Lemma sortedTasks_stable `{LocaleCollation} ts f o x :
  (o <> SortAlphabetical -> is_Some (createdAt x) /\ Forall (fun t => is_Some (createdAt t)) ts) ->
  List.filter (fun y => sort_compare o x y =? 0)%Z (sortedTasks ts f o) =
  List.filter (fun y => sort_compare o x y =? 0)%Z (filteredTasks ts f).
Proof.
  intros Hts. unfold sortedTasks.
  apply (js_sort_stable _ _ (sort_compare_consistent o)).
  - destruct (decide (o = SortAlphabetical)); [by left|right; by apply Hts].
  - apply List.Forall_forall. intros t Ht. apply in_filteredTasks in Ht as [Ht _].
    destruct (decide (o = SortAlphabetical)) as [|Hne]; [by left|right].
    destruct (Hts Hne) as [_ Hall]. rewrite List.Forall_forall in Hall. by apply Hall.
Qed.

(** C31: once a task whose server timestamp is still pending
    ([createdAt] is [null]) can be delivered, the comparator of 'newest'
    is not consistent: it calls the pending task equal to every other
    task while still ordering those, so the order [sort] produces is
    implementation-defined. *)
Theorem newest_comparator_inconsistent `{LocaleCollation} :
  ~ consistent_comparator (sort_compare SortNewest).
Proof.
  intros [_ Htr].
  specialize (Htr (mkTaskDoc "a" "a" false (Some (mkTimestamp 1 0)) "u")
                  (mkTaskDoc "p" "p" false None "u")
                  (mkTaskDoc "b" "b" false (Some (mkTimestamp 2 0)) "u")).
  vm_compute in Htr. apply Htr; [discriminate|discriminate|reflexivity].
Qed.

(** ** The handlers against any provider *)

Section HandlerFacts.
Context {S : Type} `{TaskBackend S}.

Lemma blank_iff_all_space v : String.eqb (js_trim v) "" = all_space v.
Proof.
  destruct (String.eqb_spec (js_trim v) "") as [Hb|Hb];
    destruct (all_space v) eqn:Ha; try done.
  - apply js_trim_empty_iff in Hb. congruence.
  - apply js_trim_empty_iff in Ha. congruence.
Qed.

(** The view changes the provider's state only through the store call
    of the event: typing, choosing a filter or a sort order, starting or
    cancelling an edit, closing the modal, and adding or saving a blank
    title leave the provider's state as it was. *)
Lemma dispatch_no_call_keeps_store e st s :
  backend_call e st s = None -> snd (dispatch e st s) = s.
Proof.
  destruct e; cbn [backend_call dispatch snd]; try done.
  - unfold handleAddTask. by destruct (String.eqb (js_trim (newTaskTitle st)) "").
  - unfold handleSaveEdit. by destruct (String.eqb (js_trim (editingTaskTitle st)) "").
Qed.

(** A store call that rejects is never swallowed: the view shows an
    error modal whose message ends with the error's message, keeps the
    draft title and the editing state, and keeps the provider's state the
    call left. *)
Lemma dispatch_failure_reported e st s m s1 :
  backend_call e st s = Some (Throws m, s1) ->
  let (st', s') := dispatch e st s in
  s' = s1 /\ showModal st' = true /\ modalType st' = ModalError /\
  (exists prefix, modalMessage st' = prefix +:+ m) /\
  newTaskTitle st' = newTaskTitle st /\ editingTaskId st' = editingTaskId st.
Proof.
  destruct e; cbn [backend_call dispatch]; try discriminate.
  - unfold handleAddTask. destruct (String.eqb _ _); [discriminate|].
    intros [= ->]. repeat split; by eexists.
  - unfold handleToggleComplete. intros [= ->]. repeat split; by eexists.
  - unfold handleSaveEdit. destruct (String.eqb _ _); [discriminate|].
    intros [= ->]. repeat split; by eexists.
  - unfold handleDeleteTask. intros [= ->]. repeat split; by eexists.
Qed.

(** A title made only of white space is refused before the store is
    called, for a new task and for an edit: an information modal says so,
    and the draft and the provider's state are kept. *)
Lemma blank_title_refused_locally st s i :
  (all_space (newTaskTitle st) = true ->
   dispatch SubmitAdd st s = (showInfoModal "Task title cannot be empty." st, s)) /\
  (all_space (editingTaskTitle st) = true ->
   dispatch (ClickSave i) st s = (showInfoModal "Task title cannot be empty." st, s)).
Proof.
  split; intros Hb; cbn [dispatch]; [unfold handleAddTask|unfold handleSaveEdit];
    by rewrite blank_iff_all_space, Hb.
Qed.

(** A store call that resolves is acknowledged: adding clears the
    draft and informs, saving leaves edit mode and informs, deleting
    informs, toggling changes nothing in the view. *)
Lemma dispatch_success_effects e st s v s1 :
  backend_call e st s = Some (Returns v, s1) ->
  let (st', s') := dispatch e st s in
  s' = s1 /\
  match e with
  | SubmitAdd => newTaskTitle st' = "" /\ showModal st' = true /\ modalType st' = ModalInfo
  | ClickSave _ => editingTaskId st' = None /\ editingTaskTitle st' = "" /\
                   showModal st' = true /\ modalType st' = ModalInfo
  | ClickDelete _ => showModal st' = true /\ modalType st' = ModalInfo
  | _ => st' = st
  end.
Proof.
  destruct e; cbn [backend_call dispatch]; try discriminate.
  - unfold handleAddTask. destruct (String.eqb _ _); [discriminate|]. by intros [= ->].
  - unfold handleToggleComplete. by intros [= ->].
  - unfold handleSaveEdit. destruct (String.eqb _ _); [discriminate|]. by intros [= ->].
  - unfold handleDeleteTask. by intros [= ->].
Qed.

End HandlerFacts.

(** ** The view over an in-memory provider *)

Module ViewDemo.

(** A provider that keeps the tasks in a list: adding appends a pending
    task, updating a missing task rejects, deleting filters. *)
Definition mem_update (i : string) (u : Updates) (s : list TaskDoc) : outcome unit * list TaskDoc :=
  if existsb (fun t => String.eqb (id t) i) s then
    (Returns tt, map (fun t => if String.eqb (id t) i
                               then mkTaskDoc (id t) (default (title t) (upd_title u))
                                      (default (completed t) (upd_completed u)) (createdAt t) (userId t)
                               else t) s)
  else (Throws ("No document to update: " +:+ i), s).

#[export] Instance mem_backend : TaskBackend (list TaskDoc) := {|
  tasks := fun s => s;
  firestoreError := fun _ => None;
  addTask := fun t s => (Returns tt, s ++ [mkTaskDoc "new" t false None "u"]);
  updateTask := mem_update;
  deleteTask := fun i s => (Returns tt, List.filter (fun t => negb (String.eqb (id t) i)) s)
|}.

Definition walk : TaskDoc := mkTaskDoc "a" "Walk" false (Some (mkTimestamp 10 0)) "u".
Definition buy : TaskDoc := mkTaskDoc "b" "buy" true (Some (mkTimestamp 20 0)) "u".
Definition call : TaskDoc := mkTaskDoc "c" "Call" false (Some (mkTimestamp 10 0)) "u".
Definition ts0 : list TaskDoc := [walk; buy; call].
Definition ghost : TaskDoc := mkTaskDoc "z" "Ghost" false None "u".

End ViewDemo.
Import ViewDemo.

Lemma sortedTasks_ordered_witness :
  StronglySorted (fun a b => (created_ms b <= created_ms a)%Z) (sortedTasks ts0 FilterAll SortNewest).
Proof.
  apply (sortedTasks_ordered ts0 FilterAll SortNewest). intros _.
  repeat constructor; eexists; reflexivity.
Defined.

Lemma oldest_is_reverse_newest_witness :
  sortedTasks [walk; buy] FilterAll SortOldest = rev (sortedTasks [walk; buy] FilterAll SortNewest).
Proof.
  apply oldest_is_reverse_newest.
  - repeat constructor; eexists; reflexivity.
  - apply (bool_decide_unpack (NoDup (map created_ms [walk; buy]))). vm_compute. exact I.
Defined.

