(* ===== verification/Auth.v ===== *)
(** * Authentication ([src/client/src/context/AuthContext.js])

    The [AuthProvider] keeps [currentUser], [loadingAuth] and [authError]
    and registers one [onAuthStateChanged] observer.  Firebase Auth (a
    library, modelled from its documented behaviour) keeps the signed-in
    user and the accounts, and queues an observer call each time the
    signed-in user changes, and once when the observer is registered.

    The world of this component is the provider's state, Firebase's state
    and the queue of observer calls not yet delivered.  [auth_step]
    relates a world to the next one: an observer call is delivered, or
    the user registers, logs in or logs out; [auth_reachable] is its
    reflexive-transitive closure from the initial world.  [flush_observer]
    delivers the pending observer calls with fuel, and the calls drain. *)
From S2P Require Import Prelude.

(** ** Firebase Auth (library) *)

Record User : Type := mkUser {
  uid : string;
  email : option string;
  isAnonymous : bool
}.

#[export] Instance User_eq_dec : EqDecision User.
Proof. solve_decision. Defined.

Record Account : Type := mkAccount {
  acc_password : string;
  acc_uid : string
}.

Record FirebaseAuth : Type := mkFirebaseAuth {
  fb_user : option User;                (** [auth.currentUser] *)
  accounts : gmap string Account;       (** by e-mail *)
  next_uid : N;
  anonymous_enabled : bool;             (** the project allows anonymous sign-in *)
  initial_auth_token : option string    (** [__initial_auth_token], if injected *)
}.

Definition fresh_uid (fb : FirebaseAuth) : string := "uid" +:+ pretty (next_uid fb).

Definition with_user (u : option User) (fb : FirebaseAuth) : FirebaseAuth :=
  mkFirebaseAuth u (accounts fb) (next_uid fb) (anonymous_enabled fb) (initial_auth_token fb).

Definition createUserWithEmailAndPassword (e pw : string) (fb : FirebaseAuth)
  : outcome FirebaseAuth :=
  match accounts fb !! e with
  | Some _ => Throws "Firebase: Error (auth/email-already-in-use)."
  | None =>
      if String.length pw <? 6 then
        Throws "Firebase: Password should be at least 6 characters (auth/weak-password)."
      else
        let u := mkUser (fresh_uid fb) (Some e) false in
        Returns (mkFirebaseAuth (Some u) (<[e := mkAccount pw (fresh_uid fb)]> (accounts fb))
                   (N.succ (next_uid fb)) (anonymous_enabled fb) (initial_auth_token fb))
  end.

Definition signInWithEmailAndPassword (e pw : string) (fb : FirebaseAuth)
  : outcome FirebaseAuth :=
  match accounts fb !! e with
  | Some a =>
      if String.eqb (acc_password a) pw
      then Returns (with_user (Some (mkUser (acc_uid a) (Some e) false)) fb)
      else Throws "Firebase: Error (auth/invalid-credential)."
  | None => Throws "Firebase: Error (auth/invalid-credential)."
  end.

Definition signInAnonymously (fb : FirebaseAuth) : outcome FirebaseAuth :=
  if anonymous_enabled fb then
    Returns (mkFirebaseAuth (Some (mkUser (fresh_uid fb) None true)) (accounts fb)
               (N.succ (next_uid fb)) true (initial_auth_token fb))
  else Throws "Firebase: Error (auth/admin-restricted-operation).".

(** A custom token names the uid it signs in. *)
Definition signInWithCustomToken (tok : string) (fb : FirebaseAuth) : outcome FirebaseAuth :=
  Returns (with_user (Some (mkUser tok None false)) fb).

Definition signOut (fb : FirebaseAuth) : outcome FirebaseAuth := Returns (with_user None fb).

(** ** The provider *)

Record AuthProvider : Type := mkAuthProvider {
  currentUser : option User;
  loadingAuth : bool;
  authError : option string
}.

Record AuthWorld : Type := mkAuthWorld {
  provider : AuthProvider;
  firebase : FirebaseAuth;
  observer_queue : list (option User)   (** observer calls not yet delivered *)
}.

(** A change of Firebase's state: the observer will be called with the
    new user when the user changed. *)
Definition fb_commit (fb' : FirebaseAuth) (w : AuthWorld) : AuthWorld :=
  mkAuthWorld (provider w) fb'
    (if decide (fb_user fb' = fb_user (firebase w)) then observer_queue w
     else observer_queue w ++ [fb_user fb']).

Definition set_provider (p : AuthProvider) (w : AuthWorld) : AuthWorld :=
  mkAuthWorld p (firebase w) (observer_queue w).

Definition setAuthError (e : option string) (w : AuthWorld) : AuthWorld :=
  set_provider (mkAuthProvider (currentUser (provider w)) (loadingAuth (provider w)) e) w.

Definition setCurrentUser (u : option User) (w : AuthWorld) : AuthWorld :=
  set_provider (mkAuthProvider u (loadingAuth (provider w)) (authError (provider w))) w.

Definition setLoadingAuth (b : bool) (w : AuthWorld) : AuthWorld :=
  set_provider (mkAuthProvider (currentUser (provider w)) b (authError (provider w))) w.

(** The observer: a user is stored; no user triggers a sign-in with the
    injected token, or else anonymously, whose failure is recorded in
    [authError]; in every case [loadingAuth] becomes [false].  When no
    user is signed in, [currentUser] is left as it was. *)
Definition onAuthStateChangedCallback (u : option User) (w : AuthWorld) : AuthWorld :=
  setLoadingAuth false
    match u with
    | Some user => setCurrentUser (Some user) w
    | None =>
        let attempt := match initial_auth_token (firebase w) with
                       | Some tok => if String.eqb tok "" then signInAnonymously (firebase w)
                                     else signInWithCustomToken tok (firebase w)
                       | None => signInAnonymously (firebase w)
                       end in
        match attempt with
        | Returns fb' => fb_commit fb' w
        | Throws m => setAuthError (Some m) w
        end
    end.

(** [register], [login] and [logout]: clear [authError], call Firebase,
    record and rethrow a failure. *)
Definition auth_call (call : FirebaseAuth -> outcome FirebaseAuth) (w : AuthWorld)
  : outcome unit * AuthWorld :=
  let w := setAuthError None w in
  match call (firebase w) with
  | Returns fb' => (Returns tt, fb_commit fb' w)
  | Throws m => (Throws m, setAuthError (Some m) w)
  end.

Definition register (e pw : string) (w : AuthWorld) : outcome unit * AuthWorld :=
  auth_call (createUserWithEmailAndPassword e pw) w.

Definition login (e pw : string) (w : AuthWorld) : outcome unit * AuthWorld :=
  auth_call (signInWithEmailAndPassword e pw) w.

Definition logout (w : AuthWorld) : outcome unit * AuthWorld :=
  auth_call signOut w.

(** The provider mounts with no user, loading; registering the observer
    queues one call with Firebase's current user. *)
Definition auth_init (fb : FirebaseAuth) : AuthWorld :=
  mkAuthWorld (mkAuthProvider None true None) fb [fb_user fb].

(** ** Steps *)

Inductive auth_step : AuthWorld -> AuthWorld -> Prop :=
| step_observer w u rest :
    observer_queue w = u :: rest ->
    auth_step w (onAuthStateChangedCallback u (mkAuthWorld (provider w) (firebase w) rest))
| step_register w e pw :
    auth_step w (snd (register e pw w))
| step_login w e pw :
    auth_step w (snd (login e pw w))
| step_logout w :
    auth_step w (snd (logout w)).

Inductive auth_reachable (fb0 : FirebaseAuth) : AuthWorld -> Prop :=
| reach_init : auth_reachable fb0 (auth_init fb0)
| reach_step w w' : auth_reachable fb0 w -> auth_step w w' -> auth_reachable fb0 w'.

(** ** Delivering the pending observer calls

    Firebase calls the observer once per queued change.  [observer_step]
    delivers the first pending call; [flush_observer] delivers calls until
    none is pending or the fuel runs out.  A call without a user may queue
    one more call (the user its sign-in produced), a call with a user
    queues none: [queue_weight] counts 2 for the former and 1 for the
    latter, and is enough fuel. *)
Definition observer_step (w : AuthWorld) : option AuthWorld :=
  match observer_queue w with
  | u :: rest => Some (onAuthStateChangedCallback u (mkAuthWorld (provider w) (firebase w) rest))
  | [] => None
  end.

Fixpoint flush_observer (fuel : nat) (w : AuthWorld) : AuthWorld :=
  match fuel with
  | O => w
  | S n => match observer_step w with Some w' => flush_observer n w' | None => w end
  end.

Definition observer_weight (u : option User) : nat := match u with Some _ => 1 | None => 2 end.

Definition queue_weight (w : AuthWorld) : nat := sum_list_with observer_weight (observer_queue w).

(** A signed-in user has a non-empty [uid] (what [currentUser.uid] tests). *)
Definition user_ok (u : option User) : Prop :=
  match u with Some u => uid u <> "" | None => True end.

(** Firebase's accounts and user have non-empty uids. *)
Definition fb_ok (fb : FirebaseAuth) : Prop :=
  (forall e a, accounts fb !! e = Some a -> acc_uid a <> "") /\ user_ok (fb_user fb).

(** Every user the world holds, delivers or may sign in has a non-empty
    uid. *)
Definition auth_uids_ok (w : AuthWorld) : Prop :=
  fb_ok (firebase w) /\ Forall user_ok (observer_queue w) /\ user_ok (currentUser (provider w)).

#[export] Instance user_ok_dec u : Decision (user_ok u).
Proof. destruct u; cbn; apply _. Defined.

#[export] Instance fb_ok_dec fb : Decision (fb_ok fb).
Proof.
  unfold fb_ok.
  destruct (decide (map_Forall (fun _ a => acc_uid a <> "") (accounts fb))) as [Ha|Ha].
  - destruct (decide (user_ok (fb_user fb))) as [Hu|Hu]; [left|right].
    + split; [|done]. intros e a. by apply (map_Forall_lookup_1 _ _ _ _ Ha).
    + by intros [_ ?].
  - right. intros [Ha' _]. apply Ha, map_Forall_lookup. intros e a. apply Ha'.
Defined.

#[export] Instance auth_uids_ok_dec w : Decision (auth_uids_ok w).
Proof. unfold auth_uids_ok. apply _. Defined.

(** ** Lemmas *)

Lemma fb_commit_provider fb' w : provider (fb_commit fb' w) = provider w.
Proof. done. Qed.

Lemma auth_call_current_user call w :
  currentUser (provider (snd (auth_call call w))) = currentUser (provider w).
Proof. unfold auth_call. by destruct (call _). Qed.

Lemma callback_current_user u w :
  currentUser (provider (onAuthStateChangedCallback u w)) =
  match u with Some user => Some user | None => currentUser (provider w) end.
Proof.
  unfold onAuthStateChangedCallback. destruct u as [user|]; [done|].
  by repeat case_match.
Qed.

#[export] Hint Rewrite fb_commit_provider auth_call_current_user callback_current_user : task_rw.

(** [currentUser] is never cleared: once the provider holds a user, every
    later step (an observer call, registering, logging in, logging out)
    leaves it holding one.  An observer call without user starts a
    sign-in but does not reset [currentUser]. *)
Theorem current_user_never_cleared w w' :
  auth_step w w' -> is_Some (currentUser (provider w)) -> is_Some (currentUser (provider w')).
Proof.
  intros Hs Hu. destruct Hs as [w u rest Hq|w e pw|w e pw|w];
    unfold register, login, logout; autorewrite with task_rw; [|done..].
  destruct u; [by eexists|done].
Qed.

(** [loadingAuth] only goes from [true] to [false]: once the first
    observer call is handled the provider never reports loading again. *)
Theorem loading_never_restarts w w' :
  auth_step w w' -> loadingAuth (provider w) = false -> loadingAuth (provider w') = false.
Proof.
  intros Hs Hl. destruct Hs as [w u rest Hq|w e pw|w e pw|w].
  - by unfold onAuthStateChangedCallback.
  - unfold register, auth_call. by destruct (createUserWithEmailAndPassword _ _ _).
  - unfold login, auth_call. by destruct (signInWithEmailAndPassword _ _ _).
  - done.
Qed.

(** C27: logging out does not log the provider out: right after [logout]
    Firebase has no user while [currentUser] is still the user who logged
    out, and when the anonymous sign-in that the observer then attempts
    fails, [currentUser] stays that user, with the failure in
    [authError]. *)
Theorem logout_keeps_current_user w u :
  currentUser (provider w) = Some u -> initial_auth_token (firebase w) = None ->
  anonymous_enabled (firebase w) = false ->
  let w1 := snd (logout w) in
  fb_user (firebase w1) = None /\ currentUser (provider w1) = Some u /\
  let w2 := onAuthStateChangedCallback None w1 in
  fb_user (firebase w2) = None /\ currentUser (provider w2) = Some u /\
  authError (provider w2) = Some "Firebase: Error (auth/admin-restricted-operation)." /\
  loadingAuth (provider w2) = false.
Proof.
  intros Hu Htok Han. cbn. rewrite Hu, Htok. unfold signInAnonymously. cbn. rewrite Han. cbn. rewrite Hu. by repeat split.
Qed.

(** ** Non-empty uids *)

Lemma fresh_uid_ok fb : fresh_uid fb <> "".
Proof. unfold fresh_uid. by destruct (pretty (next_uid fb)). Qed.

Lemma with_user_ok u fb : fb_ok fb -> user_ok u -> fb_ok (with_user u fb).
Proof. intros [Ha _] Hu. by split. Qed.

Lemma firebase_ops_ok fb :
  fb_ok fb ->
  (forall e pw fb', createUserWithEmailAndPassword e pw fb = Returns fb' -> fb_ok fb') /\
  (forall e pw fb', signInWithEmailAndPassword e pw fb = Returns fb' -> fb_ok fb') /\
  (forall fb', signInAnonymously fb = Returns fb' -> fb_ok fb') /\
  (forall tok fb', tok <> "" -> signInWithCustomToken tok fb = Returns fb' -> fb_ok fb') /\
  (forall fb', signOut fb = Returns fb' -> fb_ok fb').
Proof.
  intros Hfb. destruct Hfb as [Ha Hu]. split_and!.
  - intros e pw fb'. unfold createUserWithEmailAndPassword.
    destruct (accounts fb !! e); [done|]. case_match; [done|]. intros [= <-]. split.
    + intros e' a. cbn. destruct (decide (e = e')) as [->|Hne].
      * rewrite lookup_insert_eq. intros [= <-]. apply fresh_uid_ok.
      * rewrite lookup_insert_ne by done. apply Ha.
    + apply fresh_uid_ok.
  - intros e pw fb'. unfold signInWithEmailAndPassword.
    destruct (accounts fb !! e) as [a|] eqn:He; [|done]. case_match; [|done].
    intros [= <-]. apply with_user_ok; [done|]. by apply (Ha e).
  - intros fb'. unfold signInAnonymously. case_match; [|done]. intros [= <-].
    split; [done|apply fresh_uid_ok].
  - intros tok fb' Htok [= <-]. by apply with_user_ok.
  - intros fb' [= <-]. by apply with_user_ok.
Qed.

Lemma fb_commit_ok fb' w :
  auth_uids_ok w -> fb_ok fb' -> auth_uids_ok (fb_commit fb' w).
Proof.
  intros (Hfb & Hq & Hc) Hfb'. split_and!; [done| |done]. cbn. case_decide; [done|].
  apply Forall_app; split; [done|]. constructor; [apply Hfb'|done].
Qed.

Lemma auth_call_ok call w :
  auth_uids_ok w -> (forall fb', call (firebase w) = Returns fb' -> fb_ok fb') ->
  auth_uids_ok (snd (auth_call call w)).
Proof.
  intros Hw Hcall. unfold auth_call. cbn [firebase setAuthError set_provider].
  destruct (call (firebase w)) as [fb'|m] eqn:He; cbn [snd].
  - apply fb_commit_ok; [|by apply Hcall]. destruct Hw as (? & ? & ?). done.
  - destruct Hw as (? & ? & ?). done.
Qed.

(** Every step keeps all uids non-empty. *)
Lemma auth_step_uids_ok w w' : auth_step w w' -> auth_uids_ok w -> auth_uids_ok w'.
Proof.
  intros Hs Hw. pose proof (firebase_ops_ok _ (proj1 Hw)) as (Hc & Hl & Ha & Ht & Ho).
  destruct Hs as [w u rest Hq|w e pw|w e pw|w].
  - destruct Hw as (Hfb & Hqu & Hcu). rewrite Hq in Hqu. inversion Hqu as [|? ? Hu Hrest]; subst.
    unfold onAuthStateChangedCallback. destruct u as [user|]; [done|].
    repeat case_match; simplify_eq; cbn [firebase] in *; try done; apply fb_commit_ok; try done.
    all: first [by apply Ha | apply (Ht s); [by apply String.eqb_neq|done]].
  - apply auth_call_ok; [done|apply Hc].
  - apply auth_call_ok; [done|apply Hl].
  - apply auth_call_ok; [done|apply Ho].
Qed.

(** ** A signed-in world *)

Module AuthDemo.

Definition ada : User := mkUser "uid-ada" (Some "ada@example.com") false.

Definition fb_ada : FirebaseAuth :=
  mkFirebaseAuth (Some ada) {["ada@example.com" := mkAccount "secret1" "uid-ada"]} 0 false None.

Definition w_ada : AuthWorld := mkAuthWorld (mkAuthProvider (Some ada) false None) fb_ada [].

End AuthDemo.
Import AuthDemo.

Lemma logout_keeps_current_user_witness :
  let w1 := snd (logout w_ada) in
  fb_user (firebase w1) = None /\ currentUser (provider w1) = Some ada /\
  let w2 := onAuthStateChangedCallback None w1 in
  fb_user (firebase w2) = None /\ currentUser (provider w2) = Some ada /\
  authError (provider w2) = Some "Firebase: Error (auth/admin-restricted-operation)." /\
  loadingAuth (provider w2) = false.
Proof. apply logout_keeps_current_user; reflexivity. Defined.

(** ** The observer calls drain *)

(** The sign-ins the observer starts produce a user. *)
Lemma observer_sign_in_user fb fb' :
  match initial_auth_token fb with
  | Some tok => if String.eqb tok "" then signInAnonymously fb else signInWithCustomToken tok fb
  | None => signInAnonymously fb
  end = Returns fb' -> is_Some (fb_user fb').
Proof.
  unfold signInAnonymously, signInWithCustomToken.
  repeat case_match; intros; simplify_eq; cbn; by eexists.
Qed.

Lemma observer_step_weight w w' :
  observer_step w = Some w' -> queue_weight w' < queue_weight w.
Proof.
  unfold observer_step, queue_weight. destruct (observer_queue w) as [|u rest] eqn:Hq; [done|].
  intros [= <-]. unfold onAuthStateChangedCallback. cbn [sum_list_with observer_weight].
  destruct u as [user|]; cbn; [lia|].
  destruct (_ : outcome FirebaseAuth) as [fb'|m] eqn:Ha; cbn; [|lia].
  apply observer_sign_in_user in Ha as [v Hv]. unfold fb_commit. cbn. case_decide; cbn; [lia|].
  rewrite sum_list_with_app, Hv. cbn. lia.
Qed.

Lemma observer_step_loading w w' :
  observer_step w = Some w' -> loadingAuth (provider w') = false.
Proof.
  unfold observer_step. destruct (observer_queue w); [done|]. intros [= <-].
  by unfold onAuthStateChangedCallback.
Qed.

Lemma flush_observer_drains n w :
  queue_weight w <= n -> (observer_queue w <> [] \/ loadingAuth (provider w) = false) ->
  observer_queue (flush_observer n w) = [] /\ loadingAuth (provider (flush_observer n w)) = false.
Proof.
  revert w. induction n as [|n IH]; intros w Hw Hl; cbn [flush_observer].
  - destruct (observer_queue w) as [|u q] eqn:Hq; [by destruct Hl|].
    unfold queue_weight in Hw. rewrite Hq in Hw. destruct u; cbn in Hw; lia.
  - destruct (observer_step w) as [w'|] eqn:Hs.
    + apply IH; [apply observer_step_weight in Hs; lia|].
      right. by eapply observer_step_loading.
    + unfold observer_step in Hs. destruct (observer_queue w) eqn:Hq; [|done].
      by destruct Hl.
Qed.

Lemma queue_weight_le w : queue_weight w <= 2 * length (observer_queue w).
Proof.
  unfold queue_weight. induction (observer_queue w) as [|[u|] q IH]; cbn [sum_list_with observer_weight length]; lia.
Qed.

(** C13: the observer calls terminate: whatever the pending calls (or,
    with none pending, once loading has ended), delivering at most two
    calls per pending call leaves none pending and the provider no longer
    loading, although a call without a user queues a new one. *)
Theorem observer_calls_terminate w :
  observer_queue w <> [] \/ loadingAuth (provider w) = false ->
  let w' := flush_observer (2 * length (observer_queue w)) w in
  observer_queue w' = [] /\ loadingAuth (provider w') = false.
Proof. intros Hl. apply flush_observer_drains; [apply queue_weight_le|done]. Qed.

(** From page load, the anonymous sign-in and the call it queues. *)
Lemma observer_calls_terminate_witness :
  let w0 := auth_init (mkFirebaseAuth None ∅ 0 true None) in
  let w' := flush_observer (2 * length (observer_queue w0)) w0 in
  observer_queue w' = [] /\ loadingAuth (provider w') = false.
Proof. apply observer_calls_terminate. left. discriminate. Defined.
