(* ===== verification/Firestore.v ===== *)
(** * Push-mode synchronisation ([src/client/src/context/FirestoreContext.js])

    Cloud Firestore (a library, modelled from its documented behaviour)
    keeps collections of documents by path.  [addDoc] writes a document
    under a fresh id with the server timestamp still pending ([null] in
    snapshots) until the server commits it; [updateDoc] fails on a missing
    document; [deleteDoc] succeeds whether or not the document exists.
    [fs_failure] makes every write reject with its message (a denied
    permission or an unavailable backend).

    The [FirestoreProvider] holds [tasks] and [firestoreError], reads
    [currentUser] and [loadingAuth] from the auth context, and keeps at
    most one live [onSnapshot] listener, on the tasks collection of
    [currentUser?.uid || 'anonymous'].  Its operations implement the
    [TaskBackend] interface of the view. *)
From S2P Require Import Prelude JsRuntime TaskBackend Auth.

(** ** Cloud Firestore (library) *)

Record DocData : Type := mkDocData {
  d_title : string;
  d_completed : bool;
  d_createdAt : option Timestamp;   (** [None]: [serverTimestamp()] not yet committed *)
  d_userId : string
}.

Record FsDb : Type := mkFsDb {
  collections : gmap string (gmap string DocData);
  next_doc : N;
  fs_failure : option string
}.

(** The id [addDoc] generates. *)
Definition doc_name (n : N) : string := "doc" +:+ pretty n.

Definition collection_docs (p : string) (db : FsDb) : gmap string DocData :=
  default ∅ (collections db !! p).

Definition put_collection (p : string) (m : gmap string DocData) (db : FsDb) : FsDb :=
  mkFsDb (<[p := m]> (collections db)) (next_doc db) (fs_failure db).

Definition addDoc (p : string) (d : DocData) (db : FsDb) : outcome FsDb :=
  match fs_failure db with
  | Some m => Throws m
  | None =>
      Returns (mkFsDb (<[p := <[doc_name (next_doc db) := d]> (collection_docs p db)]>
                         (collections db))
                      (N.succ (next_doc db)) None)
  end.

Definition merge_updates (u : Updates) (d : DocData) : DocData :=
  mkDocData (default (d_title d) (upd_title u)) (default (d_completed d) (upd_completed u))
            (d_createdAt d) (d_userId d).

Definition updateDoc (p i : string) (u : Updates) (db : FsDb) : outcome FsDb :=
  match fs_failure db with
  | Some m => Throws m
  | None =>
      match collection_docs p db !! i with
      | Some d => Returns (put_collection p (<[i := merge_updates u d]> (collection_docs p db)) db)
      | None => Throws ("No document to update: " +:+ p +:+ "/" +:+ i)
      end
  end.

Definition deleteDoc (p i : string) (db : FsDb) : outcome FsDb :=
  match fs_failure db with
  | Some m => Throws m
  | None => Returns (put_collection p (delete i (collection_docs p db)) db)
  end.

(** The server commits the pending writes: pending timestamps become
    [now]. *)
Definition commit_doc (now : Timestamp) (d : DocData) : DocData :=
  match d_createdAt d with
  | Some _ => d
  | None => mkDocData (d_title d) (d_completed d) (Some now) (d_userId d)
  end.

Definition server_commit (now : Timestamp) (db : FsDb) : FsDb :=
  mkFsDb ((fun m : gmap string DocData => commit_doc now <$> m) <$> collections db)
    (next_doc db) (fs_failure db).

(** [query(collection, orderBy('createdAt', 'desc'))]: pending writes
    (whose local estimate is the newest time) first, then newest first;
    each document as [{ id: doc.id, ...doc.data() }]. *)
Definition snapshot_cmp (a b : TaskDoc) : Z :=
  match createdAt a, createdAt b with
  | None, None => 0
  | None, Some _ => -1
  | Some _, None => 1
  | Some x, Some y => toDate y - toDate x
  end.

Definition to_task_doc (i : string) (d : DocData) : TaskDoc :=
  mkTaskDoc i (d_title d) (d_completed d) (d_createdAt d) (d_userId d).

Definition snapshot (p : string) (db : FsDb) : list TaskDoc :=
  js_sort snapshot_cmp (map (fun '(i, d) => to_task_doc i d) (map_to_list (collection_docs p db))).

(** ** The provider *)

Definition appId : string := "default-app-id".

(** [`artifacts/${appId}/users/${userId}/tasks`] *)
Definition tasks_path (userId : string) : string :=
  "artifacts/" +:+ appId +:+ "/users/" +:+ userId +:+ "/tasks".

Record FirestoreState : Type := mkFirestoreState {
  fs_currentUser : option User;    (** [useAuth().currentUser] *)
  fs_loadingAuth : bool;           (** [useAuth().loadingAuth] *)
  fs_tasks : list TaskDoc;         (** [useState([])] *)
  fs_error : option string;        (** [useState(null)] *)
  listener : option string;        (** the collection of the live [onSnapshot] listener *)
  fs_db : FsDb
}.

(** [currentUser?.uid || 'anonymous'] *)
Definition userId (c : FirestoreState) : string :=
  match fs_currentUser c with
  | Some u => if String.eqb (uid u) "" then "anonymous" else uid u
  | None => "anonymous"
  end.

Definition setFirestoreError (e : option string) (c : FirestoreState) : FirestoreState :=
  mkFirestoreState (fs_currentUser c) (fs_loadingAuth c) (fs_tasks c) e (listener c) (fs_db c).

Definition set_db (db : FsDb) (c : FirestoreState) : FirestoreState :=
  mkFirestoreState (fs_currentUser c) (fs_loadingAuth c) (fs_tasks c) (fs_error c) (listener c) db.

(** The common shape of [addTask], [updateTask] and [deleteTask]: clear
    the error; without a user record "User not authenticated." and return
    normally; otherwise await the write, recording and rethrowing its
    failure. *)
Definition provider_write (write : string -> FsDb -> outcome FsDb) (c : FirestoreState)
  : outcome unit * FirestoreState :=
  let c := setFirestoreError None c in
  match fs_currentUser c with
  | None => (Returns tt, setFirestoreError (Some "User not authenticated.") c)
  | Some _ =>
      match write (tasks_path (userId c)) (fs_db c) with
      | Returns db' => (Returns tt, set_db db' c)
      | Throws m => (Throws m, setFirestoreError (Some m) c)
      end
  end.

(** [addDoc(collection(db, path), { title, completed: false, createdAt:
    serverTimestamp(), userId: currentUser.uid })]. *)
Definition add_write (t : string) (c : FirestoreState) (p : string) (db : FsDb) : outcome FsDb :=
  match fs_currentUser c with
  | Some u => addDoc p (mkDocData t false None (uid u)) db
  | None => Returns db
  end.

Definition fs_addTask (t : string) (c : FirestoreState) : outcome unit * FirestoreState :=
  provider_write (add_write t c) c.

Definition fs_updateTask (i : string) (u : Updates) (c : FirestoreState)
  : outcome unit * FirestoreState :=
  provider_write (fun p db => updateDoc p i u db) c.

Definition fs_deleteTask (i : string) (c : FirestoreState) : outcome unit * FirestoreState :=
  provider_write (fun p db => deleteDoc p i db) c.

#[export] Instance firestore_backend : TaskBackend FirestoreState := {|
  tasks := fs_tasks;
  firestoreError := fs_error;
  addTask := fs_addTask;
  updateTask := fs_updateTask;
  deleteTask := fs_deleteTask
|}.

(** ** The subscription *)

(** The effect on [[currentUser, loadingAuth, userId]]: the previous
    listener is unsubscribed; unless auth is loading or there is no user,
    a listener on the user's collection is started.  [tasks] is kept. *)
Definition auth_changed (u : option User) (loading : bool) (c : FirestoreState)
  : FirestoreState :=
  let c' := mkFirestoreState u loading (fs_tasks c) (fs_error c) None (fs_db c) in
  if loading then c'
  else match u with
       | None => c'
       | Some _ =>
           mkFirestoreState u loading (fs_tasks c) (fs_error c)
             (Some (tasks_path (userId c'))) (fs_db c)
       end.

(** The listener's [next] callback: the query's documents replace [tasks]
    and the error is cleared.  Without a live listener nothing happens. *)
Definition deliver (c : FirestoreState) : FirestoreState :=
  match listener c with
  | Some p => mkFirestoreState (fs_currentUser c) (fs_loadingAuth c) (snapshot p (fs_db c))
                None (listener c) (fs_db c)
  | None => c
  end.

(** The listener's [error] callback: the message is shown and Firestore
    ends the listener; [tasks] keeps the last delivery. *)
Definition snapshot_error (m : string) (c : FirestoreState) : FirestoreState :=
  match listener c with
  | Some _ => mkFirestoreState (fs_currentUser c) (fs_loadingAuth c) (fs_tasks c)
                (Some m) None (fs_db c)
  | None => c
  end.

Definition commit (now : Timestamp) (c : FirestoreState) : FirestoreState :=
  set_db (server_commit now (fs_db c)) c.

(** The events of the push channel. *)
Inductive SyncEvent : Type :=
| AuthChanged (u : option User) (loading : bool)
| Deliver
| SnapshotError (m : string)
| Commit (now : Timestamp).

Definition sync (e : SyncEvent) (c : FirestoreState) : FirestoreState :=
  match e with
  | AuthChanged u loading => auth_changed u loading c
  | Deliver => deliver c
  | SnapshotError m => snapshot_error m c
  | Commit now => commit now c
  end.

(** ** Invariants of the provider *)

(** The collection key of a document's owner: [userId] of the user whose
    [uid] the document records. *)
Definition owner_key (w : string) : string := if String.eqb w "" then "anonymous" else w.

(** Every document stored under a user's tasks path records that user. *)
Definition store_owned (db : FsDb) : Prop :=
  forall v m i d, collections db !! tasks_path v = Some m -> m !! i = Some d ->
  owner_key (d_userId d) = v.

(** A live listener exists only once auth has loaded, with a user, on that
    user's collection. *)
Definition listener_ok (c : FirestoreState) : Prop :=
  match listener c with
  | Some p => fs_loadingAuth c = false /\ is_Some (fs_currentUser c) /\ p = tasks_path (userId c)
  | None => True
  end.

(** Every task shown belongs to the signed-in user. *)
Definition shows_own (c : FirestoreState) : Prop :=
  Forall (fun t => owner_key (TaskBackend.userId t) = userId c) (fs_tasks c).

(** The events the provider reacts to: the push channel and the view's
    three writes. *)
Inductive FsEvent : Type :=
| Sync (e : SyncEvent)
| Add (t : string)
| Update (i : string) (u : Updates)
| Delete (i : string).

Definition fs_event (e : FsEvent) (c : FirestoreState) : FirestoreState :=
  match e with
  | Sync s => sync s c
  | Add t => snd (fs_addTask t c)
  | Update i u => snd (fs_updateTask i u c)
  | Delete i => snd (fs_deleteTask i c)
  end.

Definition fs_run (es : list FsEvent) (c : FirestoreState) : FirestoreState :=
  fold_left (fun c e => fs_event e c) es c.

Definition is_auth_change (e : FsEvent) : bool :=
  match e with Sync (AuthChanged _ _) => true | _ => false end.

(** ** Lemmas *)



Lemma put_collection_other p m db q :
  q <> p -> collections (put_collection p m db) !! q = collections db !! q.
Proof. intros Hq. cbn. by rewrite lookup_insert_ne. Qed.

Lemma addDoc_other p d db db' q :
  addDoc p d db = Returns db' -> q <> p -> collections db' !! q = collections db !! q.
Proof.
  unfold addDoc. destruct (fs_failure db); [done|]. intros [= <-] Hq. cbn.
  by rewrite lookup_insert_ne.
Qed.

Lemma updateDoc_other p i u db db' q :
  updateDoc p i u db = Returns db' -> q <> p -> collections db' !! q = collections db !! q.
Proof.
  unfold updateDoc. destruct (fs_failure db); [done|].
  destruct (collection_docs p db !! i); [|done]. intros [= <-]. apply put_collection_other.
Qed.

Lemma deleteDoc_other p i db db' q :
  deleteDoc p i db = Returns db' -> q <> p -> collections db' !! q = collections db !! q.
Proof.
  unfold deleteDoc. destruct (fs_failure db); [done|]. intros [= <-]. apply put_collection_other.
Qed.

(** [provider_write] changes the database only through its write, on the
    collection of [userId]. *)
Lemma provider_write_other write c q :
  (forall db db', write (tasks_path (userId c)) db = Returns db' ->
     collections db' !! q = collections db !! q) ->
  collections (fs_db (snd (provider_write write c))) !! q = collections (fs_db c) !! q.
Proof.
  intros Hw. unfold provider_write. cbn [fs_currentUser setFirestoreError].
  destruct (fs_currentUser c); [|done].
  destruct (write _ _) eqn:He; [|done]. cbn. by apply Hw.
Qed.

(** Two users never share a tasks collection. *)
Lemma tasks_path_inj a b : tasks_path a = tasks_path b -> a = b.
Proof.
  unfold tasks_path. intros H.
  apply (inj (String.append ("artifacts/" +:+ appId +:+ "/users/"))) in H.
  by apply string_app_inj_r in H.
Qed.

(** ** Writes are confined to the user's collection *)

(** C6: whatever the provider's state, [addTask], [updateTask] and
    [deleteTask] leave every other user's tasks collection exactly as it
    was: a user's writes never reach another user's tasks. *)
Theorem provider_writes_confined c v t i u :
  v <> userId c ->
  let q := tasks_path v in
  collections (fs_db (snd (fs_addTask t c))) !! q = collections (fs_db c) !! q /\
  collections (fs_db (snd (fs_updateTask i u c))) !! q = collections (fs_db c) !! q /\
  collections (fs_db (snd (fs_deleteTask i c))) !! q = collections (fs_db c) !! q.
Proof.
  intros Hv q. assert (Hq : q <> tasks_path (userId c)) by (intros ?%tasks_path_inj; congruence).
  split; [|split]; apply provider_write_other; intros db db' Hw.
  - unfold add_write in Hw. destruct (fs_currentUser c); [by eapply addDoc_other|congruence].
  - by eapply updateDoc_other.
  - by eapply deleteDoc_other.
Qed.

(** ** Failures of the provider's operations *)

(** Without a signed-in user the three operations do not reject:
    they record "User not authenticated." in [firestoreError] and resolve,
    leaving the database as it was. *)
Lemma unauthenticated_writes_resolve c t i u :
  fs_currentUser c = None ->
  let c' := setFirestoreError (Some "User not authenticated.") c in
  fs_addTask t c = (Returns tt, c') /\ fs_updateTask i u c = (Returns tt, c') /\
  fs_deleteTask i c = (Returns tt, c').
Proof.
  intros Hu. unfold fs_addTask, fs_updateTask, fs_deleteTask, provider_write.
  cbn [fs_currentUser setFirestoreError]. rewrite Hu. by destruct c.
Qed.

(** Deleting a document that does not exist (for instance a second
    time) resolves and leaves the collection unchanged: no NotFound is
    reported. *)
Lemma delete_missing_resolves c i v :
  fs_currentUser c = Some v -> fs_failure (fs_db c) = None ->
  collection_docs (tasks_path (userId c)) (fs_db c) !! i = None ->
  fst (fs_deleteTask i c) = Returns tt /\
  collection_docs (tasks_path (userId c)) (fs_db (snd (fs_deleteTask i c))) =
  collection_docs (tasks_path (userId c)) (fs_db c).
Proof.
  intros Hu Hf Hi. unfold fs_deleteTask, provider_write, deleteDoc.
  cbn [fs_currentUser setFirestoreError fs_db]. rewrite Hu, Hf. cbn [fst snd fs_db set_db].
  split; [done|]. unfold collection_docs at 1. cbn. rewrite lookup_insert_eq. cbn.
  by rewrite delete_id.
Qed.

(** updating a document that does not exist rejects with Firestore's
    message, which is also recorded in [firestoreError]; the database is
    unchanged. *)
Lemma update_missing_rejects c i u v :
  fs_currentUser c = Some v -> fs_failure (fs_db c) = None ->
  collection_docs (tasks_path (userId c)) (fs_db c) !! i = None ->
  let m := "No document to update: " +:+ tasks_path (userId c) +:+ "/" +:+ i in
  fs_updateTask i u c = (Throws m, setFirestoreError (Some m) c).
Proof.
  intros Hu Hf Hi. unfold fs_updateTask, provider_write, updateDoc.
  cbn [fs_currentUser setFirestoreError fs_db]. rewrite Hu, Hf.
  replace (userId _) with (userId c) by (by destruct c).
  rewrite Hi. by destruct c.
Qed.

(** ** Lemmas on the invariants *)

Lemma userId_currentUser c c' : fs_currentUser c' = fs_currentUser c -> userId c' = userId c.
Proof. unfold userId. by intros ->. Qed.

(** [provider_write] changes only the database and the error. *)
Lemma provider_write_view write c :
  let c' := snd (provider_write write c) in
  fs_currentUser c' = fs_currentUser c /\ fs_loadingAuth c' = fs_loadingAuth c /\
  fs_tasks c' = fs_tasks c /\ listener c' = listener c.
Proof.
  unfold provider_write. cbn [fs_currentUser setFirestoreError].
  destruct c as [u l ts e li db]; cbn. destruct u; [destruct (write _ _)|]; cbn; tauto.
Qed.

Lemma provider_write_db (P : FsDb -> Prop) write c :
  (forall db', write (tasks_path (userId c)) (fs_db c) = Returns db' -> P db') ->
  P (fs_db c) -> P (fs_db (snd (provider_write write c))).
Proof.
  intros Hw Hc. unfold provider_write. cbn [fs_currentUser setFirestoreError fs_db].
  destruct (fs_currentUser c); [|done].
  destruct (write _ _) eqn:He; [|done]. by apply Hw.
Qed.

Lemma collection_docs_owned db v i d :
  store_owned db -> collection_docs (tasks_path v) db !! i = Some d -> owner_key (d_userId d) = v.
Proof.
  unfold collection_docs. intros Hdb. destruct (collections db !! _) eqn:Hm; [|done].
  by apply Hdb.
Qed.

(** Replacing one user's collection by documents of that user keeps the
    store owned. *)
Lemma store_owned_put db w m n f :
  store_owned db -> (forall i d, m !! i = Some d -> owner_key (d_userId d) = w) ->
  store_owned (mkFsDb (<[tasks_path w := m]> (collections db)) n f).
Proof.
  intros Hdb Hm v m' i d. cbn. destruct (decide (tasks_path v = tasks_path w)) as [Hvw|Hvw].
  - rewrite Hvw, lookup_insert_eq. intros [= <-]. apply tasks_path_inj in Hvw as ->. apply Hm.
  - rewrite lookup_insert_ne by done. apply Hdb.
Qed.

Lemma store_owned_write c w :
  store_owned (fs_db c) ->
  (forall db', w (tasks_path (userId c)) (fs_db c) = Returns db' -> store_owned db') ->
  store_owned (fs_db (snd (provider_write w c))).
Proof. intros Hc Hw. by apply provider_write_db. Qed.

Lemma server_commit_owned now db : store_owned db -> store_owned (server_commit now db).
Proof.
  intros Hdb v m i d. cbn. rewrite lookup_fmap.
  destruct (collections db !! _) as [m0|] eqn:Hm0; [|done]. intros [= <-].
  rewrite lookup_fmap. destruct (m0 !! i) as [d0|] eqn:Hd0; [|done]. intros [= <-].
  replace (d_userId _) with (d_userId d0) by (unfold commit_doc; by destruct (d_createdAt d0)).
  by eapply Hdb.
Qed.

Lemma in_snapshot p db t :
  In t (snapshot p db) -> exists i d, collection_docs p db !! i = Some d /\ t = to_task_doc i d.
Proof.
  unfold snapshot. intros Ht. eapply Permutation_in in Ht; [|apply js_sort_perm].
  apply in_map_iff in Ht as [[i d] [<- Hin]].
  exists i, d. split; [|done]. apply elem_of_map_to_list, list_elem_of_In, Hin.
Qed.

Lemma userId_owner_key c u : fs_currentUser c = Some u -> userId c = owner_key (uid u).
Proof. unfold userId. by intros ->. Qed.

Lemma collection_docs_put p m db : collection_docs p (put_collection p m db) = m.
Proof. unfold collection_docs. cbn [collections put_collection]. by rewrite lookup_insert_eq. Qed.

(** A write of a signed-in provider goes to the user's collection; a
    failure is recorded in [firestoreError]. *)
Lemma provider_write_signed_in write c u :
  fs_currentUser c = Some u ->
  provider_write write c =
    match write (tasks_path (owner_key (uid u))) (fs_db c) with
    | Returns db' => (Returns tt, set_db db' (setFirestoreError None c))
    | Throws m => (Throws m, setFirestoreError (Some m) c)
    end.
Proof.
  intros Hu. unfold provider_write. cbn [fs_currentUser setFirestoreError fs_db]. rewrite Hu.
  rewrite (userId_owner_key (setFirestoreError None c) u) by done.
  destruct (write _ _); [done|]. by destruct c.
Qed.

Lemma insert_owned (m : gmap string DocData) w i d :
  (forall j d', m !! j = Some d' -> owner_key (d_userId d') = w) -> owner_key (d_userId d) = w ->
  forall j d', <[i := d]> m !! j = Some d' -> owner_key (d_userId d') = w.
Proof.
  intros Hm Hd j d'. destruct (decide (i = j)) as [->|Hij].
  - rewrite lookup_insert_eq. by intros [= <-].
  - rewrite lookup_insert_ne by done. apply Hm.
Qed.

Lemma addDoc_owned db w d db' :
  store_owned db -> owner_key (d_userId d) = w -> addDoc (tasks_path w) d db = Returns db' ->
  store_owned db'.
Proof.
  intros Hdb Hd. unfold addDoc. destruct (fs_failure db); [done|]. intros [= <-].
  apply store_owned_put; [done|]. apply insert_owned; [|done].
  intros j d'. by apply collection_docs_owned.
Qed.

Lemma updateDoc_owned db w i u db' :
  store_owned db -> updateDoc (tasks_path w) i u db = Returns db' -> store_owned db'.
Proof.
  intros Hdb. unfold updateDoc. destruct (fs_failure db); [done|].
  destruct (_ !! i) as [d|] eqn:Hd; [|done]. intros [= <-].
  apply store_owned_put; [done|]. apply insert_owned.
  - intros j d'. by apply collection_docs_owned.
  - by apply (collection_docs_owned db w i d).
Qed.

Lemma deleteDoc_owned db w i db' :
  store_owned db -> deleteDoc (tasks_path w) i db = Returns db' -> store_owned db'.
Proof.
  intros Hdb. unfold deleteDoc. destruct (fs_failure db); [done|]. intros [= <-].
  apply store_owned_put; [done|]. intros j d'. rewrite lookup_delete_Some.
  intros [_ Hj]. by eapply collection_docs_owned.
Qed.

Lemma provider_write_listener_ok write c :
  listener_ok c -> listener_ok (snd (provider_write write c)).
Proof.
  destruct (provider_write_view write c) as (Hu & Hl & _ & Hli). unfold listener_ok.
  rewrite Hli, Hl, (userId_currentUser _ _ Hu), Hu. done.
Qed.

(** ** The provider's invariants *)

(** Every event the provider handles (an auth change, a snapshot, a
    listener error, a server commit, and the view's three writes) keeps
    its two invariants: a live listener only exists after auth has loaded,
    for a signed-in user, on that user's collection; and every document
    under a user's tasks path records that user as its owner. *)
Lemma fs_event_preserves_invariants e c :
  listener_ok c -> store_owned (fs_db c) ->
  listener_ok (fs_event e c) /\ store_owned (fs_db (fs_event e c)).
Proof.
  intros Hl Ho. destruct e as [[u lo| |m|now]|t|i u|i]; cbn [fs_event sync].
  - unfold auth_changed. destruct lo; [done|]. destruct u; [|done].
    split; [|done]. cbn. by split; [|split; [eexists|]].
  - unfold deliver. destruct (listener c) eqn:Hp; [|done]. split; [|done].
    unfold listener_ok in *. rewrite Hp in Hl. done.
  - unfold snapshot_error. by destruct (listener c).
  - split; [by destruct c|]. apply server_commit_owned, Ho.
  - split; [apply provider_write_listener_ok, Hl|]. apply store_owned_write; [done|].
    intros db'. unfold add_write. destruct (fs_currentUser c) as [v|] eqn:Hv; [|by intros [= <-]].
    apply addDoc_owned; [done|]. cbn. symmetry. by apply userId_owner_key.
  - split; [apply provider_write_listener_ok, Hl|]. apply store_owned_write; [done|].
    intros db'. by apply updateDoc_owned.
  - split; [apply provider_write_listener_ok, Hl|]. apply store_owned_write; [done|].
    intros db'. by apply deleteDoc_owned.
Qed.

Lemma deliver_owned c p :
  listener c = Some p -> p = tasks_path (userId c) -> store_owned (fs_db c) -> shows_own (deliver c).
Proof.
  intros Hp -> Ho. unfold deliver, shows_own. rewrite Hp. cbn.
  apply List.Forall_forall. intros t (i & d & Hd & ->)%in_snapshot. cbn.
  by eapply collection_docs_owned.
Qed.

(** Without a live listener, no event but an auth change starts one, and
    the shown tasks stay as they are. *)
Lemma no_listener_event e c :
  listener c = None -> is_auth_change e = false ->
  listener (fs_event e c) = None /\ fs_tasks (fs_event e c) = fs_tasks c.
Proof.
  intros Hl He. destruct e as [[u lo| |m|now]|t|i u|i]; try done; cbn [fs_event sync].
  1: unfold deliver; by rewrite Hl.
  1: unfold snapshot_error; by rewrite Hl.
  all: unfold fs_addTask, fs_updateTask, fs_deleteTask;
    match goal with |- context [provider_write ?w ?c] =>
      destruct (provider_write_view w c) as (_ & _ & -> & ->) end; done.
Qed.

Lemma no_listener_run es c :
  listener c = None -> Forall (fun e => is_auth_change e = false) es ->
  listener (fs_run es c) = None /\ fs_tasks (fs_run es c) = fs_tasks c.
Proof.
  revert c. induction es as [|e es IH]; intros c Hl Hes; [done|].
  inversion Hes as [|? ? He Hes']; subst. cbn [fs_run fold_left].
  destruct (no_listener_event e c Hl He) as [Hl' Ht].
  destruct (IH (fs_event e c) Hl' Hes') as [? Ht']. unfold fs_run in *. by rewrite Ht', Ht.
Qed.

Lemma server_commit_docs now p db i d :
  collection_docs p (server_commit now db) !! i = Some d -> is_Some (d_createdAt d).
Proof.
  unfold collection_docs. cbn. rewrite lookup_fmap.
  destruct (collections db !! p) as [m|]; cbn; [|done].
  rewrite lookup_fmap. destruct (m !! i) as [d0|]; [|done]. intros [= <-].
  unfold commit_doc. destruct (d_createdAt d0) eqn:Hc; cbn; [rewrite Hc|]; by eexists.
Qed.

(** ** What the view is shown *)

(** When a snapshot is delivered, in a state that satisfies the
    invariants, every task shown belongs to the signed-in user. *)
Lemma deliver_shows_own_tasks c :
  listener_ok c -> store_owned (fs_db c) -> is_Some (listener c) -> shows_own (deliver c).
Proof.
  unfold listener_ok. intros Hl Ho [p Hp]. rewrite Hp in Hl. destruct Hl as (_ & _ & ->).
  by eapply deliver_owned.
Qed.

(** C26: a change of user does not clear [tasks]: right after the switch
    every task shown is still one of the previous user's, until the new
    listener delivers its first snapshot, which shows only the new user's
    tasks. *)
Theorem user_switch_shows_stale_tasks c u :
  shows_own c -> store_owned (fs_db c) -> owner_key (uid u) <> userId c ->
  let c' := auth_changed (Some u) false c in
  fs_tasks c' = fs_tasks c /\
  Forall (fun t => owner_key (TaskBackend.userId t) <> userId c') (fs_tasks c') /\
  shows_own (deliver c').
Proof.
  intros Hown Ho Hu c'. assert (Hc' : userId c' = owner_key (uid u)) by done.
  split; [done|]. split.
  - rewrite Hc'. eapply Forall_impl; [exact Hown|]. cbn. intros t ->. congruence.
  - by apply (deliver_owned c' (tasks_path (userId c'))).
Qed.

(** C28: an error of the listener is shown and ends the subscription:
    [tasks] keeps the last delivery, and no event other than an auth
    change (the view's writes included) updates the list again; yet the
    next write that resolves clears the message, so the error is no
    longer shown while the list stays frozen. *)
Theorem snapshot_error_stops_updates c m es :
  is_Some (listener c) -> Forall (fun e => is_auth_change e = false) es ->
  let c1 := snapshot_error m c in
  fs_error c1 = Some m /\ fs_tasks (fs_run es c1) = fs_tasks c /\
  (forall t c2, fs_addTask t c1 = (Returns tt, c2) -> is_Some (fs_currentUser c) ->
     fs_error c2 = None /\ listener c2 = None).
Proof.
  intros [p Hp] Hes c1. assert (Hc1 : listener c1 = None /\ fs_tasks c1 = fs_tasks c)
    by (subst c1; unfold snapshot_error; by rewrite Hp).
  split_and!; [subst c1; unfold snapshot_error; by rewrite Hp| |].
  - destruct Hc1 as [Hl Ht]. rewrite <- Ht. by apply no_listener_run.
  - intros t c2 Ha [u Hu]. assert (Hu1 : fs_currentUser c1 = Some u)
      by (subst c1; unfold snapshot_error; by rewrite Hp).
    revert Ha. unfold fs_addTask, provider_write. cbn [fs_currentUser setFirestoreError].
    rewrite Hu1. destruct (add_write _ _ _ _); intros [= <-]. by cbn; rewrite (proj1 Hc1).
Qed.

(** once the server has committed the pending writes, the next
    snapshot shows every task with its creation time: the condition under
    which the view's 'newest' and 'oldest' orders are consistent. *)
Lemma commit_then_deliver_no_pending now c :
  is_Some (listener c) ->
  Forall (fun t => is_Some (createdAt t)) (fs_tasks (deliver (commit now c))).
Proof.
  intros [p Hp]. unfold deliver. cbn [commit set_db listener]. rewrite Hp. cbn.
  apply List.Forall_forall. intros t (i & d & Hd & ->)%in_snapshot. cbn.
  by eapply server_commit_docs.
Qed.

(** An auth change installs the new user and loading flag and a listener
    that satisfies [listener_ok]; the database is untouched. *)
Lemma auth_changed_ok u lo c :
  let c' := auth_changed u lo c in
  fs_currentUser c' = u /\ fs_loadingAuth c' = lo /\ listener_ok c' /\ fs_db c' = fs_db c.
Proof.
  unfold auth_changed. destruct lo; [done|]. destruct u; [|done].
  cbn. split_and!; try done; by split; [|split; [eexists|]].
Qed.

(** Events other than an auth change keep the user and the loading flag. *)
Lemma fs_event_auth_view e c :
  is_auth_change e = false ->
  fs_currentUser (fs_event e c) = fs_currentUser c /\ fs_loadingAuth (fs_event e c) = fs_loadingAuth c.
Proof.
  intros He. destruct e as [[u lo| |m|now]|t|i u|i]; try done; cbn [fs_event sync].
  all: try (unfold deliver; by destruct (listener c)).
  all: try (unfold snapshot_error; by destruct (listener c)).
  all: unfold fs_addTask, fs_updateTask, fs_deleteTask;
    match goal with |- context [provider_write ?w ?c] =>
      destruct (provider_write_view w c) as (-> & -> & _ & _) end; done.
Qed.

Lemma fs_run_preserves_invariants es c :
  listener_ok c -> store_owned (fs_db c) ->
  listener_ok (fs_run es c) /\ store_owned (fs_db (fs_run es c)).
Proof.
  revert c. induction es as [|e es IH]; intros c Hl Ho; [done|].
  destruct (fs_event_preserves_invariants e c Hl Ho). by apply IH.
Qed.

(** ** A provider at work *)

Module FsDemo.

Definition ada : User := mkUser "uid-ada" (Some "ada@example.com") false.
Definition bob : User := mkUser "uid-bob" None false.

Definition empty_state : FirestoreState :=
  mkFirestoreState None true [] None None (mkFsDb ∅ 0 None).

(** Ada signs in, adds a task, and the listener delivers it. *)
Definition ada_state : FirestoreState :=
  fs_run [Sync (AuthChanged (Some ada) false); Add "Buy milk"; Sync Deliver] empty_state.

Definition signed_out : FirestoreState := setFirestoreError None empty_state.

End FsDemo.
Import FsDemo.

Lemma ada_state_invariants : listener_ok ada_state /\ store_owned (fs_db ada_state).
Proof.
  apply fs_run_preserves_invariants; [done|]. intros v m i d. cbn. by rewrite lookup_empty.
Qed.

Lemma provider_writes_confined_witness :
  let q := tasks_path "uid-bob" in
  collections (fs_db (snd (fs_addTask "x" ada_state))) !! q = collections (fs_db ada_state) !! q /\
  collections (fs_db (snd (fs_updateTask "doc0" (mkUpdates (Some "y") None) ada_state))) !! q =
    collections (fs_db ada_state) !! q /\
  collections (fs_db (snd (fs_deleteTask "doc0" ada_state))) !! q = collections (fs_db ada_state) !! q.
Proof. apply provider_writes_confined. vm_compute. discriminate. Defined.

Lemma user_switch_shows_stale_tasks_witness :
  let c' := auth_changed (Some bob) false ada_state in
  fs_tasks c' = fs_tasks ada_state /\
  Forall (fun t => owner_key (TaskBackend.userId t) <> userId c') (fs_tasks c') /\
  shows_own (deliver c').
Proof.
  apply user_switch_shows_stale_tasks.
  - apply (bool_decide_unpack (Forall (fun t => owner_key (TaskBackend.userId t) = userId ada_state) (fs_tasks ada_state))). vm_compute. exact I.
  - apply ada_state_invariants.
  - vm_compute. discriminate.
Defined.

Lemma snapshot_error_stops_updates_witness :
  let c1 := snapshot_error "permission-denied" ada_state in
  fs_error c1 = Some "permission-denied" /\
  fs_tasks (fs_run [Add "Walk"; Sync Deliver; Sync (Commit (mkTimestamp 5 0))] c1) = fs_tasks ada_state /\
  (forall t c2, fs_addTask t c1 = (Returns tt, c2) -> is_Some (fs_currentUser ada_state) ->
     fs_error c2 = None /\ listener c2 = None).
Proof. apply snapshot_error_stops_updates; vm_compute; [by eexists|repeat constructor]. Defined.

(** ** Full-snapshot delivery *)

(** The query's order is a consistent comparator: pending documents
    first, then by creation time, newest first. *)
Lemma snapshot_cmp_consistent : consistent_comparator snapshot_cmp.
Proof.
  split.
  - intros [? ? ? [x|] ?] [? ? ? [y|] ?]; cbn; [|done..].
    rewrite <- Z.sgn_opp. f_equal. lia.
  - intros [? ? ? [x|] ?] [? ? ? [y|] ?] [? ? ? [z|] ?]; cbn; lia.
Qed.

(** C24: a delivery replaces [tasks] by the full current content of the
    listened collection, every document once, ordered as the query
    orders them (pending writes first, then newest first), and clears the
    error. *)
Theorem deliver_full_snapshot c p :
  listener c = Some p ->
  let ts := fs_tasks (deliver c) in
  Permutation ts (map (fun '(i, d) => to_task_doc i d) (map_to_list (collection_docs p (fs_db c)))) /\
  StronglySorted (cmp_le snapshot_cmp) ts /\ fs_error (deliver c) = None.
Proof.
  intros Hp ts. subst ts. unfold deliver. rewrite Hp. cbn. unfold snapshot. split_and!; [apply js_sort_perm| |done].
  apply (js_sort_sorted _ (fun _ => True)); [apply consistent_comparator_on, snapshot_cmp_consistent|].
  by apply List.Forall_forall.
Qed.

Lemma deliver_full_snapshot_witness :
  let ts := fs_tasks (deliver ada_state) in
  Permutation ts (map (fun '(i, d) => to_task_doc i d)
                    (map_to_list (collection_docs (tasks_path "uid-ada") (fs_db ada_state)))) /\
  StronglySorted (cmp_le snapshot_cmp) ts /\ fs_error (deliver ada_state) = None.
Proof. apply deliver_full_snapshot. vm_compute. reflexivity. Defined.
