(* ===== verification/PushChannel.v ===== *)
(** * The push channel of spec section 4.3, and the provider's refinement
      of it ([src/client/src/context/FirestoreContext.js])

    The spec describes push mode as a state machine: Disconnected,
    Subscribing to an owner, Streaming that owner's full task list; a
    delivery error or a cancellation goes back to Disconnected, with no
    reconnection.  [PushSpec] states it as a labelled step relation.

    The provider's subscription is [listener], set by the effect on
    [[currentUser, loadingAuth, userId]] ([auth_changed]) and cleared by
    the listener's [error] callback; the spec's owner is named by the
    path of its collection.  Whether the listener has delivered
    yet is not a variable of the code: the simulation carries it as a
    ghost flag ([pv_streamed]).  Each event of the provider is matched
    by zero, one or two steps of the spec, with the labels
    [impl_labels] gives from the event: an auth change cancels the live
    listener and, once loaded with a user, subscribes to that user's
    collection; a delivery carries the listened collection's snapshot;
    an error disconnects; the writes and commits stutter. *)
From S2P Require Import Prelude JsRuntime TaskBackend Auth Firestore.

Module PushSpec.

Inductive Phase : Type :=
| Disconnected
| Subscribing (o : string)
| Streaming (o : string).

Inductive Label : Type :=
| LSubscribe (o : string)
| LDeliver (o : string) (l : list TaskDoc)   (** the full list of the owner *)
| LError
| LCancel.

Inductive push_step : Phase -> Label -> Phase -> Prop :=
| ps_subscribe o : push_step Disconnected (LSubscribe o) (Subscribing o)
| ps_first o l : push_step (Subscribing o) (LDeliver o l) (Streaming o)
| ps_next o l : push_step (Streaming o) (LDeliver o l) (Streaming o)
| ps_error_subscribing o : push_step (Subscribing o) LError Disconnected
| ps_error_streaming o : push_step (Streaming o) LError Disconnected
| ps_cancel_subscribing o : push_step (Subscribing o) LCancel Disconnected
| ps_cancel_streaming o : push_step (Streaming o) LCancel Disconnected.

(** A sequence of steps with their labels. *)
Inductive push_steps : Phase -> list Label -> Phase -> Prop :=
| pss_nil p : push_steps p [] p
| pss_cons p l p' ls p'' : push_step p l p' -> push_steps p' ls p'' -> push_steps p (l :: ls) p''.

#[export] Hint Constructors push_step push_steps : core.

Lemma push_steps_app p ls1 p' ls2 p'' :
  push_steps p ls1 p' -> push_steps p' ls2 p'' -> push_steps p (ls1 ++ ls2) p''.
Proof. induction 1; cbn; eauto. Qed.

Lemma push_steps_one p l p' : push_step p l p' -> push_steps p [l] p'.
Proof. eauto. Qed.

(** A delivery happens only while subscribed, to the subscribed owner. *)
Lemma push_step_deliver p o l p' :
  push_step p (LDeliver o l) p' -> p' = Streaming o /\ (p = Subscribing o \/ p = Streaming o).
Proof. inversion 1; subst; eauto. Qed.

(** Once disconnected, nothing is delivered until a new subscription. *)
Lemma disconnected_no_delivery ls p :
  push_steps Disconnected ls p -> (forall o, LSubscribe o ∉ ls) ->
  p = Disconnected /\ forall o l, LDeliver o l ∉ ls.
Proof.
  remember Disconnected as d eqn:Hd. induction 1 as [|p0 l p' ls p'' Hs _ IH]; subst.
  - split; [done|]. intros ??; apply not_elem_of_nil.
  - intros Hn. inversion Hs; subst. exfalso. apply (Hn o). left.
Qed.

End PushSpec.
Import PushSpec.

(** ** The provider with its ghost flag *)

Record PushView : Type := mkPushView {
  pv_state : FirestoreState;
  pv_streamed : bool            (** ghost: the live listener has delivered *)
}.

(** The spec's phase of the provider. *)
Definition phase (v : PushView) : Phase :=
  match listener (pv_state v) with
  | None => Disconnected
  | Some p => if pv_streamed v then Streaming p else Subscribing p
  end.

Definition push_event (e : FsEvent) (v : PushView) : PushView :=
  let c := pv_state v in
  mkPushView (fs_event e c)
    match e with
    | Sync (AuthChanged _ _) => false
    | Sync Deliver => pv_streamed v || bool_decide (is_Some (listener c))
    | _ => pv_streamed v
    end.

(** The spec's labels of an event. *)
Definition impl_labels (e : FsEvent) (c : FirestoreState) : list Label :=
  match e, listener c with
  | Sync (AuthChanged u lo), l =>
      (if l is Some _ then [LCancel] else []) ++
      (if lo then [] else if u is Some usr then [LSubscribe (tasks_path (owner_key (uid usr)))] else [])
  | Sync Deliver, Some p => [LDeliver p (snapshot p (fs_db c))]
  | Sync (SnapshotError _), Some _ => [LError]
  | _, _ => []
  end.

Definition push_run (es : list FsEvent) (v : PushView) : PushView :=
  fold_left (fun v e => push_event e v) es v.

Fixpoint run_labels (es : list FsEvent) (v : PushView) : list Label :=
  match es with
  | [] => []
  | e :: es' => impl_labels e (pv_state v) ++ run_labels es' (push_event e v)
  end.

(** ** The simulation *)

Lemma phase_same v v' :
  listener (pv_state v') = listener (pv_state v) -> pv_streamed v' = pv_streamed v -> phase v' = phase v.
Proof.
  intros Hl Hs. unfold phase. by rewrite Hl, Hs.
Qed.

(** The view's writes leave the phase alone. *)
Lemma phase_write w c s :
  phase (mkPushView (snd (provider_write w c)) s) = phase (mkPushView c s).
Proof.
  destruct (provider_write_view w c) as (_ & _ & _ & Hl). by apply phase_same.
Qed.

(** A cancellation, if a listener is live, leads to [Disconnected]. *)
Lemma cancel_steps v :
  push_steps (phase v) (if listener (pv_state v) is Some _ then [LCancel] else []) Disconnected.
Proof.
  unfold phase. destruct (listener _); [|done]. destruct (pv_streamed v); eauto.
Qed.

(** Every event of the provider is matched by the spec's steps with its
    labels. *)
Lemma push_event_refines e v :
  push_steps (phase v) (impl_labels e (pv_state v)) (phase (push_event e v)).
Proof.
  destruct v as [c s].
  unfold push_event.
  destruct e as [[u lo| |m|now]|t|i u|i]; cbn [impl_labels pv_state pv_streamed fs_event sync].
  - apply (push_steps_app _ _ Disconnected); [apply (cancel_steps (mkPushView c s))|].
    unfold phase, auth_changed; cbn [pv_state pv_streamed].
    destruct lo; cbn [listener]; [constructor|]. destruct u as [usr|]; cbn [listener]; [|constructor].
    unfold userId; cbn [fs_currentUser]. apply push_steps_one. unfold owner_key. constructor.
  - destruct (listener c) as [p|] eqn:Hl.
    + assert (Hd : listener (deliver c) = Some p) by (unfold deliver; by rewrite Hl).
      unfold phase; cbn [pv_state pv_streamed]. rewrite Hd, Hl.
      rewrite (bool_decide_eq_true_2 _ (mk_is_Some _ p eq_refl)), orb_true_r.
      apply push_steps_one. destruct s; constructor.
    + assert (Hd : deliver c = c) by (unfold deliver; by rewrite Hl).
      unfold phase; cbn [pv_state pv_streamed]. rewrite Hd, Hl. constructor.
  - unfold phase, snapshot_error; cbn [pv_state pv_streamed].
    destruct (listener c) eqn:Hl; cbn [listener]; rewrite ?Hl; [|constructor].
    apply push_steps_one. destruct s; constructor.
  - rewrite (phase_same (mkPushView (commit now c) s) (mkPushView c s)); [constructor|by destruct c..].
  - unfold fs_addTask. rewrite phase_write. by destruct (listener c).
  - unfold fs_updateTask. rewrite phase_write. by destruct (listener c).
  - unfold fs_deleteTask. rewrite phase_write. by destruct (listener c).
Qed.

Lemma push_run_cons e es v : push_run (e :: es) v = push_run es (push_event e v).
Proof. done. Qed.

(** C25: the provider's subscription refines the push channel of spec
    section 4.3: along every sequence of its events (auth changes,
    deliveries, listener errors, commits, the view's writes), the phases
    of the provider follow the spec's state machine with the labels of
    the events: a delivery only while subscribed, carrying the listened
    collection's snapshot, a new subscription only after the old one is
    cancelled, an error back to [Disconnected]. *)
Theorem push_run_refines es v :
  push_steps (phase v) (run_labels es v) (phase (push_run es v)).
Proof.
  revert v; induction es as [|e es IH]; intros v; [constructor|].
  rewrite push_run_cons. cbn [run_labels].
  eapply push_steps_app; [apply push_event_refines|apply IH].
Qed.
