(* ===== verification/Async.v ===== *)
(** * The view's handlers with their [await]s split ([src/client/src/App.jsx])

    [handleAddTask], [handleToggleComplete], [handleSaveEdit] and
    [handleDeleteTask] call the store and [await] the promise; the code
    after the [await] runs when the promise settles, on the component's
    state as it is then.  Meanwhile the user can go on typing, clicking
    and submitting: nothing in the component is disabled while a call is
    pending.

    A handler is split in two: [start] runs it up to the [await] (the
    guard and the store call, whose effect on the provider's state is
    immediate, as Firestore applies a write to its local cache at once)
    and records the pending continuation with the call's outcome;
    [resume] is the code after the [await].  [AResolve n] settles the
    [n]-th pending promise, so promises settle in any order.  The atomic
    model of [TaskManager] is the case where each promise settles before
    the next event ([serialised_run_is_atomic]; [AsyncApp] lifts this to
    the application). *)
From S2P Require Import Prelude JsRuntime TaskBackend TaskManager Auth Firestore.

(** The code after an [await], by handler. *)
Inductive Continuation : Type := KAdd | KToggle | KSave | KDelete.

Record PendingCall : Type := mkPendingCall {
  p_kind : Continuation;
  p_result : outcome unit
}.

(** The [try] block after the [await], or the [catch] block. *)
Definition resume (k : Continuation) (r : outcome unit) (st : TaskManagerState) : TaskManagerState :=
  match k, r with
  | KAdd, Returns _ => showInfoModal "Task added successfully!" (setNewTaskTitle "" st)
  | KAdd, Throws m => showErrorModal ("Failed to add task: " +:+ m) st
  | KToggle, Returns _ => st
  | KToggle, Throws m => showErrorModal ("Failed to update task status: " +:+ m) st
  | KSave, Returns _ => showInfoModal "Task updated successfully!" (setEditing None "" st)
  | KSave, Throws m => showErrorModal ("Failed to update task: " +:+ m) st
  | KDelete, Returns _ => showInfoModal "Task deleted successfully!" st
  | KDelete, Throws m => showErrorModal ("Failed to delete task: " +:+ m) st
  end.

Section Async.
Context {S : Type} `{TaskBackend S}.

(** A handler up to its [await]: the guard, then the store call; events
    without a store call run to their end. *)
Definition start (e : UiEvent) (st : TaskManagerState) (s : S)
  : TaskManagerState * S * option PendingCall :=
  match e with
  | SubmitAdd =>
      if String.eqb (js_trim (newTaskTitle st)) "" then
        (showInfoModal "Task title cannot be empty." st, s, None)
      else let '(r, s') := addTask (newTaskTitle st) s in (st, s', Some (mkPendingCall KAdd r))
  | ClickToggle task =>
      let '(r, s') := updateTask (id task) (mkUpdates None (Some (negb (completed task)))) s in
      (st, s', Some (mkPendingCall KToggle r))
  | ClickSave i =>
      if String.eqb (js_trim (editingTaskTitle st)) "" then
        (showInfoModal "Task title cannot be empty." st, s, None)
      else let '(r, s') := updateTask i (mkUpdates (Some (editingTaskTitle st)) None) s in
           (st, s', Some (mkPendingCall KSave r))
  | ClickDelete i =>
      let '(r, s') := deleteTask i s in (st, s', Some (mkPendingCall KDelete r))
  | _ => let '(st', s') := dispatch e st s in (st', s', None)
  end.

Record AsyncView : Type := mkAsyncView {
  av_state : TaskManagerState;
  av_store : S;
  av_pending : list PendingCall      (** promises not yet settled, in call order *)
}.

Inductive AsyncEvent : Type :=
| AUi (e : UiEvent)      (** a user event *)
| AResolve (n : nat).    (** the [n]-th pending promise settles *)

Definition async_event (e : AsyncEvent) (a : AsyncView) : AsyncView :=
  match e with
  | AUi ev =>
      let '(st', s', p) := start ev (av_state a) (av_store a) in
      mkAsyncView st' s' (av_pending a ++ option_list p)
  | AResolve n =>
      match av_pending a !! n with
      | Some p => mkAsyncView (resume (p_kind p) (p_result p) (av_state a)) (av_store a)
                    (delete n (av_pending a))
      | None => a
      end
  end.

Definition async_run (es : list AsyncEvent) (a : AsyncView) : AsyncView :=
  fold_left (fun a e => async_event e a) es a.

(** ** The atomic model *)

(** Splitting a handler at its [await] is faithful: starting it and
    running its continuation at once, on the state it left, is the
    handler of the atomic model. *)
Lemma start_resume_dispatch e st s :
  let '(st', s', p) := start e st s in
  (match p with Some p => resume (p_kind p) (p_result p) st' | None => st' end, s') = dispatch e st s.
Proof.
  destruct e; cbn [start dispatch]; try (by destruct (dispatch _ _ _));
    unfold handleAddTask, handleToggleComplete, handleSaveEdit, handleDeleteTask;
    repeat case_match; simplify_eq; done.
Qed.

Lemma async_run_app es1 es2 a : async_run (es1 ++ es2) a = async_run es2 (async_run es1 a).
Proof. apply fold_left_app. Qed.

(** One event followed by the settlement of the promise it started, if
    any; with nothing pending [AResolve 0] does nothing. *)
Lemma async_event_settled e a :
  av_pending a = [] ->
  async_event (AResolve 0) (async_event (AUi e) a) =
    let '(st', s') := dispatch e (av_state a) (av_store a) in mkAsyncView st' s' [].
Proof.
  destruct a as [st s ps]; cbn [av_pending]; intros ->.
  pose proof (start_resume_dispatch e st s) as Hd.
  cbn [async_event av_state av_store av_pending].
  destruct (start e st s) as [[st1 s1] [p|]]; rewrite <-Hd; done.
Qed.

(** When every promise settles before the next user event, the
    interleaved model is the atomic one: a run of user events, each
    followed by the settlement of the call it started, ends in the state
    and store of [dispatch_all] with nothing pending. *)
Lemma serialised_run_is_atomic es st s :
  let '(st', s') := dispatch_all es st s in
  async_run (flat_map (fun e => [AUi e; AResolve 0]) es) (mkAsyncView st s []) =
    mkAsyncView st' s' [].
Proof.
  revert st s; induction es as [|e es IH]; intros st s; [done|].
  cbn [flat_map dispatch_all]. rewrite async_run_app.
  unfold async_run at 2; cbn [fold_left]. rewrite async_event_settled by done.
  cbn [av_state av_store]. destruct (dispatch e st s) as [st1 s1]. apply IH.
Qed.

(** ** Events that make no store call *)

(** The events whose handler never awaits: they run to their end. *)
Definition is_local_event (e : UiEvent) : bool :=
  match e with
  | SubmitAdd | ClickToggle _ | ClickSave _ | ClickDelete _ => false
  | _ => true
  end.

Lemma start_local e st s :
  is_local_event e = true -> start e st s = ((dispatch e st s).1, s, None).
Proof. by destruct e. Qed.

(** Local events leave the store and the pending promises alone and act
    on the component's state as in the atomic model. *)
Lemma async_run_local es a :
  forallb is_local_event es = true ->
  async_run (map AUi es) a =
    mkAsyncView (fold_left (fun st e => (dispatch e st (av_store a)).1) es (av_state a))
      (av_store a) (av_pending a).
Proof.
  revert a; induction es as [|e es IH]; intros [st s ps]; [done|].
  cbn [forallb]. rewrite andb_true_iff. intros [He Hes].
  unfold async_run; cbn [map fold_left async_event av_state av_store av_pending].
  rewrite (start_local _ _ _ He); cbn [option_list]. rewrite app_nil_r. by apply IH.
Qed.

(** A call started from an idle view and settled after local events: its
    continuation runs on the state those events left. *)
Lemma settle_after_local e es st s st' s' p :
  forallb is_local_event es = true ->
  start e st s = (st', s', Some p) ->
  async_run (AUi e :: map AUi es ++ [AResolve 0]) (mkAsyncView st s []) =
    mkAsyncView (resume (p_kind p) (p_result p)
                   (fold_left (fun st e => (dispatch e st s').1) es st')) s' [].
Proof.
  intros Hes Hs.
  unfold async_run; cbn [fold_left]. rewrite fold_left_app.
  cbn [async_event av_state av_store av_pending]. rewrite Hs. cbn [option_list app].
  fold (async_run (map AUi es) (mkAsyncView st' s' [p])).
  rewrite async_run_local by done. done.
Qed.

End Async.

(** ** Late settlement *)

Section Late.
Context {S : Type} `{TaskBackend S}.

(** C10: a title typed while an add is pending is erased when the add
    succeeds: [setNewTaskTitle('')] runs after the [await], on the draft
    as it is then, whatever local events came in between; the success
    message is shown and the store is the one the call left. *)
Theorem late_add_erases_draft st s s' u es :
  String.eqb (js_trim (newTaskTitle st)) "" = false ->
  addTask (newTaskTitle st) s = (Returns u, s') ->
  forallb is_local_event es = true ->
  let a := async_run (AUi SubmitAdd :: map AUi es ++ [AResolve 0]) (mkAsyncView st s []) in
  newTaskTitle (av_state a) = "" /\ modalMessage (av_state a) = "Task added successfully!" /\
  av_store a = s'.
Proof.
  intros Ht Ha Hes.
  cbn zeta. rewrite (settle_after_local SubmitAdd es st s st s' (mkPendingCall KAdd (Returns u))).
  - done.
  - done.
  - cbn [start]. by rewrite Ht, Ha.
Qed.

(** C11: an edit opened while a save is pending is closed, and its draft
    erased, when the save succeeds: [setEditingTaskId(null)] and
    [setEditingTaskTitle('')] run after the [await]. *)
Theorem late_save_closes_editor st s s' u i es :
  String.eqb (js_trim (editingTaskTitle st)) "" = false ->
  updateTask i (mkUpdates (Some (editingTaskTitle st)) None) s = (Returns u, s') ->
  forallb is_local_event es = true ->
  let a := async_run (AUi (ClickSave i) :: map AUi es ++ [AResolve 0]) (mkAsyncView st s []) in
  editingTaskId (av_state a) = None /\ editingTaskTitle (av_state a) = "" /\ av_store a = s'.
Proof.
  intros Ht Hu Hes.
  cbn zeta. rewrite (settle_after_local (ClickSave i) es st s st s' (mkPendingCall KSave (Returns u))).
  - done.
  - done.
  - cbn [start]. by rewrite Ht, Hu.
Qed.

End Late.

(** ** Double submission with the Firestore provider *)

Lemma doc_name_succ_ne n : doc_name n <> doc_name (N.succ n).
Proof. unfold doc_name. intros Heq. apply (inj (String.append "doc")), (inj pretty) in Heq. lia. Qed.

Lemma userId_set_db db c : userId (set_db db c) = userId c.
Proof. done. Qed.

Lemma userId_setFirestoreError e c : userId (setFirestoreError e c) = userId c.
Proof. done. Qed.

(** [addTask] of a signed-in provider whose writes succeed. *)
Lemma fs_addTask_signed_in t c u :
  fs_currentUser c = Some u -> fs_failure (fs_db c) = None ->
  fs_addTask t c =
    (Returns tt, set_db (mkFsDb (<[tasks_path (userId c) :=
                          <[doc_name (next_doc (fs_db c)) := mkDocData t false None (uid u)]>
                            (collection_docs (tasks_path (userId c)) (fs_db c))]> (collections (fs_db c)))
                        (N.succ (next_doc (fs_db c))) None) (setFirestoreError None c)).
Proof.
  intros Hu Hf. unfold fs_addTask, provider_write, add_write, addDoc. cbn [fs_currentUser setFirestoreError fs_db].
  by rewrite Hu, Hf.
Qed.

(** C9: with a signed-in Firestore provider whose writes succeed,
    submitting twice before the first [addTask] settles stores the title
    twice, under two ids, with both calls pending: the form stays enabled
    while the call is pending, and the title is cleared only after the
    [await]. *)
Theorem double_submit_adds_twice st c u :
  fs_currentUser c = Some u -> fs_failure (fs_db c) = None ->
  String.eqb (js_trim (newTaskTitle st)) "" = false ->
  let a := async_run [AUi SubmitAdd; AUi SubmitAdd] (mkAsyncView st c []) in
  let docs := collection_docs (tasks_path (userId c)) (fs_db (av_store a)) in
  let d := mkDocData (newTaskTitle st) false None (uid u) in
  docs !! doc_name (next_doc (fs_db c)) = Some d /\
  docs !! doc_name (N.succ (next_doc (fs_db c))) = Some d /\
  length (av_pending a) = 2.
Proof.
  intros Hu Hf Ht. cbn zeta. unfold async_run. cbn [fold_left async_event av_state av_store av_pending start].
  rewrite Ht. cbn [addTask firestore_backend]. rewrite (fs_addTask_signed_in _ _ u) by done.
  cbn [av_state av_store av_pending start]. rewrite Ht. cbn [addTask firestore_backend].
  rewrite (fs_addTask_signed_in _ _ u) by done.
  rewrite !userId_set_db, !userId_setFirestoreError.
  unfold collection_docs. cbn [av_store av_pending fs_db set_db collections next_doc].
  rewrite !lookup_insert_eq. cbn [default Datatypes.id length option_list app].
  split_and!; [|apply lookup_insert_eq|done].
  rewrite lookup_insert_ne by apply not_eq_sym, doc_name_succ_ne. apply lookup_insert_eq.
Qed.

(** ** Witnesses *)

Import ViewDemo FsDemo.

Definition drafting : TaskManagerState := setNewTaskTitle "Buy milk" initialState.

Lemma late_add_erases_draft_witness :
  let a := async_run (AUi SubmitAdd :: map AUi [TypeNewTitle "Call mom"] ++ [AResolve 0])
             (mkAsyncView drafting ts0 []) in
  newTaskTitle (av_state a) = "" /\ modalMessage (av_state a) = "Task added successfully!" /\
  av_store a = ts0 ++ [mkTaskDoc "new" "Buy milk" false None "u"].
Proof.
  apply late_add_erases_draft with (u := tt); vm_compute; reflexivity.
Defined.

Lemma late_save_closes_editor_witness :
  let st := setEditing (Some "a") "Walk the dog" initialState in
  let a := async_run (AUi (ClickSave "a") :: map AUi [ClickEdit buy; TypeEditTitle "buy bread"] ++ [AResolve 0])
             (mkAsyncView st ts0 []) in
  editingTaskId (av_state a) = None /\ editingTaskTitle (av_state a) = "" /\
  av_store a = (mem_update "a" (mkUpdates (Some "Walk the dog") None) ts0).2.
Proof.
  apply late_save_closes_editor with (u := tt); vm_compute; reflexivity.
Defined.

Lemma double_submit_adds_twice_witness :
  let a := async_run [AUi SubmitAdd; AUi SubmitAdd] (mkAsyncView drafting ada_state []) in
  let docs := collection_docs (tasks_path (userId ada_state)) (fs_db (av_store a)) in
  let d := mkDocData "Buy milk" false None (uid ada) in
  docs !! doc_name (next_doc (fs_db ada_state)) = Some d /\
  docs !! doc_name (N.succ (next_doc (fs_db ada_state))) = Some d /\
  length (av_pending a) = 2.
Proof.
  apply (double_submit_adds_twice drafting ada_state ada); vm_compute; reflexivity.
Defined.
