(* ===== verification/App.v ===== *)
(** * The application ([App] and [AuthScreen] in [src/client/src/App.jsx])

    [App] reads [currentUser] and [loadingAuth] from the auth context and
    renders a loading message, the [AuthScreen] or the [TaskManager]; the
    [FirestoreProvider] reads the same context, so its [currentUser] is
    the auth provider's, and its effect re-subscribes when [currentUser]
    or [loadingAuth] changes.  A component that is mounted anew starts
    from its initial state.

    [AppWorld] composes the auth world ([Auth]), the Firestore provider
    ([Firestore]), the [AuthScreen]'s state and the [TaskManager]'s state
    ([TaskManager]).  [app_event] is one event: an observer call of
    Firebase Auth, an event of the screen shown, or an event of the push
    channel.  Events of a screen that is not shown are ignored. *)
From S2P Require Import Prelude Utf8 JsRuntime TaskBackend TaskManager Auth Firestore.

(** ** What [App] renders *)

Inductive Screen : Type := LoadingScreen | AuthScreenView | TaskManagerView.

#[export] Instance Screen_eq_dec : EqDecision Screen.
Proof. solve_decision. Defined.

(** [loadingAuth] first, then [currentUser && currentUser.uid]. *)
Definition render (p : AuthProvider) : Screen :=
  if loadingAuth p then LoadingScreen
  else match currentUser p with
       | Some u => if String.eqb (uid u) "" then AuthScreenView else TaskManagerView
       | None => AuthScreenView
       end.

(** ** [AuthScreen] *)

Record AuthScreenState : Type := mkAuthScreenState {
  email : string;
  password : string;
  isRegistering : bool;
  message : string
}.

Definition authScreenInitial : AuthScreenState := mkAuthScreenState "" "" false "".

Definition setMessage (m : string) (s : AuthScreenState) : AuthScreenState :=
  mkAuthScreenState (email s) (password s) (isRegistering s) m.

(** [handleSubmit]: clear the message, register or log in, report
    success; a failure is left to [authError]. *)
Definition handleSubmit (s : AuthScreenState) (w : AuthWorld) : AuthScreenState * AuthWorld :=
  let s := setMessage "" s in
  if isRegistering s then
    match register (email s) (password s) w with
    | (Returns _, w') => (setMessage "Registration successful! You are now logged in." s, w')
    | (Throws _, w') => (s, w')
    end
  else
    match login (email s) (password s) w with
    | (Returns _, w') => (setMessage "Login successful!" s, w')
    | (Throws _, w') => (s, w')
    end.

Inductive AuthScreenEvent : Type :=
| TypeEmail (v : string)
| TypePassword (v : string)
| ToggleRegistering
| Submit.

Definition auth_screen_event (e : AuthScreenEvent) (s : AuthScreenState) (w : AuthWorld)
  : AuthScreenState * AuthWorld :=
  match e with
  | TypeEmail v => (mkAuthScreenState v (password s) (isRegistering s) (message s), w)
  | TypePassword v => (mkAuthScreenState (email s) v (isRegistering s) (message s), w)
  | ToggleRegistering => (mkAuthScreenState (email s) (password s) (negb (isRegistering s)) (message s), w)
  | Submit => handleSubmit s w
  end.

(** ** The composed application *)

Record AppWorld : Type := mkAppWorld {
  aw_auth : AuthWorld;
  aw_store : FirestoreState;
  aw_screen : AuthScreenState;
  aw_view : TaskManagerState
}.

Definition app_screen (a : AppWorld) : Screen := render (provider (aw_auth a)).

(** The provider's effect runs again when [currentUser] or [loadingAuth]
    changed. *)
Definition sync_auth (w w' : AuthWorld) (c : FirestoreState) : FirestoreState :=
  let p := provider w' in
  if decide (currentUser p = currentUser (provider w) /\ loadingAuth p = loadingAuth (provider w))
  then c else auth_changed (currentUser p) (loadingAuth p) c.

(** A screen shown anew is mounted with its initial state. *)
Definition remount (old : Screen) (a : AppWorld) : AppWorld :=
  if decide (app_screen a = old) then a
  else match app_screen a with
       | AuthScreenView => mkAppWorld (aw_auth a) (aw_store a) authScreenInitial (aw_view a)
       | TaskManagerView => mkAppWorld (aw_auth a) (aw_store a) (aw_screen a) initialState
       | LoadingScreen => a
       end.

(** The auth world becomes [w']; the store and the screen follow. *)
Definition auth_update (w' : AuthWorld) (a : AppWorld) : AppWorld :=
  remount (app_screen a)
    (mkAppWorld w' (sync_auth (aw_auth a) w' (aw_store a)) (aw_screen a) (aw_view a)).

Inductive PushEvent : Type :=
| PDeliver
| PError (m : string)
| PCommit (now : Timestamp).

Definition push_sync (e : PushEvent) : SyncEvent :=
  match e with PDeliver => Deliver | PError m => SnapshotError m | PCommit now => Commit now end.

Inductive AppEvent : Type :=
| ObserverCall                        (** Firebase calls the [onAuthStateChanged] observer *)
| AuthScreenEv (e : AuthScreenEvent)  (** an event of the [AuthScreen] *)
| ViewEv (e : UiEvent)                (** an event of the [TaskManager] *)
| LogoutClick                         (** the [TaskManager]'s Logout button *)
| PushEv (e : PushEvent).             (** the listener or the server *)

Definition app_event (e : AppEvent) (a : AppWorld) : AppWorld :=
  let w := aw_auth a in
  match e with
  | ObserverCall =>
      match observer_queue w with
      | u :: rest => auth_update (onAuthStateChangedCallback u (mkAuthWorld (provider w) (firebase w) rest)) a
      | [] => a
      end
  | AuthScreenEv ev =>
      if decide (app_screen a = AuthScreenView) then
        let '(s', w') := auth_screen_event ev (aw_screen a) w in
        auth_update w' (mkAppWorld w (aw_store a) s' (aw_view a))
      else a
  | ViewEv ev =>
      if decide (app_screen a = TaskManagerView) then
        let '(st', c') := dispatch ev (aw_view a) (aw_store a) in
        mkAppWorld w c' (aw_screen a) st'
      else a
  | LogoutClick =>
      if decide (app_screen a = TaskManagerView) then auth_update (snd (logout w)) a else a
  | PushEv p => mkAppWorld w (sync (push_sync p) (aw_store a)) (aw_screen a) (aw_view a)
  end.

Definition app_run (es : list AppEvent) (a : AppWorld) : AppWorld :=
  fold_left (fun a e => app_event e a) es a.

(** The page loads: the auth provider is loading, the store provider has
    no tasks and no listener. *)
Definition app_init (fb : FirebaseAuth) (db : FsDb) : AppWorld :=
  mkAppWorld (auth_init fb) (mkFirestoreState None true [] None None db) authScreenInitial initialState.

(** The store provider sees the auth provider's user, and its own
    invariants hold. *)
Definition app_ok (a : AppWorld) : Prop :=
  fs_currentUser (aw_store a) = currentUser (provider (aw_auth a)) /\
  fs_loadingAuth (aw_store a) = loadingAuth (provider (aw_auth a)) /\
  listener_ok (aw_store a) /\ store_owned (fs_db (aw_store a)).

(** ** Lemmas on the composition *)

(** The view changes the store only through one of the provider's writes. *)
Lemma dispatch_store e st c :
  let '(st', c') := dispatch e st c in
  c' = c \/ exists fe, is_auth_change fe = false /\ c' = fs_event fe c.
Proof.
  destruct e; cbn [dispatch]; try (by left);
    unfold handleAddTask, handleToggleComplete, handleSaveEdit, handleDeleteTask;
    repeat case_match; simplify_eq; try (by left); right.
  all: match goal with
       | H : addTask ?t _ = _ |- _ => exists (Add t)
       | H : updateTask ?i ?u _ = _ |- _ => exists (Update i u)
       | H : deleteTask ?i _ = _ |- _ => exists (Delete i)
       end; split; [done|]; cbn [fs_event];
    match goal with H : _ = (_, _) |- _ => cbn [addTask updateTask deleteTask firestore_backend] in H;
      by rewrite H end.
Qed.

Lemma remount_auth_store s a :
  aw_auth (remount s a) = aw_auth a /\ aw_store (remount s a) = aw_store a.
Proof. unfold remount. case_decide; [done|]. by case_match. Qed.

Lemma auth_update_auth w' a : aw_auth (auth_update w' a) = w'.
Proof. apply remount_auth_store. Qed.

Lemma auth_update_ok w' a : app_ok a -> app_ok (auth_update w' a).
Proof.
  intros (Hu & Hl & Hli & Ho). unfold app_ok, auth_update.
  rewrite !(proj1 (remount_auth_store _ _)), !(proj2 (remount_auth_store _ _)). cbn.
  unfold sync_auth. case_decide as Hd.
  - destruct Hd as [Hdu Hdl]. by rewrite Hdu, Hdl.
  - destruct (auth_changed_ok (currentUser (provider w')) (loadingAuth (provider w')) (aw_store a))
      as (-> & -> & ? & ->). done.
Qed.

Lemma fs_event_app_ok fe a :
  is_auth_change fe = false -> app_ok a ->
  app_ok (mkAppWorld (aw_auth a) (fs_event fe (aw_store a)) (aw_screen a) (aw_view a)).
Proof.
  intros He (Hu & Hl & Hli & Ho). unfold app_ok. cbn [aw_store aw_auth].
  destruct (fs_event_auth_view fe (aw_store a) He) as [-> ->].
  destruct (fs_event_preserves_invariants fe (aw_store a) Hli Ho). done.
Qed.

(** Every event keeps the composition coherent. *)
Lemma app_event_ok e a : app_ok a -> app_ok (app_event e a).
Proof.
  intros Ha. destruct e as [|ev|ev| |p]; cbn [app_event].
  - destruct (observer_queue _); [done|]. by apply auth_update_ok.
  - case_decide; [|done]. destruct (auth_screen_event _ _ _). by apply auth_update_ok.
  - case_decide; [|done]. pose proof (dispatch_store ev (aw_view a) (aw_store a)) as Hd.
    destruct (dispatch _ _ _) as [st' c']. destruct Hd as [->|(fe & He & ->)].
    + by destruct Ha.
    + by apply (fs_event_app_ok fe (mkAppWorld (aw_auth a) (aw_store a) (aw_screen a) st')).
  - case_decide; [|done]. by apply auth_update_ok.
  - by apply (fs_event_app_ok (Sync (push_sync p))); [destruct p|].
Qed.

(** An invariant of every event holds along every run. *)
Lemma app_run_invariant (P : AppWorld -> Prop) :
  (forall e a, P a -> P (app_event e a)) -> forall es a, P a -> P (app_run es a).
Proof.
  intros Hstep es. unfold app_run. induction es as [|e es IH]; intros a Ha; [done|].
  cbn. apply IH, Hstep, Ha.
Qed.

Lemma app_init_ok fb db : store_owned db -> app_ok (app_init fb db).
Proof. intros Hdb. unfold app_ok. by split_and!. Qed.

(** ** The composition is coherent *)

(** From the page load on, whatever the events (observer calls,
    sign-in and registration, the view's writes, logout, snapshots,
    listener errors, server commits), the store provider sees the same
    user and loading flag as the auth provider, a live listener is on the
    signed-in user's collection, and every stored document is in its
    owner's collection. *)
Lemma app_run_ok fb db es :
  store_owned db -> app_ok (app_run es (app_init fb db)).
Proof. intros Hdb. apply app_run_invariant; [apply app_event_ok|by apply app_init_ok]. Qed.

Lemma handleSubmit_step s w : auth_step w (snd (handleSubmit s w)).
Proof.
  unfold handleSubmit. cbn [isRegistering setMessage email password].
  destruct (isRegistering s).
  - destruct (register _ _ w) as [[] w'] eqn:E; cbn [snd];
      (replace w' with (snd (register (email s) (password s) w)) by (by rewrite E)); constructor.
  - destruct (login _ _ w) as [[] w'] eqn:E; cbn [snd];
      (replace w' with (snd (login (email s) (password s) w)) by (by rewrite E)); constructor.
Qed.

(** An event leaves the auth world as it is or takes one auth step. *)
Lemma app_event_auth e a :
  aw_auth (app_event e a) = aw_auth a \/ auth_step (aw_auth a) (aw_auth (app_event e a)).
Proof.
  destruct e as [|ev|ev| |p]; cbn [app_event]; try (case_decide; [|by left]).
  - destruct (observer_queue _) as [|u rest] eqn:Hq; [by left|]. right.
    rewrite auth_update_auth. by constructor.
  - destruct ev; cbn [auth_screen_event]; rewrite ?auth_update_auth; [by left..|].
    pose proof (handleSubmit_step (aw_screen a) (aw_auth a)) as Hs.
    destruct (handleSubmit _ _). rewrite auth_update_auth. by right.
  - destruct (dispatch _ _ _). by left.
  - rewrite auth_update_auth. right. constructor.
  - by left.
Qed.

(** After a step, the [TaskManager] that was shown is still shown. *)
Lemma render_step w w' :
  auth_step w w' -> auth_uids_ok w -> render (provider w) = TaskManagerView ->
  render (provider w') = TaskManagerView.
Proof.
  intros Hs Hok. unfold render.
  destruct (loadingAuth (provider w)) eqn:Hl; [done|].
  destruct (currentUser (provider w)) as [u|] eqn:Hu; [|done]. intros _.
  rewrite (loading_never_restarts w w' Hs Hl).
  destruct (current_user_never_cleared w w' Hs (mk_is_Some _ _ Hu)) as [u' Hu'].
  destruct (auth_step_uids_ok w w' Hs Hok) as (_ & _ & Hok'). rewrite Hu' in Hok' |- *.
  cbn in Hok'. by destruct (String.eqb_spec (uid u') "").
Qed.

(** An event keeps the [TaskManager] shown, and every uid non-empty. *)
Lemma app_event_keeps_task_manager e a :
  auth_uids_ok (aw_auth a) -> app_screen a = TaskManagerView ->
  auth_uids_ok (aw_auth (app_event e a)) /\ app_screen (app_event e a) = TaskManagerView.
Proof.
  intros Hok Hs. unfold app_screen in *.
  destruct (app_event_auth e a) as [->|Hstep]; [done|].
  split; [by eapply auth_step_uids_ok|by eapply render_step].
Qed.

(** ** Once signed in, the login screen is never shown again *)

(** C8: when every uid is non-empty, once [App] shows the [TaskManager]
    it shows it after every later sequence of events, logout included:
    [currentUser] is never cleared and loading never restarts, so the
    [AuthScreen] cannot be reached again without reloading the page. *)
Theorem task_manager_persists a es :
  auth_uids_ok (aw_auth a) -> app_screen a = TaskManagerView ->
  app_screen (app_run es a) = TaskManagerView.
Proof.
  intros Hok Hs.
  apply (app_run_invariant (fun a => auth_uids_ok (aw_auth a) /\ app_screen a = TaskManagerView));
    [|done].
  intros e a' [Hok' Hs']. by apply app_event_keeps_task_manager.
Qed.

(** ** Adding a task in the application *)

(** C19: in a coherent application that shows the [TaskManager] for user
    [u], submitting a title that is not blank either stores a new
    document with that title, not completed, with a pending timestamp and
    owned by [u], in [u]'s collection, and says so; or, when Firestore
    rejects the write, leaves the database as it was and shows the error.
    The unauthenticated path of the provider, which reports success
    without writing, is never taken. *)
Theorem app_submit_add a u :
  app_ok a -> app_screen a = TaskManagerView -> currentUser (provider (aw_auth a)) = Some u ->
  all_space (newTaskTitle (aw_view a)) = false ->
  let c := aw_store a in
  let a' := app_event (ViewEv SubmitAdd) a in
  match fs_failure (fs_db c) with
  | None =>
      collection_docs (tasks_path (owner_key (uid u))) (fs_db (aw_store a'))
        !! doc_name (next_doc (fs_db c)) = Some (mkDocData (newTaskTitle (aw_view a)) false None (uid u)) /\
      modalMessage (aw_view a') = "Task added successfully!" /\ newTaskTitle (aw_view a') = ""
  | Some m =>
      fs_db (aw_store a') = fs_db c /\ modalType (aw_view a') = ModalError /\
      modalMessage (aw_view a') = "Failed to add task: " +:+ m
  end.
Proof.
  intros (Hu & _ & _ & _) Hs Hcu Hb c a'. subst a'. cbn [app_event]. rewrite decide_True by done.
  cbn [dispatch]. unfold handleAddTask. rewrite blank_iff_all_space, Hb.
  cbn [addTask firestore_backend]. unfold fs_addTask, provider_write, add_write.
  cbn [fs_currentUser setFirestoreError]. rewrite Hu, Hcu. unfold addDoc.
  cbn [fs_db setFirestoreError]. subst c. destruct (fs_failure (fs_db (aw_store a))); [done|].
  cbn. rewrite (userId_owner_key (setFirestoreError None (aw_store a)) u) by (cbn; congruence).
  unfold collection_docs at 1. cbn. rewrite lookup_insert_eq. cbn. split_and!; [apply lookup_insert_eq|done..].
Qed.

(** ** The other intents of the view in the application *)

Lemma app_view_event e a :
  app_screen a = TaskManagerView ->
  app_event (ViewEv e) a =
    let '(st', c') := dispatch e (aw_view a) (aw_store a) in mkAppWorld (aw_auth a) c' (aw_screen a) st'.
Proof. intros Hs. cbn [app_event]. by rewrite decide_True. Qed.

(** C22: a title made only of JavaScript white space (spaces, tabs, line
    breaks, no-break and ideographic spaces, ...) is refused before any
    store call, for a new task and for an edit: the application changes
    only by the information modal "Task title cannot be empty.", and the
    store provider (database, error, listener, shown tasks) is left as it
    was. *)
Theorem app_blank_title_refused a i :
  app_screen a = TaskManagerView ->
  (all_space (newTaskTitle (aw_view a)) = true ->
   app_event (ViewEv SubmitAdd) a =
     mkAppWorld (aw_auth a) (aw_store a) (aw_screen a)
       (showInfoModal "Task title cannot be empty." (aw_view a))) /\
  (all_space (editingTaskTitle (aw_view a)) = true ->
   app_event (ViewEv (ClickSave i)) a =
     mkAppWorld (aw_auth a) (aw_store a) (aw_screen a)
       (showInfoModal "Task title cannot be empty." (aw_view a))).
Proof.
  intros Hs. rewrite !app_view_event by done.
  destruct (blank_title_refused_locally (aw_view a) (aw_store a) i) as [Hadd Hsave].
  split; intros Hb; [rewrite (Hadd Hb)|rewrite (Hsave Hb)]; done.
Qed.

(** C20: toggling a task of the signed-in user [u] updates the document
    of that id in [u]'s collection to the negation of the flag the row
    showed (not of the stored one), keeping its title, creation time and
    owner, and the view is left as it was; when the write fails, because
    Firestore rejects it or no document has that id, the database is
    unchanged and the error modal says so. *)
Theorem app_toggle_complete a u task :
  app_ok a -> app_screen a = TaskManagerView -> currentUser (provider (aw_auth a)) = Some u ->
  let p := tasks_path (owner_key (uid u)) in
  let db := fs_db (aw_store a) in
  let a' := app_event (ViewEv (ClickToggle task)) a in
  match fs_failure db, collection_docs p db !! id task with
  | None, Some d =>
      collection_docs p (fs_db (aw_store a')) =
        <[id task := mkDocData (d_title d) (negb (completed task)) (d_createdAt d) (d_userId d)]>
          (collection_docs p db) /\
      aw_view a' = aw_view a
  | _, _ =>
      fs_db (aw_store a') = db /\ modalType (aw_view a') = ModalError /\
      exists m, modalMessage (aw_view a') = "Failed to update task status: " +:+ m
  end.
Proof.
  intros (Hu & _) Hs Hcu p db a'. subst a'. rewrite app_view_event by done.
  cbn [dispatch]. unfold handleToggleComplete. cbn [updateTask firestore_backend].
  unfold fs_updateTask. rewrite (provider_write_signed_in _ _ u) by congruence.
  unfold updateDoc. subst p db. destruct (fs_failure _) as [m|].
  { cbn [aw_store aw_view fs_db modalType modalMessage showErrorModal]. split_and!; [by destruct (aw_store a)|done|by eexists]. }
  destruct (_ !! id task) as [d|].
  - cbn [aw_store aw_view fs_db set_db]. by rewrite collection_docs_put.
  - cbn [aw_store aw_view fs_db modalType modalMessage showErrorModal]. split_and!; [by destruct (aw_store a)|done|by eexists].
Qed.

(** C21: deleting an id as the signed-in user [u] removes it from [u]'s
    collection, leaves the collection otherwise as it was, and shows
    "Task deleted successfully!", also when no document has that id (so
    a second delete of the same task succeeds again, where the spec asks
    for NotFound); when Firestore rejects the write, the database is
    unchanged and the error modal shows Firestore's message. *)
Theorem app_delete_task a u i :
  app_ok a -> app_screen a = TaskManagerView -> currentUser (provider (aw_auth a)) = Some u ->
  let p := tasks_path (owner_key (uid u)) in
  let db := fs_db (aw_store a) in
  let a' := app_event (ViewEv (ClickDelete i)) a in
  match fs_failure db with
  | None =>
      collection_docs p (fs_db (aw_store a')) = delete i (collection_docs p db) /\
      modalType (aw_view a') = ModalInfo /\ modalMessage (aw_view a') = "Task deleted successfully!"
  | Some m =>
      fs_db (aw_store a') = db /\ modalType (aw_view a') = ModalError /\
      modalMessage (aw_view a') = "Failed to delete task: " +:+ m
  end.
Proof.
  intros (Hu & _) Hs Hcu p db a'. subst a'. rewrite app_view_event by done.
  cbn [dispatch]. unfold handleDeleteTask. cbn [deleteTask firestore_backend].
  unfold fs_deleteTask. rewrite (provider_write_signed_in _ _ u) by congruence.
  unfold deleteDoc. subst p db. destruct (fs_failure _) as [m|].
  - cbn [aw_store aw_view fs_db modalType modalMessage showErrorModal]. split_and!; [by destruct (aw_store a)|done..].
  - cbn [aw_store aw_view fs_db set_db modalType modalMessage showInfoModal]. by rewrite collection_docs_put.
Qed.

Lemma fresh_uid_eqb fb : String.eqb (fresh_uid fb) "" = false.
Proof. apply String.eqb_neq, fresh_uid_ok. Qed.

Lemma render_authError cu lo e e' :
  render (mkAuthProvider cu lo e) = render (mkAuthProvider cu lo e').
Proof. done. Qed.

(** An auth change that keeps the user and the loading flag changes
    neither the store provider nor the screens. *)
Lemma auth_update_quiet w' a :
  currentUser (provider w') = currentUser (provider (aw_auth a)) ->
  loadingAuth (provider w') = loadingAuth (provider (aw_auth a)) ->
  auth_update w' a = mkAppWorld w' (aw_store a) (aw_screen a) (aw_view a).
Proof.
  intros Hu Hl. unfold auth_update, sync_auth. rewrite decide_True by done.
  unfold remount, app_screen. cbn [aw_auth]. unfold render. rewrite Hu, Hl.
  by rewrite decide_True.
Qed.

(** An auth change that changes the user re-runs the provider's effect. *)
Lemma auth_update_store w' a :
  currentUser (provider w') <> currentUser (provider (aw_auth a)) ->
  aw_store (auth_update w' a) = auth_changed (currentUser (provider w')) (loadingAuth (provider w')) (aw_store a).
Proof.
  intros Hu. unfold auth_update. rewrite (proj2 (remount_auth_store _ _)). cbn [aw_store].
  unfold sync_auth. rewrite decide_False by tauto. done.
Qed.

Lemma remount_view_task_manager old a :
  old <> TaskManagerView -> app_screen a = TaskManagerView -> aw_view (remount old a) = initialState.
Proof. intros Hold Hs. unfold remount. rewrite Hs, decide_False by congruence. done. Qed.

(** Registering a new address: Firebase signs the new user in and the
    observer will be called with that user. *)
Lemma register_fresh e pw w :
  accounts (firebase w) !! e = None -> 6 <= String.length pw -> fb_user (firebase w) = None ->
  let u := mkUser (fresh_uid (firebase w)) (Some e) false in
  register e pw w = (Returns tt,
    mkAuthWorld (mkAuthProvider (currentUser (provider w)) (loadingAuth (provider w)) None)
      (mkFirebaseAuth (Some u) (<[e := mkAccount pw (fresh_uid (firebase w))]> (accounts (firebase w)))
         (N.succ (next_uid (firebase w))) (anonymous_enabled (firebase w)) (initial_auth_token (firebase w)))
      (observer_queue w ++ [Some u])).
Proof.
  intros Hacc Hlen Hfb u. unfold register, auth_call, createUserWithEmailAndPassword.
  cbn [firebase setAuthError set_provider]. rewrite Hacc.
  replace (String.length pw <? 6) with false by (symmetry; apply Nat.ltb_ge; lia).
  unfold fb_commit. cbn [fb_user firebase setAuthError set_provider]. rewrite Hfb, decide_False by done. done.
Qed.

(** ** Signing in on the [AuthScreen] *)

(** The [AuthScreen] is shown only once auth has loaded, and never for a
    user with a non-empty uid. *)
Lemma auth_screen_shown a :
  app_screen a = AuthScreenView ->
  loadingAuth (provider (aw_auth a)) = false /\
  forall u, String.eqb (uid u) "" = false -> currentUser (provider (aw_auth a)) <> Some u.
Proof.
  unfold app_screen, render. intros Hs. destruct (loadingAuth _); [done|]. split; [done|].
  intros u Hu Hcu. rewrite Hcu, Hu in Hs. done.
Qed.

(** Submitting the registration form: the message is set and, as the
    user and the loading flag do not change yet, nothing else follows. *)
Lemma app_submit_register a :
  app_screen a = AuthScreenView -> isRegistering (aw_screen a) = true ->
  fst (register (email (aw_screen a)) (password (aw_screen a)) (aw_auth a)) = Returns tt ->
  let w' := snd (register (email (aw_screen a)) (password (aw_screen a)) (aw_auth a)) in
  currentUser (provider w') = currentUser (provider (aw_auth a)) ->
  loadingAuth (provider w') = loadingAuth (provider (aw_auth a)) ->
  app_event (AuthScreenEv Submit) a =
    mkAppWorld w' (aw_store a)
      (setMessage "Registration successful! You are now logged in." (setMessage "" (aw_screen a)))
      (aw_view a).
Proof.
  intros Hs Hr. destruct (register (email (aw_screen a)) (password (aw_screen a)) (aw_auth a))
    as [o w'] eqn:E. cbn [fst snd]. intros -> Hu Hl.
  cbn [app_event]. rewrite decide_True by done.
  unfold auth_screen_event, handleSubmit. cbn [setMessage isRegistering email password].
  rewrite Hr. cbn [email password]. rewrite E.
  by rewrite auth_update_quiet.
Qed.

(** C23: registering on the [AuthScreen] with a new e-mail address and a
    password of at least six characters reports success; the observer
    call that follows shows the [TaskManager], fresh, for the new user,
    and the store provider listens to the new user's collection. *)
Theorem register_shows_task_manager a :
  app_screen a = AuthScreenView -> observer_queue (aw_auth a) = [] ->
  fb_user (firebase (aw_auth a)) = None -> isRegistering (aw_screen a) = true ->
  accounts (firebase (aw_auth a)) !! email (aw_screen a) = None ->
  6 <= String.length (password (aw_screen a)) ->
  let u := mkUser (fresh_uid (firebase (aw_auth a))) (Some (email (aw_screen a))) false in
  let a1 := app_event (AuthScreenEv Submit) a in
  let a2 := app_event ObserverCall a1 in
  message (aw_screen a1) = "Registration successful! You are now logged in." /\
  app_screen a2 = TaskManagerView /\ currentUser (provider (aw_auth a2)) = Some u /\
  listener (aw_store a2) = Some (tasks_path (uid u)) /\ aw_view a2 = initialState.
Proof.
  intros Hs Hq Hfb Hr Hacc Hlen u a1 a2.
  pose proof (register_fresh _ _ _ Hacc Hlen Hfb) as Hreg. cbv zeta in Hreg.
  destruct (auth_screen_shown a Hs) as [Hl Hu]. specialize (Hu u (fresh_uid_eqb _)). subst u.
  assert (Ha1 := app_submit_register a Hs Hr). rewrite Hreg in Ha1. cbv zeta in Ha1.
  rewrite Hl in Ha1. specialize (Ha1 eq_refl eq_refl eq_refl). fold a1 in Ha1.
  subst a2. rewrite Ha1. cbn [app_event aw_auth observer_queue snd]. rewrite Hq. cbn [app].
  match goal with |- context [auth_update (onAuthStateChangedCallback ?x ?w) _] =>
    set (w2 := onAuthStateChangedCallback x w) end.
  assert (Hs2 : render (provider w2) = TaskManagerView).
  { subst w2. unfold onAuthStateChangedCallback. cbn. by rewrite fresh_uid_eqb. }
  split_and!.
  - done.
  - unfold app_screen. by rewrite auth_update_auth.
  - by rewrite auth_update_auth.
  - rewrite auth_update_store by (cbn; congruence). cbn. by rewrite fresh_uid_eqb.
  - assert (Hold : render (mkAuthProvider (currentUser (provider (aw_auth a))) false None) = AuthScreenView).
    { rewrite <- Hs. unfold app_screen, render. cbn. by rewrite Hl. }
    unfold auth_update. apply remount_view_task_manager; [|exact Hs2].
    unfold app_screen. cbn [aw_auth provider]. by rewrite Hold.
Qed.

(** A failed login on the [AuthScreen] is recorded: [authError] holds
    Firebase's message, the success message is cleared, the screen, the
    store provider and Firebase's state are unchanged. *)
Lemma login_failure_reported a m :
  app_screen a = AuthScreenView -> isRegistering (aw_screen a) = false ->
  signInWithEmailAndPassword (email (aw_screen a)) (password (aw_screen a)) (firebase (aw_auth a)) = Throws m ->
  let a1 := app_event (AuthScreenEv Submit) a in
  authError (provider (aw_auth a1)) = Some m /\ message (aw_screen a1) = "" /\
  app_screen a1 = AuthScreenView /\ aw_store a1 = aw_store a /\ firebase (aw_auth a1) = firebase (aw_auth a) /\
  aw_screen a1 = setMessage "" (aw_screen a).
Proof.
  intros Hs Hr Hf a1. subst a1. cbn [app_event]. rewrite decide_True by done.
  unfold auth_screen_event, handleSubmit. cbn [setMessage isRegistering email password].
  rewrite Hr. cbn [email password]. unfold login, auth_call. cbn [setAuthError set_provider firebase].
  rewrite Hf. cbn [snd]. rewrite auth_update_quiet by done. by split_and!.
Qed.

(** ** A session *)

Module Session.

(** One account; anonymous sign-in is disabled and no token is injected. *)
Definition fb0 : FirebaseAuth :=
  mkFirebaseAuth None {["ada@example.com" := mkAccount "secret1" "uid-ada"]} 0 false None.

Definition db0 : FsDb := mkFsDb ∅ 0 None.

(** The page loads, the anonymous sign-in fails, Ada logs in on the
    [AuthScreen] and the observer reports her. *)
Definition login_events : list AppEvent :=
  [ObserverCall; AuthScreenEv (TypeEmail "ada@example.com");
   AuthScreenEv (TypePassword "secret1"); AuthScreenEv Submit; ObserverCall].

Definition signed_in : AppWorld := app_run login_events (app_init fb0 db0).

End Session.
Import Session.

Lemma task_manager_persists_witness :
  app_screen (app_run [LogoutClick; ObserverCall] signed_in) = TaskManagerView.
Proof.
  apply task_manager_persists.
  - apply (bool_decide_unpack (auth_uids_ok (aw_auth signed_in))). vm_compute. exact I.
  - vm_compute. reflexivity.
Defined.

Module Scenario.

Definition ada : User := mkUser "uid-ada" (Some "ada@example.com") false.

(** Ada types a title. *)
Definition drafted : AppWorld := app_run [ViewEv (TypeNewTitle "Buy milk")] signed_in.

Definition milk_doc : TaskDoc := mkTaskDoc "doc0" "Buy milk" false None "uid-ada".

Definition t1 : Timestamp := mkTimestamp 1700000000 0.

(** She adds it, sees it, starts an edit and cancels it; then edits it
    and saves; the server commits; she logs out and the observer is
    called. *)
Definition session_events : list AppEvent :=
  [ViewEv SubmitAdd; PushEv PDeliver;
   ViewEv (ClickEdit milk_doc); ViewEv (TypeEditTitle "Buy bread"); ViewEv ClickCancel;
   PushEv PDeliver].

Definition session_events2 : list AppEvent :=
  [ViewEv (ClickEdit milk_doc); ViewEv (TypeEditTitle "Buy bread"); ViewEv (ClickSave "doc0");
   PushEv (PCommit t1); PushEv PDeliver; LogoutClick; ObserverCall].

End Scenario.
Import Scenario.

Lemma drafted_ok : app_ok drafted.
Proof.
  unfold drafted, signed_in.
  apply app_run_invariant; [apply app_event_ok|].
  apply app_run_invariant; [apply app_event_ok|]. apply app_init_ok.
  intros v m i d. cbn. by rewrite lookup_empty.
Qed.

Lemma app_submit_add_witness :
  collection_docs (tasks_path (owner_key (uid ada))) (fs_db (aw_store (app_event (ViewEv SubmitAdd) drafted)))
    !! doc_name (next_doc (fs_db (aw_store drafted))) = Some (mkDocData "Buy milk" false None "uid-ada") /\
  modalMessage (aw_view (app_event (ViewEv SubmitAdd) drafted)) = "Task added successfully!" /\
  newTaskTitle (aw_view (app_event (ViewEv SubmitAdd) drafted)) = "".
Proof.
  apply (app_submit_add drafted ada drafted_ok).
  - vm_compute. reflexivity.
  - vm_compute. reflexivity.
  - vm_compute. reflexivity.
Defined.

(** Ada types a title of a space, a no-break space and an ideographic
    space. *)
Definition blank_drafted : AppWorld :=
  app_run [ViewEv (TypeNewTitle (utf8_encode [32; 160; 12288]%Z))] signed_in.

Lemma app_blank_title_refused_witness :
  app_screen blank_drafted = TaskManagerView /\
  all_space (newTaskTitle (aw_view blank_drafted)) = true /\
  app_event (ViewEv SubmitAdd) blank_drafted =
    mkAppWorld (aw_auth blank_drafted) (aw_store blank_drafted) (aw_screen blank_drafted)
      (showInfoModal "Task title cannot be empty." (aw_view blank_drafted)).
Proof.
  assert (Hs : app_screen blank_drafted = TaskManagerView) by (vm_compute; reflexivity).
  assert (Hb : all_space (newTaskTitle (aw_view blank_drafted)) = true) by (vm_compute; reflexivity).
  split_and!; [exact Hs|exact Hb|]. exact (proj1 (app_blank_title_refused blank_drafted "" Hs) Hb).
Defined.

(** Ada's "Buy milk" is stored and delivered. *)
Definition added : AppWorld := app_run [ViewEv SubmitAdd; PushEv PDeliver] drafted.

Lemma added_ok : app_ok added.
Proof. unfold added. apply app_run_invariant; [apply app_event_ok|apply drafted_ok]. Qed.

Lemma app_toggle_complete_witness :
  let p := tasks_path (owner_key (uid ada)) in
  let db := fs_db (aw_store added) in
  let a' := app_event (ViewEv (ClickToggle milk_doc)) added in
  match fs_failure db, collection_docs p db !! id milk_doc with
  | None, Some d =>
      collection_docs p (fs_db (aw_store a')) =
        <[id milk_doc := mkDocData (d_title d) (negb (completed milk_doc)) (d_createdAt d) (d_userId d)]>
          (collection_docs p db) /\
      aw_view a' = aw_view added
  | _, _ =>
      fs_db (aw_store a') = db /\ modalType (aw_view a') = ModalError /\
      exists m, modalMessage (aw_view a') = "Failed to update task status: " +:+ m
  end.
Proof.
  apply (app_toggle_complete added ada milk_doc added_ok); vm_compute; reflexivity.
Defined.

Lemma app_delete_task_witness :
  let p := tasks_path (owner_key (uid ada)) in
  let db := fs_db (aw_store added) in
  let a' := app_event (ViewEv (ClickDelete "doc0")) added in
  match fs_failure db with
  | None =>
      collection_docs p (fs_db (aw_store a')) = delete "doc0" (collection_docs p db) /\
      modalType (aw_view a') = ModalInfo /\ modalMessage (aw_view a') = "Task deleted successfully!"
  | Some m =>
      fs_db (aw_store a') = db /\ modalType (aw_view a') = ModalError /\
      modalMessage (aw_view a') = "Failed to delete task: " +:+ m
  end.
Proof.
  apply (app_delete_task added ada "doc0" added_ok); vm_compute; reflexivity.
Defined.

(** an end-to-end session: Ada, whose anonymous sign-in failed,
    logs in on the [AuthScreen]; she adds "Buy milk", which is shown with
    a pending timestamp; an edit she cancels leaves it as it was; an edit
    she saves renames it, and after the server's commit it is shown with
    its time; when she logs out, the observer's anonymous sign-in fails
    and the [TaskManager] still shows her as signed in, with her tasks. *)
Lemma session_behaviour :
  let a1 := app_run session_events drafted in
  let a2 := app_run session_events2 a1 in
  fs_tasks (aw_store a1) = [milk_doc] /\ editingTaskId (aw_view a1) = None /\
  fs_tasks (aw_store a2) = [mkTaskDoc "doc0" "Buy bread" false (Some t1) "uid-ada"] /\
  app_screen a2 = TaskManagerView /\ currentUser (provider (aw_auth a2)) = Some ada /\
  fb_user (firebase (aw_auth a2)) = None /\
  authError (provider (aw_auth a2)) = Some "Firebase: Error (auth/admin-restricted-operation).".
Proof. vm_compute. split_and!; reflexivity. Qed.

Module SignUp.

(** The anonymous sign-in fails, the [AuthScreen] is shown; Bob switches
    to registration and fills in the form. *)
Definition reg_ready : AppWorld :=
  app_run [ObserverCall; AuthScreenEv ToggleRegistering; AuthScreenEv (TypeEmail "bob@example.com");
           AuthScreenEv (TypePassword "hunter22")] (app_init fb0 db0).

(** Ada mistypes her password. *)
Definition bad_login : AppWorld :=
  app_run [ObserverCall; AuthScreenEv (TypeEmail "ada@example.com");
           AuthScreenEv (TypePassword "secret2")] (app_init fb0 db0).

End SignUp.
Import SignUp.

Lemma register_shows_task_manager_witness :
  let u := mkUser (fresh_uid (firebase (aw_auth reg_ready))) (Some (email (aw_screen reg_ready))) false in
  let a1 := app_event (AuthScreenEv Submit) reg_ready in
  let a2 := app_event ObserverCall a1 in
  message (aw_screen a1) = "Registration successful! You are now logged in." /\
  app_screen a2 = TaskManagerView /\ currentUser (provider (aw_auth a2)) = Some u /\
  listener (aw_store a2) = Some (tasks_path (uid u)) /\ aw_view a2 = initialState.
Proof.
  apply register_shows_task_manager; vm_compute; try reflexivity. lia.
Defined.
