(* ===== verification/Render.v ===== *)
(** * What the screens show ([src/client/src/App.jsx] JSX and
      [src/client/src/component/modal.js])

    The JSX of [TaskManager], [AuthScreen] and [App], and the [Modal]
    component, as functions from the state they read to a record of what
    is shown: texts, the values of the inputs, the task rows with their
    buttons, and the event each button sends.  CSS classes are kept only
    where they carry meaning (the modal's colours, a struck-through
    title, the selected filter). *)
From S2P Require Import Prelude JsRuntime TaskBackend TaskManager Auth Firestore App.

(** ** [Modal] *)

Record ModalView : Type := mkModalView {
  modalColorClass : string;
  textColorClass : string;
  buttonBgClass : string;
  heading : string;
  modal_text : string
}.

(** [if (!show) return null]; otherwise the colours and the heading
    follow [type === 'error']; the OK button calls [onClose]. *)
Definition Modal (show : bool) (message : string) (type : ModalType) : option ModalView :=
  if negb show then None
  else
    let err := bool_decide (type = ModalError) in
    Some (mkModalView (if err then "border-red-500" else "border-blue-500")
                      (if err then "text-red-700" else "text-blue-700")
                      (if err then "bg-red-600 hover:bg-red-700" else "bg-blue-600 hover:bg-blue-700")
                      (if err then "Error!" else "Information")
                      message).

(** ** [TaskManager] *)

(** A string rendered by [{s && ...}]: absent when [null] or empty. *)
Definition truthy_text (s : option string) : option string :=
  match s with
  | Some e => if String.eqb e "" then None else Some e
  | None => None
  end.

(** The main part of a row: the edit input, or the title, struck through
    when the task is completed. *)
Inductive RowMain : Type :=
| RowInput (value : string)
| RowTitle (text : string) (struck : bool).

Record RowView : Type := mkRowView {
  row_key : string;
  row_main : RowMain;
  row_buttons : list (string * UiEvent)
}.

(** One [<li>] of [sortedTasks.map]: [editingTaskId === task.id] chooses
    between the edit input with Save and Cancel, and the title with
    Complete or Undo, Edit and Delete. *)
Definition task_row (st : TaskManagerState) (task : TaskDoc) : RowView :=
  if bool_decide (editingTaskId st = Some (id task)) then
    mkRowView (id task) (RowInput (editingTaskTitle st))
      [("Save", ClickSave (id task)); ("Cancel", ClickCancel)]
  else
    mkRowView (id task) (RowTitle (title task) (completed task))
      [(if completed task then "Undo" else "Complete", ClickToggle task);
       ("Edit", ClickEdit task); ("Delete", ClickDelete (id task))].

Inductive TaskList : Type :=
| NoTasks                       (** "No tasks found. Add a new task to get started!" *)
| TaskRows (rows : list RowView).

Record TaskManagerRender : Type := mkTaskManagerRender {
  greeting : option string;                       (** "Hello, {currentUser.email}" *)
  error_alert : option string;                    (** [{firestoreError && ...}] *)
  new_task_value : string;                        (** the add input's [value] *)
  filter_buttons : list (string * bool * UiEvent); (** label, selected, event *)
  sort_value : SortOrder;                         (** the select's [value] *)
  task_list : TaskList;
  user_id_text : string;                          (** [currentUser?.uid || 'Not available'] *)
  modal_view : option ModalView
}.

Definition taskManagerView `{LocaleCollation} (cu : option User) (ts : list TaskDoc)
    (ferr : option string) (st : TaskManagerState) : TaskManagerRender :=
  let shown := sortedTasks ts (filter st) (sort st) in
  mkTaskManagerRender
    (match cu with
     | Some u => option_map (fun e => "Hello, " +:+ e) (truthy_text (Auth.email u))
     | None => None
     end)
    (truthy_text ferr)
    (newTaskTitle st)
    [("All", bool_decide (filter st = FilterAll), ClickFilter FilterAll);
     ("Active", bool_decide (filter st = FilterActive), ClickFilter FilterActive);
     ("Completed", bool_decide (filter st = FilterCompleted), ClickFilter FilterCompleted)]
    (sort st)
    (match shown with [] => NoTasks | _ => TaskRows (map (task_row st) shown) end)
    (match cu with
     | Some u => if String.eqb (uid u) "" then "Not available" else uid u
     | None => "Not available"
     end)
    (Modal (showModal st) (modalMessage st) (modalType st)).

Definition is_editing (r : RowView) : bool :=
  match row_main r with RowInput _ => true | RowTitle _ _ => false end.

(** ** [AuthScreen] *)

Record AuthScreenRender : Type := mkAuthScreenRender {
  as_heading : string;
  as_error : option string;       (** [{authError && ...}] *)
  as_message : option string;     (** [{message && ...}] *)
  as_email : string;
  as_password : string;
  as_submit_label : string;
  as_toggle_label : string
}.

Definition authScreenRender (authError : option string) (s : AuthScreenState) : AuthScreenRender :=
  mkAuthScreenRender
    (if isRegistering s then "Register" else "Login")
    (truthy_text authError)
    (truthy_text (Some (message s)))
    (email s) (password s)
    (if isRegistering s then "Register" else "Login")
    (if isRegistering s then "Already have an account? Login" else "Need an account? Register").

(** ** [App] *)

Inductive AppView : Type :=
| VLoading (text : string)
| VAuth (v : AuthScreenRender)
| VTaskManager (v : TaskManagerRender).

Definition appView `{LocaleCollation} (a : AppWorld) : AppView :=
  match app_screen a with
  | LoadingScreen => VLoading "Loading authentication..."
  | AuthScreenView => VAuth (authScreenRender (authError (provider (aw_auth a))) (aw_screen a))
  | TaskManagerView =>
      VTaskManager (taskManagerView (currentUser (provider (aw_auth a))) (fs_tasks (aw_store a))
                      (fs_error (aw_store a)) (aw_view a))
  end.

(** ** Lemmas *)

Lemma is_editing_task_row st t :
  is_editing (task_row st t) = bool_decide (editingTaskId st = Some (id t)).
Proof. unfold task_row. by case_bool_decide. Qed.

(** In a list without duplicate keys, at most one element has a given key. *)
Lemma filter_key_unique {A} (k : A -> string) (v : string) (l : list A) :
  NoDup (map k l) -> length (List.filter (fun x => bool_decide (Some v = Some (k x))) l) <= 1.
Proof.
  induction l as [|x l IH]; cbn; [lia|]. intros Hnd. apply NoDup_cons in Hnd as [Hx Hnd].
  case_bool_decide as Hv; cbn; [|by apply IH].
  injection Hv as ->. rewrite filter_all_false; [cbn; lia|].
  intros y Hy. apply bool_decide_eq_false. intros [= Hy']. apply Hx.
  apply list_elem_of_In, in_map_iff. by exists y.
Qed.

Lemma sortedTasks_ids_nodup `{LocaleCollation} ts f o :
  NoDup (map id ts) -> NoDup (map id (sortedTasks ts f o)).
Proof.
  intros Hnd. unfold sortedTasks. rewrite (Permutation_map id (js_sort_perm _ _)).
  by apply NoDup_map_filter.
Qed.

(** ** At most one task is being edited *)

(** C33: when the delivered tasks have distinct ids, at most one row of
    the list shows the edit input: the row of [editingTaskId], holding
    the draft, whose Save saves that task and whose Cancel leaves edit
    mode; every other row shows its title with Complete (or Undo), Edit
    and Delete. *)
Theorem at_most_one_editing_row `{LocaleCollation} cu ts ferr st :
  NoDup (map id ts) ->
  match task_list (taskManagerView cu ts ferr st) with
  | NoTasks => sortedTasks ts (filter st) (sort st) = []
  | TaskRows rows =>
      length (List.filter is_editing rows) <= 1 /\
      Forall (fun r => is_editing r = true ->
                editingTaskId st = Some (row_key r) /\ row_main r = RowInput (editingTaskTitle st) /\
                row_buttons r = [("Save", ClickSave (row_key r)); ("Cancel", ClickCancel)]) rows
  end.
Proof.
  intros Hnd. pose proof (sortedTasks_ids_nodup ts (filter st) (sort st) Hnd) as Hnd'.
  cbn [task_list taskManagerView].
  destruct (sortedTasks ts (filter st) (sort st)) as [|t0 l0] eqn:Hs; [done|]. rewrite <- Hs in Hnd' |- *.
  split.
  - rewrite filter_map_swap, length_map.
    erewrite List.filter_ext; [|intros x; apply is_editing_task_row].
    destruct (editingTaskId st) as [v|].
    + by apply (filter_key_unique id v).
    + rewrite filter_all_false; [cbn; lia|]. intros x _. by apply bool_decide_eq_false.
  - apply List.Forall_forall. intros r (t & <- & _)%in_map_iff. rewrite is_editing_task_row.
    unfold task_row. case_bool_decide as He; [|done]. intros _. by rewrite He.
Qed.

(** ** Failures are shown in an error modal *)

Section Failures.
Context {S : Type} `{TaskBackend S} `{LocaleCollation}.

(** C32: when a store call of the view rejects, the screen then shows the
    modal in its error form: the red colours, the heading "Error!" and a
    text that ends with the error's message. *)
Theorem failure_shown_in_error_modal e st (s : S) m s1 cu ts ferr :
  backend_call e st s = Some (Throws m, s1) ->
  exists prefix,
    modal_view (taskManagerView cu ts ferr (fst (dispatch e st s))) =
    Some (mkModalView "border-red-500" "text-red-700" "bg-red-600 hover:bg-red-700" "Error!" (prefix +:+ m)).
Proof.
  intros Hc. pose proof (dispatch_failure_reported e st s m s1 Hc) as Hd.
  destruct (dispatch e st s) as [st' s']. destruct Hd as (_ & Hshow & Htype & [prefix Hmsg] & _).
  exists prefix. cbn. unfold Modal. by rewrite Hshow, Htype, Hmsg.
Qed.

End Failures.

(** ** A failed login is shown *)

(** A failed login on the [AuthScreen] is shown to the user: the
    screen is the login form again, with Firebase's message in the alert,
    no success message, and the e-mail and password as typed. *)
Lemma login_failure_shown `{LocaleCollation} a m :
  app_screen a = AuthScreenView -> isRegistering (aw_screen a) = false ->
  signInWithEmailAndPassword (email (aw_screen a)) (password (aw_screen a)) (firebase (aw_auth a)) = Throws m ->
  m <> "" ->
  appView (app_event (AuthScreenEv Submit) a) =
  VAuth (mkAuthScreenRender "Login" (Some m) None (email (aw_screen a)) (password (aw_screen a))
           "Login" "Need an account? Register").
Proof.
  intros Hs Hr Hf Hm. destruct (login_failure_reported a m Hs Hr Hf) as (He & _ & Hs1 & _ & _ & Hscr).
  unfold appView. rewrite Hs1. f_equal. rewrite He, Hscr. unfold authScreenRender. cbn.
  rewrite Hr. apply String.eqb_neq in Hm. by rewrite Hm.
Qed.

(** ** Concrete screens *)

Import ViewDemo SignUp.

Lemma at_most_one_editing_row_witness :
  match task_list (taskManagerView None ts0 None (setEditing (Some "a") "Walk the dog" initialState)) with
  | NoTasks => sortedTasks ts0 FilterAll SortNewest = []
  | TaskRows rows =>
      length (List.filter is_editing rows) <= 1 /\
      Forall (fun r => is_editing r = true ->
                Some "a" = Some (row_key r) /\ row_main r = RowInput "Walk the dog" /\
                row_buttons r = [("Save", ClickSave (row_key r)); ("Cancel", ClickCancel)]) rows
  end.
Proof.
  apply (at_most_one_editing_row None ts0 None (setEditing (Some "a") "Walk the dog" initialState)).
  apply (bool_decide_unpack (NoDup (map id ts0))). vm_compute. exact I.
Defined.

Lemma failure_shown_in_error_modal_witness :
  exists prefix,
    modal_view (taskManagerView None ts0 None (fst (dispatch (ClickToggle ghost) initialState ts0))) =
    Some (mkModalView "border-red-500" "text-red-700" "bg-red-600 hover:bg-red-700" "Error!"
            (prefix +:+ "No document to update: z")).
Proof. apply (failure_shown_in_error_modal _ _ _ _ ts0). vm_compute. reflexivity. Defined.

