(* ===== verification/AsyncApp.v ===== *)
(** * The application with its [await]s split ([src/client/src/App.jsx],
      [src/client/src/context/FirestoreContext.js])

    [App] composes the providers and the screens with each awaited call
    completing before the next event.  Here the calls of the
    [TaskManager] are split as in [Async], and so are the provider's
    writes they call: [addTask], [updateTask] and [deleteTask] clear the
    error, return at once without a user, and otherwise hand the write to
    Firestore, whose local cache applies it at once; the [catch] that
    records a rejection in [firestoreError] runs when the promise
    settles ([provider_start], [provider_settle]).

    Settling a promise runs the provider's continuation, and the view's
    continuation only when the [TaskManager] instance that awaited it is
    still mounted: React ignores the state setters of an unmounted
    component.  [aa_mount] counts the mounts of the [TaskManager], and
    every pending call records the mount that started it. *)
From S2P Require Import Prelude JsRuntime TaskBackend TaskManager Auth Firestore Async App.

(** ** The provider's writes split at their [await] *)

(** Up to the [await]: clear the error; without a user record "User not
    authenticated." and return; otherwise start the write. *)
Definition provider_start (write : string -> FsDb -> outcome FsDb) (c : FirestoreState)
  : outcome unit * FirestoreState :=
  let c := setFirestoreError None c in
  match fs_currentUser c with
  | None => (Returns tt, setFirestoreError (Some "User not authenticated.") c)
  | Some _ =>
      match write (tasks_path (userId c)) (fs_db c) with
      | Returns db' => (Returns tt, set_db db' c)
      | Throws m => (Throws m, c)
      end
  end.

(** After the [await]: the [catch] records the message and rethrows. *)
Definition provider_settle (r : outcome unit) (c : FirestoreState) : FirestoreState :=
  match r with
  | Returns _ => c
  | Throws m => setFirestoreError (Some m) c
  end.

(** The context value as the view calls it: each write up to its [await]. *)
Definition started_backend : TaskBackend FirestoreState := {|
  tasks := fs_tasks;
  firestoreError := fs_error;
  addTask := fun t c => provider_start (add_write t c) c;
  updateTask := fun i u c => provider_start (fun p db => updateDoc p i u db) c;
  deleteTask := fun i c => provider_start (fun p db => deleteDoc p i db) c
|}.

(** ** The application *)

Record AsyncApp : Type := mkAsyncApp {
  aa_world : AppWorld;
  aa_mount : nat;                           (** mounts of the [TaskManager] so far *)
  aa_pending : list (nat * PendingCall)     (** the mount that awaits, and the call *)
}.

Inductive AsyncAppEvent : Type :=
| AppEv (e : AppEvent)      (** an event of [App], a view event up to its [await] *)
| Settle (n : nat).         (** the [n]-th pending promise settles *)

(** [App] mounts a new [TaskManager] when it shows it after another screen. *)
Definition mounts (old : Screen) (a : AppWorld) (g : nat) : nat :=
  if decide (app_screen a = TaskManagerView /\ old <> TaskManagerView) then S g else g.

Definition aa_event (e : AsyncAppEvent) (x : AsyncApp) : AsyncApp :=
  let a := aa_world x in
  match e with
  | AppEv (ViewEv ev) =>
      if decide (app_screen a = TaskManagerView) then
        let '(st', c', p) := @start _ started_backend ev (aw_view a) (aw_store a) in
        mkAsyncApp (mkAppWorld (aw_auth a) c' (aw_screen a) st') (aa_mount x)
          (aa_pending x ++ option_list ((fun p => (aa_mount x, p)) <$> p))
      else x
  | AppEv ev =>
      let a' := app_event ev a in
      mkAsyncApp a' (mounts (app_screen a) a' (aa_mount x)) (aa_pending x)
  | Settle n =>
      match aa_pending x !! n with
      | Some (g, p) =>
          let st := if decide (g = aa_mount x /\ app_screen a = TaskManagerView)
                    then resume (p_kind p) (p_result p) (aw_view a) else aw_view a in
          mkAsyncApp (mkAppWorld (aw_auth a) (provider_settle (p_result p) (aw_store a))
                        (aw_screen a) st)
            (aa_mount x) (delete n (aa_pending x))
      | None => x
      end
  end.

Definition aa_run (es : list AsyncAppEvent) (x : AsyncApp) : AsyncApp :=
  fold_left (fun x e => aa_event e x) es x.

(** ** Splitting is faithful *)

Lemma provider_start_settle write c :
  let '(r, c') := provider_start write c in (r, provider_settle r c') = provider_write write c.
Proof.
  unfold provider_start, provider_write. cbn [fs_currentUser setFirestoreError].
  destruct (fs_currentUser c); [|done]. by destruct (write _ _).
Qed.

(** Splitting a store call, then settling it. *)
Ltac split_call :=
  match goal with
  | |- context [provider_start ?w ?c] =>
      let E := fresh "E" in
      pose proof (provider_start_settle w c) as E;
      destruct (provider_start w c) as [[[]|?] ?]; rewrite <-E; done
  end.

(** Each view event started and settled at once is the atomic handler on
    the Firestore provider. *)
Lemma start_settle_dispatch e st c :
  let '(st', c', p) := @start _ started_backend e st c in
  match p with
  | Some p => (resume (p_kind p) (p_result p) st', provider_settle (p_result p) c')
  | None => (st', c')
  end = dispatch e st c.
Proof.
  destruct e; unfold start, dispatch; try done;
    unfold handleAddTask, handleToggleComplete, handleSaveEdit, handleDeleteTask;
    cbn [addTask updateTask deleteTask started_backend firestore_backend];
    unfold fs_addTask, fs_updateTask, fs_deleteTask;
    try (destruct (String.eqb _ _); [done|]); split_call.
Qed.

Lemma aa_run_app es1 es2 x : aa_run (es1 ++ es2) x = aa_run es2 (aa_run es1 x).
Proof. apply fold_left_app. Qed.

(** An event of [App] followed by the settlement of the call it started,
    if any, is the event of the atomic application. *)
Lemma aa_event_settled e x :
  aa_pending x = [] ->
  aa_world (aa_event (Settle 0) (aa_event (AppEv e) x)) = app_event e (aa_world x) /\
  aa_pending (aa_event (Settle 0) (aa_event (AppEv e) x)) = [].
Proof.
  destruct x as [a g ps]; cbn [aa_pending]; intros ->.
  destruct e as [|ev|ev| |p]; try done.
  cbn [aa_event app_event aa_world aa_mount aa_pending]. case_decide as Hs; [|done].
  pose proof (start_settle_dispatch ev (aw_view a) (aw_store a)) as Hd.
  destruct (start _ _ _) as [[st' c'] [p|]]; rewrite <-Hd; cbn [option_list fmap option_fmap option_map app].
  - cbn [aa_event aa_pending aa_world aa_mount lookup list_lookup].
    change (option_list (Some (g, p))) with [(g, p)]. cbn [lookup list_lookup aa_world aw_auth aw_store aw_screen aw_view].
    rewrite decide_True by (split; [done|exact Hs]). done.
  - done.
Qed.

(** ** When every call settles at once *)

(** When every promise settles before the next event, the interleaved
    application is the atomic one of [App]: a run of application events,
    each followed by the settlement of the call it started, ends in the
    world [app_run] gives, with nothing pending. *)
Lemma app_serialised_is_atomic es a g :
  let x := aa_run (flat_map (fun e => [AppEv e; Settle 0]) es) (mkAsyncApp a g []) in
  aa_world x = app_run es a /\ aa_pending x = [].
Proof.
  cbn zeta. revert a g; induction es as [|e es IH]; intros a g; [done|].
  cbn [flat_map]. rewrite aa_run_app.
  change (aa_run [AppEv e; Settle 0] ?x) with (aa_event (Settle 0) (aa_event (AppEv e) x)).
  destruct (aa_event_settled e (mkAsyncApp a g []) eq_refl) as [Hw Hp].
  destruct (aa_event (Settle 0) (aa_event (AppEv e) (mkAsyncApp a g []))) as [a' g' ps'].
  cbn [aa_world aa_pending] in Hw, Hp; subst. change (app_run (e :: es) a) with (app_run es (app_event e a)). apply IH.
Qed.

(** ** Coherence along every interleaving *)

(** [app_ok] reads the providers, not the screens, nor the error. *)
Lemma app_ok_settle r w c s v s' v' :
  app_ok (mkAppWorld w (provider_settle r c) s v) <-> app_ok (mkAppWorld w c s' v').
Proof. destruct r, c; reflexivity. Qed.

Lemma aa_event_ok e x : app_ok (aa_world x) -> app_ok (aa_world (aa_event e x)).
Proof.
  destruct x as [a g ps]; cbn [aa_world]; intros Ha.
  destruct e as [[|ev|ev| |p]|n]; cbn [aa_event aa_world]; try by apply app_event_ok.
  - case_decide as Hs; [|done].
    pose proof (start_settle_dispatch ev (aw_view a) (aw_store a)) as Hd.
    pose proof (app_event_ok (ViewEv ev) a Ha) as Hok. cbn [app_event] in Hok.
    rewrite decide_True in Hok by done.
    destruct (start _ _ _) as [[st' c'] [p|]]; cbn iota beta in Hd; rewrite <-Hd in Hok; [|done].
    exact (proj1 (app_ok_settle (p_result p) _ _ _ _ _ _) Hok).
  - cbn [aa_pending aa_mount]. destruct (ps !! n) as [[g' p]|]; [|exact Ha].
    apply (app_ok_settle _ _ _ _ _ (aw_screen a) (aw_view a)). by destruct a.
Qed.

Lemma aa_run_invariant (P : AsyncApp -> Prop) :
  (forall e x, P x -> P (aa_event e x)) -> forall es x, P x -> P (aa_run es x).
Proof.
  intros Hstep es. unfold aa_run. induction es as [|e es IH]; intros x Hx; [done|].
  cbn. apply IH, Hstep, Hx.
Qed.

(** C7: from the page load on, along every interleaving of application
    events and settlements of the view's calls, in any order, the store
    provider sees the auth provider's user and loading flag, a live
    listener is on the signed-in user's collection, and every stored
    document is in its owner's collection. *)
Theorem interleaved_run_ok fb db es :
  store_owned db -> app_ok (aa_world (aa_run es (mkAsyncApp (app_init fb db) 0 []))).
Proof.
  intros Hdb. apply (aa_run_invariant (fun x => app_ok (aa_world x))); [apply aa_event_ok|].
  by apply app_init_ok.
Qed.

(** ** Continuations once signed in *)

(** While every uid is non-empty and the [TaskManager] is shown, an event
    of [App] keeps it shown and mounted, and keeps every pending call. *)
Lemma aa_app_event_keeps e x n q :
  auth_uids_ok (aw_auth (aa_world x)) -> app_screen (aa_world x) = TaskManagerView ->
  aa_pending x !! n = Some q ->
  let y := aa_event (AppEv e) x in
  auth_uids_ok (aw_auth (aa_world y)) /\ app_screen (aa_world y) = TaskManagerView /\
  aa_mount y = aa_mount x /\ aa_pending y !! n = Some q.
Proof.
  destruct x as [a g ps]; cbn [aa_world aa_pending aa_mount]. intros Hok Hs Hn.
  destruct (app_event_keeps_task_manager e a Hok Hs) as [Hok' Hs'].
  destruct e as [|ev|ev| |p];
    try (cbn [aa_event aa_world aa_mount aa_pending]; unfold mounts;
         rewrite decide_False by (intros [_ Hne]; exact (Hne Hs)); done).
  cbn [aa_event aa_world aa_mount aa_pending]. rewrite decide_True by done.
  destruct (start _ _ _) as [[st' c'] p]; cbn [aa_world aa_mount aa_pending aw_auth].
  split_and!; [done|done|done|]. by apply lookup_app_l_Some.
Qed.

(** C12: once signed in (every uid non-empty) with the [TaskManager]
    shown, a call it started is acknowledged by the shown [TaskManager]
    whatever events of [App] come before it settles: logout, a new
    sign-in of another user, snapshots, view events.  The [TaskManager]
    stays mounted, so its continuation runs on the state the view has
    then. *)
Theorem pending_resumes_after_app_events x es n p :
  auth_uids_ok (aw_auth (aa_world x)) -> app_screen (aa_world x) = TaskManagerView ->
  aa_pending x !! n = Some (aa_mount x, p) ->
  let y := aa_run (map AppEv es) x in
  aw_view (aa_world (aa_event (Settle n) y)) = resume (p_kind p) (p_result p) (aw_view (aa_world y)).
Proof.
  intros Hok Hs Hn. cbn zeta.
  assert (Hy : let y := aa_run (map AppEv es) x in
    auth_uids_ok (aw_auth (aa_world y)) /\ app_screen (aa_world y) = TaskManagerView /\
    aa_mount y = aa_mount x /\ aa_pending y !! n = Some (aa_mount x, p)).
  { clear -Hok Hs Hn. revert x Hok Hs Hn. unfold aa_run.
    induction es as [|e es IH]; intros x Hok Hs Hn; [done|]. cbn [map fold_left].
    destruct (aa_app_event_keeps e x n _ Hok Hs Hn) as (Hok' & Hs' & Hm & Hn').
    rewrite <-Hm. apply IH; [done|done|by rewrite Hm]. }
  destruct Hy as (_ & Hs' & Hm & Hn'). destruct (aa_run _ x) as [a g ps].
  cbn [aa_event aa_world aa_mount aa_pending aw_view] in *. rewrite Hn'.
  cbn [aw_view]. rewrite decide_True by done. done.
Qed.

(** ** A session with anonymous sign-in *)

Module AnonSession.
Import Session.

(** Anonymous sign-in is enabled: the page loads signed in. *)
Definition fb_anon : FirebaseAuth := mkFirebaseAuth None ∅ 0 true None.

(** The anonymous user types a title and submits it; the call is pending. *)
Definition adding : AsyncApp :=
  aa_run [AppEv ObserverCall; AppEv ObserverCall; AppEv (ViewEv (TypeNewTitle "Buy milk"));
          AppEv (ViewEv SubmitAdd)] (mkAsyncApp (app_init fb_anon db0) 0 []).

(** Logout; the observer signs a new anonymous user in, who types a title. *)
Definition switch_events : list AppEvent :=
  [LogoutClick; ObserverCall; ObserverCall; ViewEv (TypeNewTitle "Call mom")].

End AnonSession.
Import AnonSession.

Lemma interleaved_run_ok_witness :
  app_ok (aa_world (aa_run ([AppEv ObserverCall; AppEv ObserverCall;
    AppEv (ViewEv (TypeNewTitle "Buy milk")); AppEv (ViewEv SubmitAdd)] ++ map AppEv switch_events ++ [Settle 0])
    (mkAsyncApp (app_init fb_anon Session.db0) 0 []))).
Proof.
  apply interleaved_run_ok. intros v m i d. cbn. by rewrite lookup_empty.
Defined.

Lemma pending_resumes_after_app_events_witness :
  let y := aa_run (map AppEv switch_events) adding in
  currentUser (provider (aw_auth (aa_world y))) <> currentUser (provider (aw_auth (aa_world adding))) /\
  aw_view (aa_world (aa_event (Settle 0) y)) =
    resume KAdd (Returns tt) (aw_view (aa_world y)).
Proof.
  split; [vm_compute; congruence|].
  apply (pending_resumes_after_app_events adding switch_events 0 (mkPendingCall KAdd (Returns tt))).
  - apply (bool_decide_unpack (auth_uids_ok (aw_auth (aa_world adding)))). vm_compute. exact I.
  - vm_compute. reflexivity.
  - vm_compute. reflexivity.
Defined.
